(** * Memory and action engine of the voice assistant ([voice_assistant/app.py])

    A shallow embedding of the memory store, the confirmation/action
    dispatcher ([handle_action]), the retention sweeper ([clean_memory]), the
    contextual projection ([update_contextual_memory]), one tick of the
    reminder scheduler ([check_reminders]) and the turn initiator
    ([should_initiate_turn], [initiate_turn]), followed by the properties of
    the specification that concern them and by further properties of the
    code.

    Modelling conventions.
    - Python [str] is [string]; [lower], [strip] and [split] act on ASCII.
    - A [datetime] is an integer number of microseconds on the naive local
      time line, a [timedelta] is a difference of two of them.  The library
      calls [datetime.strptime(_, "%Y-%m-%d %H:%M:%S")], [strftime] with the
      same format and [strftime("%B %d at %I:%M %p")] form the interface
      [DateTime]; [strptime] answers [None] where Python raises [ValueError].
      Every general statement holds for any implementation of the interface;
      [iso_datetime] implements it for zero-padded strings and is used in the
      concrete scenarios.
    - One value [now] stands for all the readings of [datetime.now()] made
      during one call of an operation.
    - The dictionaries the code builds itself (reminders, events, facts,
      conversation records) are records; an intent is the record of the keys
      that [handle_action] reads, each one optional, with string-valued
      fields holding strings.
    - [speak] and [show_notification] append to the log of the state;
      [print], the displays and [save_memory] neither read a result nor
      change the memory (each has its own [try]/[except]) and are left out.
    - A raised exception is [None]; the [except] clause of the enclosing
      function keeps the mutations made so far.
    - The reminder dicts are the only objects that the code changes after
      building them, and [contextual["active_reminders"]] holds the very
      dicts of [long_term["reminders"]]: an entry of that view is a
      reference ([ReminderRef]) into the long-term list, so that a change
      made in place there shows in the view.  Facts, events and conversation
      records are never changed once built; the lists that share them hold
      values. *)

From Stdlib Require Import ZArith String Ascii List Bool Lia Sorted.
From stdpp Require Import base decidable option list gmap strings pretty.

Open Scope Z_scope.
Open Scope string_scope.

(** ** Strings *)

Definition is_upper (c : ascii) : bool :=
  let n := nat_of_ascii c in (Nat.leb 65 n && Nat.leb n 90)%bool.

Definition lower_ascii (c : ascii) : ascii :=
  if is_upper c then ascii_of_nat (nat_of_ascii c + 32) else c.

(** [str.lower()] *)
Fixpoint lower (s : string) : string :=
  match s with
  | EmptyString => EmptyString
  | String c s' => String (lower_ascii c) (lower s')
  end.

(** The ASCII characters for which [str.isspace()] holds. *)
Definition is_space (c : ascii) : bool :=
  let n := nat_of_ascii c in
  ((Nat.leb 9 n && Nat.leb n 13) || (Nat.leb 28 n && Nat.leb n 32))%bool.

Fixpoint lstrip (s : string) : string :=
  match s with
  | EmptyString => EmptyString
  | String c s' => if is_space c then lstrip s' else s
  end.

(** [str.strip()] *)
Definition strip (s : string) : string :=
  String.rev (lstrip (String.rev (lstrip s))).

(** [str.split()]: the maximal runs of non-space characters, in order.
    [cur] is the run being read, reversed. *)
Fixpoint split_aux (cur : string) (s : string) : list string :=
  match s with
  | EmptyString =>
      match cur with EmptyString => [] | _ => [String.rev cur] end
  | String c s' =>
      if is_space c
      then match cur with
           | EmptyString => split_aux EmptyString s'
           | _ => String.rev cur :: split_aux EmptyString s'
           end
      else split_aux (String c cur) s'
  end.

Definition split (s : string) : list string := split_aux EmptyString s.

(** [sub in s] on strings *)
Fixpoint contains (sub s : string) : bool :=
  (String.prefix sub s ||
   match s with
   | EmptyString => false
   | String _ s' => contains sub s'
   end)%bool.

(** [s[:n]] *)
Definition take_str (n : nat) (s : string) : string := String.substring 0 n s.

(** [l[-n:]] for [n > 0] *)
Definition last_n {A} (n : nat) (l : list A) : list A :=
  skipn (List.length l - n) l.

(** ** Dates and times *)

Definition datetime : Type := Z.
Definition timedelta : Type := Z.

Definition usec_per_sec : Z := 1000000.
Definition usec_per_day : Z := 86400 * usec_per_sec.

(** [timedelta.days]: Python normalises a [timedelta] so that seconds and
    microseconds are non-negative, hence the floor. *)
Definition days (d : timedelta) : Z := d / usec_per_day.

(** [timedelta(seconds=n)], used for the comparisons of [total_seconds()]
    with an integer constant: [d.total_seconds() <= n] is [d <= seconds n]. *)
Definition seconds (n : Z) : timedelta := n * usec_per_sec.

Class DateTime := {
  strptime : string -> option datetime;
  strftime : datetime -> string;
  strftime_spoken : datetime -> string
}.

(** Memory management constants *)
Definition CONTEXT_WINDOW_DAYS : Z := 7.
Definition LONG_TERM_WINDOW_DAYS : Z := 365.
Definition MAX_CONTEXT_CONVERSATIONS : nat := 50.
Definition MAX_ACTIVE_CONTEXT : nat := 10.

(** ** The memory *)

Record Fact := {
  f_content : string;
  f_category : string;
  f_timestamp : string
}.

Record Event := {
  e_description : string;
  e_datetime : string;
  e_created_at : string
}.

Record Reminder := {
  r_message : string;
  r_datetime : string;
  r_created_at : string;
  r_status : string;
  r_completed_at : option string
}.

Record Conversation := {
  c_text : string;
  c_action : string;
  c_timestamp : string
}.

Record LongTerm := {
  facts : list Fact;
  preferences : gmap string string;
  events : list Event;
  reminders : list Reminder;
  conversations : list Conversation
}.

(** An entry of [contextual["active_reminders"]].  The comprehension that
    fills the view puts into it the reminder dicts of the long-term list
    themselves, not copies, and [clear_reminders] and [check_reminders]
    change these dicts in place.  [Shared i] is the object at position [i]
    of [long_term["reminders"]]: whatever is done to it there is seen
    through the view.  [Orphan r] is an object that the long-term list does
    not hold (any more); no code reaches it, so it stays as it is. *)
Inductive ReminderRef :=
| Shared (i : nat)
| Orphan (r : Reminder).

Record Contextual := {
  recent_conversations : list Conversation;
  active_context : list string;
  relevant_facts : list Fact;
  upcoming_events : list Event;
  active_reminders : list ReminderRef
}.

Record Memory := {
  long_term : LongTerm;
  contextual : Contextual
}.

Definition active (r : Reminder) : bool := String.eqb (r_status r) "active".

(** Field updates *)

Definition set_facts (v : list Fact) (lt : LongTerm) : LongTerm :=
  {| facts := v; preferences := preferences lt; events := events lt;
     reminders := reminders lt; conversations := conversations lt |}.

Definition set_preferences (v : gmap string string) (lt : LongTerm) : LongTerm :=
  {| facts := facts lt; preferences := v; events := events lt;
     reminders := reminders lt; conversations := conversations lt |}.

Definition set_events (v : list Event) (lt : LongTerm) : LongTerm :=
  {| facts := facts lt; preferences := preferences lt; events := v;
     reminders := reminders lt; conversations := conversations lt |}.

Definition set_reminders (v : list Reminder) (lt : LongTerm) : LongTerm :=
  {| facts := facts lt; preferences := preferences lt; events := events lt;
     reminders := v; conversations := conversations lt |}.

Definition set_conversations (v : list Conversation) (lt : LongTerm) : LongTerm :=
  {| facts := facts lt; preferences := preferences lt; events := events lt;
     reminders := reminders lt; conversations := v |}.

Definition set_recent_conversations (v : list Conversation) (c : Contextual) : Contextual :=
  {| recent_conversations := v; active_context := active_context c;
     relevant_facts := relevant_facts c; upcoming_events := upcoming_events c;
     active_reminders := active_reminders c |}.

Definition set_relevant_facts (v : list Fact) (c : Contextual) : Contextual :=
  {| recent_conversations := recent_conversations c; active_context := active_context c;
     relevant_facts := v; upcoming_events := upcoming_events c;
     active_reminders := active_reminders c |}.

Definition set_upcoming_events (v : list Event) (c : Contextual) : Contextual :=
  {| recent_conversations := recent_conversations c; active_context := active_context c;
     relevant_facts := relevant_facts c; upcoming_events := v;
     active_reminders := active_reminders c |}.

Definition set_active_reminders (v : list ReminderRef) (c : Contextual) : Contextual :=
  {| recent_conversations := recent_conversations c; active_context := active_context c;
     relevant_facts := relevant_facts c; upcoming_events := upcoming_events c;
     active_reminders := v |}.

(** [memory["long_term"][...] = ...] and [memory["contextual"][...] = ...] *)
Definition on_long_term (f : LongTerm -> LongTerm) (m : Memory) : Memory :=
  {| long_term := f (long_term m); contextual := contextual m |}.

Definition on_contextual (f : Contextual -> Contextual) (m : Memory) : Memory :=
  {| long_term := long_term m; contextual := f (contextual m) |}.

(** The object behind an entry of the view, as it is now. *)
Definition deref (rs : list Reminder) (ref : ReminderRef) : option Reminder :=
  match ref with
  | Shared i => rs !! i
  | Orphan r => Some r
  end.

(** What reading [memory["contextual"]["active_reminders"]] gives: the
    objects that the view holds, in the state in which they are. *)
Definition active_view (m : Memory) : list Reminder :=
  omap (deref (reminders (long_term m))) (active_reminders (contextual m)).

(** [[reminder for reminder in rs if reminder.get("status") == "active"]]
    as a list of the objects themselves; [i] is the position of the head of
    [rs] in the long-term list. *)
Fixpoint active_refs (i : nat) (rs : list Reminder) : list ReminderRef :=
  match rs with
  | [] => []
  | reminder :: rs' =>
      if active reminder then Shared i :: active_refs (S i) rs'
      else active_refs (S i) rs'
  end.

(** An assignment [memory["long_term"]["reminders"] = [r for r in old if
    keep(r)]] builds a new list of the same objects.  The view keeps the
    objects it holds: one that stays in the long-term list is found at its
    new position, one that is dropped is held by the view alone from then
    on. *)
Definition relocate (keep : Reminder -> bool) (old : list Reminder)
    (ref : ReminderRef) : ReminderRef :=
  match ref with
  | Shared i =>
      match old !! i with
      | Some r =>
          if keep r then Shared (List.length (List.filter keep (take i old)))
          else Orphan r
      | None => ref
      end
  | Orphan _ => ref
  end.

(** The view after such an assignment: nothing is assigned to it, each of
    its entries refers to the object it referred to. *)
Definition rebind_reminders (keep : Reminder -> bool) (old : list Reminder)
    (c : Contextual) : Contextual :=
  set_active_reminders (map (relocate keep old) (active_reminders c)) c.

(** A list comprehension [[x for x in l if p(x)]] whose condition may raise:
    the first exception abandons the whole comprehension. *)
Fixpoint filter_opt {A} (p : A -> option bool) (l : list A) : option (list A) :=
  match l with
  | [] => Some []
  | x :: l' =>
      match p x with
      | None => None
      | Some b =>
          match filter_opt p l' with
          | None => None
          | Some r => Some (if b then x :: r else r)
          end
      end
  end.

(** [pluralize n] is the suffix [{'s' if n > 1 else ''}]. *)
Definition pluralize (n : nat) : string := if Nat.ltb 1 n then "s" else "".

(** [sep.join(l)] *)
Fixpoint join (sep : string) (l : list string) : string :=
  match l with
  | [] => ""
  | [x] => x
  | x :: l' => x +:+ sep +:+ join sep l'
  end.

Section Store.
Context `{DT : DateTime}.

(** [format_datetime] *)
Definition format_datetime (datetime_str : string) : string :=
  match strptime datetime_str with
  | Some dt => strftime_spoken dt
  | None => datetime_str
  end.

(** *** [update_contextual_memory] *)

Definition is_recent (now : datetime) (conv : Conversation) : option bool :=
  match strptime (c_timestamp conv) with
  | Some t => Some (days (now - t) <=? CONTEXT_WINDOW_DAYS)%Z
  | None => None
  end.

Definition is_upcoming (now : datetime) (event : Event) : option bool :=
  match strptime (e_datetime event) with
  | Some t => Some (t - now <=? seconds 86400)%Z
  | None => None
  end.

(** The set [recent_topics] built by the loop over the last five recent
    conversations. *)
Fixpoint recent_topics (convs : list Conversation) : gset string :=
  match convs with
  | [] => ∅
  | conv :: convs' => list_to_set (split (lower (c_text conv))) ∪ recent_topics convs'
  end.

Definition is_relevant (topics : gset string) (fact : Fact) : bool :=
  existsb (fun topic => contains topic (lower (f_content fact))) (elements topics).

Definition update_contextual_memory (now : datetime) (m : Memory) : Memory :=
  match filter_opt (is_recent now) (conversations (long_term m)) with
  | None => m
  | Some convs =>
      let m1 := on_contextual
                  (set_recent_conversations (last_n MAX_CONTEXT_CONVERSATIONS convs)) m in
      match filter_opt (is_upcoming now) (events (long_term m1)) with
      | None => m1
      | Some evs =>
          let m2 := on_contextual (set_upcoming_events evs) m1 in
          let m3 := on_contextual
                      (set_active_reminders (active_refs 0 (reminders (long_term m2)))) m2 in
          let topics := recent_topics (last_n 5 (recent_conversations (contextual m3))) in
          on_contextual
            (set_relevant_facts
               (firstn MAX_ACTIVE_CONTEXT
                  (List.filter (is_relevant topics) (facts (long_term m3))))) m3
      end
  end.

(** *** [get_memory_summary]; [None] when an event's time does not parse
    (the function has no [try] of its own). *)

Definition is_future (now : datetime) (event : Event) : option bool :=
  match strptime (e_datetime event) with
  | Some t => Some (now <? t)%Z
  | None => None
  end.

Definition get_memory_summary (now : datetime) (m : Memory) : option string :=
  let n_active := List.length (List.filter active (reminders (long_term m))) in
  let s1 := if Nat.ltb 0 n_active
            then ["You have " +:+ pretty n_active +:+ " active reminder" +:+ pluralize n_active]
            else [] in
  let n_facts := List.length (last_n 3 (facts (long_term m))) in
  let s2 := if Nat.ltb 0 n_facts
            then ["You've shared " +:+ pretty n_facts +:+ " recent fact" +:+ pluralize n_facts]
            else [] in
  match filter_opt (is_future now) (events (long_term m)) with
  | None => None
  | Some evs =>
      let n_events := List.length evs in
      let s3 := if Nat.ltb 0 n_events
                then ["You have " +:+ pretty n_events +:+ " upcoming event" +:+ pluralize n_events]
                else [] in
      let summary := (s1 ++ s2 ++ s3)%list in
      Some (match summary with [] => "No active memories" | _ => join " and " summary end)
  end.

(** *** [clear_reminders]

    The loop sets [status] and [completed_at] on the dicts themselves: the
    long-term list keeps its objects in their places, and a view entry
    [Shared i] shows the completed reminder from then on. *)

Definition complete (now : datetime) (r : Reminder) : Reminder :=
  {| r_message := r_message r; r_datetime := r_datetime r;
     r_created_at := r_created_at r; r_status := "completed";
     r_completed_at := Some (strftime now) |}.

Definition clear_reminders (now : datetime) (m : Memory) : Memory * string :=
  let n := List.length (List.filter active (reminders (long_term m))) in
  if Nat.eqb n 0
  then (m, "You don't have any active reminders to clear.")
  else (on_long_term
          (set_reminders
             (map (fun r => if active r then complete now r else r)
                (reminders (long_term m)))) m,
        "I've cleared " +:+ pretty n +:+ " active reminder" +:+ pluralize n +:+ ".").

(** *** [clean_memory]

    The four comprehensions build new lists of the objects that they keep;
    the view is assigned to only at the end, by [update_contextual_memory],
    and until then holds the reminders it held ([rebind_reminders]). *)

Definition young (now : datetime) (stamp : string) : option bool :=
  match strptime stamp with
  | Some t => Some (days (now - t) <? LONG_TERM_WINDOW_DAYS)%Z
  | None => None
  end.

Definition keep_reminder (now : datetime) (r : Reminder) : option bool :=
  if active r then Some true
  else match r_completed_at r with
       | None => Some false
       | Some stamp => if String.eqb stamp "" then Some false else young now stamp
       end.

(** The loop that removes duplicate facts; [seen] is [seen_facts]. *)
Fixpoint unique_facts (seen : gset string) (fs : list Fact) : list Fact :=
  match fs with
  | [] => []
  | fact :: fs' =>
      let content := strip (lower (f_content fact)) in
      if decide (content ∈ seen) then unique_facts seen fs'
      else fact :: unique_facts ({[content]} ∪ seen) fs'
  end.

Definition clean_memory (now : datetime) (m : Memory) : Memory :=
  match filter_opt (keep_reminder now) (reminders (long_term m)) with
  | None => m
  | Some rs =>
      let m1 := on_contextual
                  (rebind_reminders (fun r => bool_decide (keep_reminder now r = Some true))
                     (reminders (long_term m)))
                  (on_long_term (set_reminders rs) m) in
      match filter_opt (fun e => young now (e_datetime e)) (events (long_term m1)) with
      | None => m1
      | Some es =>
          let m2 := on_long_term (set_events es) m1 in
          match filter_opt (fun f => young now (f_timestamp f)) (facts (long_term m2)) with
          | None => m2
          | Some fs =>
              let m3 := on_long_term (set_facts fs) m2 in
              match filter_opt (fun c => young now (c_timestamp c))
                      (conversations (long_term m3)) with
              | None => m3
              | Some cs =>
                  let m4 := on_long_term (set_conversations cs) m3 in
                  let m5 := on_long_term
                              (set_facts (unique_facts ∅ (facts (long_term m4)))) m4 in
                  update_contextual_memory now m5
              end
          end
      end
  end.

(** *** [clear_all_memory]

    Only the long-term collections are reset: the contextual view is left
    as it is, and the reminder objects it holds are in no list but its own
    afterwards. *)

Definition empty_long_term : LongTerm :=
  {| facts := []; preferences := ∅; events := []; reminders := [];
     conversations := [] |}.

Definition clear_all_memory (m : Memory) : Memory * string :=
  (on_contextual (rebind_reminders (fun _ => false) (reminders (long_term m)))
     (on_long_term
        (fun lt => set_conversations []
                     (set_preferences ∅
                        (set_events [] (set_facts [] (set_reminders [] lt))))) m),
   "I've cleared all your memories. We're starting fresh.").

End Store.

(** ** Intents, the pending action and the state of the process *)

(** The [data] object of an intent: the keys that the code reads in it. *)
Record Payload := {
  d_message : option string;
  d_suggested_time : option string;
  d_type : option string;
  d_needs_confirmation : option bool;
  d_confirmation_message : option string;
  d_content : option string;
  d_category : option string;
  d_response : option string
}.

(** An intent ([action_data]): the top-level keys that the code reads. *)
Record ActionData := {
  action : string;
  message : option string;
  needs_confirmation : option bool;
  confirmation_message : option string;
  data : option Payload;
  content : option string;
  category : option string;
  response : option string
}.

(** [d.get("needs_confirmation", False)] used as a condition *)
Definition truthy (flag : option bool) : bool :=
  match flag with Some b => b | None => false end.

Inductive Effect :=
| Speak (text : string)
| Notification (title msg : string) (timeout : Z).

Record State := {
  memory : Memory;
  pending_action : option ActionData;
  is_listening : bool;
  log : list Effect
}.

Definition set_memory (m : Memory) (st : State) : State :=
  {| memory := m; pending_action := pending_action st;
     is_listening := is_listening st; log := log st |}.

Definition set_pending (p : option ActionData) (st : State) : State :=
  {| memory := memory st; pending_action := p;
     is_listening := is_listening st; log := log st |}.

Definition set_listening (b : bool) (st : State) : State :=
  {| memory := memory st; pending_action := pending_action st;
     is_listening := b; log := log st |}.

Definition speak (text : string) (st : State) : State :=
  {| memory := memory st; pending_action := pending_action st;
     is_listening := is_listening st; log := (log st ++ [Speak text])%list |}.

Definition show_notification (title msg : string) (timeout : Z) (st : State) : State :=
  {| memory := memory st; pending_action := pending_action st;
     is_listening := is_listening st;
     log := (log st ++ [Notification title msg timeout])%list |}.

(** How a block of [handle_action] ends: by [return], by falling through to
    the code after the chain of [if]s, or by an exception. *)
Inductive Flow :=
| Returned (st : State)
| Continue (st : State)
| Raised (st : State).

(** The pending action built for a [set_reminder] awaiting confirmation. *)
Definition pending_reminder (reminder_data : Payload) (prompt : string) : ActionData :=
  {| action := "set_reminder"; message := None; needs_confirmation := None;
     confirmation_message := Some prompt; data := Some reminder_data;
     content := None; category := None; response := None |}.

(** [list.sort(key=lambda x: x["datetime"])]: stable, on strings. *)
Fixpoint insert_by_datetime (r : Reminder) (l : list Reminder) : list Reminder :=
  match l with
  | [] => [r]
  | r' :: l' =>
      if String.leb (r_datetime r) (r_datetime r') then r :: l
      else r' :: insert_by_datetime r l'
  end.

Fixpoint sort_by_datetime (l : list Reminder) : list Reminder :=
  match l with
  | [] => []
  | r :: l' => insert_by_datetime r (sort_by_datetime l')
  end.

Section Dispatcher.
Context `{DT : DateTime}.

Definition new_event (now : datetime) (msg time : string) : Event :=
  {| e_description := msg; e_datetime := time; e_created_at := strftime now |}.

Definition new_reminder (now : datetime) (msg time : string) : Reminder :=
  {| r_message := msg; r_datetime := time; r_created_at := strftime now;
     r_status := "active"; r_completed_at := None |}.

Definition append_event (e : Event) (st : State) : State :=
  set_memory (on_long_term (fun lt => set_events (events lt ++ [e])%list lt) (memory st)) st.

Definition append_reminder (r : Reminder) (st : State) : State :=
  set_memory (on_long_term (fun lt => set_reminders (reminders lt ++ [r])%list lt) (memory st)) st.

Definition append_fact (f : Fact) (st : State) : State :=
  set_memory (on_long_term (fun lt => set_facts (facts lt ++ [f])%list lt) (memory st)) st.

Definition append_conversation (c : Conversation) (st : State) : State :=
  set_memory
    (on_long_term (fun lt => set_conversations (conversations lt ++ [c])%list lt) (memory st)) st.

Definition added_notification (ty msg : string) : State -> State :=
  show_notification "Memory Updated"
    ("Added " +:+ ty +:+ ": " +:+ take_str 50 msg +:+ "...") 5.

(** The block under [if pending_action and "yes" in original_text.lower()],
    up to and without [pending_action = None]. *)
Definition confirm_pending (now : datetime) (pending : ActionData) (st : State) : Flow :=
  if String.eqb (action pending) "clear_reminders" then
    let '(m, resp) := clear_reminders now (memory st) in
    Continue (show_notification "Reminders Cleared" resp 5 (speak resp (set_memory m st)))
  else if String.eqb (action pending) "clear_all_memory" then
    let '(m, resp) := clear_all_memory (memory st) in
    Continue (show_notification "Memory Cleared" resp 5 (speak resp (set_memory m st)))
  else if String.eqb (action pending) "set_reminder" then
    match data pending with
    | None => Raised st
    | Some reminder_data =>
        match d_type reminder_data, d_message reminder_data,
              d_suggested_time reminder_data with
        | Some ty, Some msg, Some time =>
            if String.eqb ty "event" then
              let resp := "I've added the event: " +:+ msg +:+ " for "
                          +:+ format_datetime time in
              Continue (added_notification ty msg
                          (speak resp (append_event (new_event now msg time) st)))
            else
              let resp := "I've set a reminder for " +:+ msg +:+ " at "
                          +:+ format_datetime time in
              Continue (added_notification ty msg
                          (speak resp (append_reminder (new_reminder now msg time) st)))
        | _, _, _ => Raised st
        end
    end
  else Continue st.

Definition same_event (msg time : string) (event : Event) : bool :=
  (String.eqb (lower (e_description event)) (lower msg)
   && String.eqb (e_datetime event) time)%bool.

Definition same_reminder (msg time : string) (reminder : Reminder) : bool :=
  (String.eqb (lower (r_message reminder)) (lower msg)
   && String.eqb (r_datetime reminder) time)%bool.

Definition set_reminder (now : datetime) (action_data : ActionData) (st : State) : Flow :=
  match data action_data with
  | None => Returned st
  | Some reminder_data =>
      match d_message reminder_data, d_suggested_time reminder_data with
      | Some msg, Some time =>
          match strptime time with
          | None => Raised st
          | Some reminder_time =>
              if (reminder_time <? now)%Z then
                let resp := "I notice this time has already passed. Would you like me to set this for tomorrow instead?" in
                Returned (set_pending (Some (pending_reminder reminder_data resp))
                            (speak resp st))
              else if truthy (d_needs_confirmation reminder_data) then
                let resp := default "Would you like me to set this reminder?"
                              (d_confirmation_message reminder_data) in
                Returned (speak resp
                            (set_pending (Some (pending_reminder reminder_data resp)) st))
              else
                match d_type reminder_data with
                | None => Raised st
                | Some ty =>
                    if String.eqb ty "event" then
                      if existsb (same_event msg time) (events (long_term (memory st)))
                      then Returned (speak "I notice you already have this event scheduled. Would you like me to update it instead?" st)
                      else
                        let resp := "I've added the event: " +:+ msg +:+ " for "
                                    +:+ format_datetime time in
                        Continue (added_notification ty msg
                                    (speak resp (append_event (new_event now msg time) st)))
                    else
                      if existsb (same_reminder msg time) (reminders (long_term (memory st)))
                      then Returned (speak "I notice you already have this reminder set. Would you like me to update it instead?" st)
                      else
                        let resp := "I've set a reminder for " +:+ msg +:+ " at "
                                    +:+ format_datetime time in
                        Continue (added_notification ty msg
                                    (speak resp
                                       (append_reminder (new_reminder now msg time) st)))
                end
          end
      | _, _ => Returned st
      end
  end.

Definition same_fact (normalized : string) (fact : Fact) : bool :=
  String.eqb (strip (lower (f_content fact))) normalized.

Definition remember_fact (now : datetime) (action_data : ActionData) (st : State) : Flow :=
  match content action_data, category action_data with
  | Some c, Some cat =>
      if existsb (same_fact (strip (lower c))) (facts (long_term (memory st)))
      then Returned (speak ("I already know that " +:+ c
                            +:+ ". Would you like me to update it with any new information?") st)
      else
        Continue
          (show_notification "Memory Updated"
             ("Remembered: " +:+ take_str 50 c +:+ "...") 5
             (speak ("I've noted that " +:+ c)
                (append_fact {| f_content := c; f_category := cat;
                                f_timestamp := strftime now |} st)))
  | _, _ => Returned st
  end.

Definition read_back_reminders (st : State) : Flow :=
  let active_reminders := List.filter active (reminders (long_term (memory st))) in
  let resp :=
    match active_reminders with
    | [] => "You don't have any active reminders at the moment."
    | _ =>
        "Here are your active reminders: " +:+
        join "; " (map (fun r => r_message r +:+ " at " +:+ format_datetime (r_datetime r))
                     (sort_by_datetime active_reminders))
    end in
  Returned (set_listening true (show_notification "Active Reminders" resp 10 (speak resp st))).

(** The code under [# Handle new actions], up to and without
    [clean_memory()]. *)
Definition handle_new_action (now : datetime) (action_data : ActionData) (st : State) : Flow :=
  if String.eqb (action action_data) "read_back_reminders" then read_back_reminders st
  else if String.eqb (action action_data) "clear_reminders" then
    let n := List.length (List.filter active (reminders (long_term (memory st)))) in
    if Nat.eqb n 0 then
      Returned (speak "You don't have any active reminders to clear." st)
    else if truthy (needs_confirmation action_data) then
      Returned
        (speak ("I found " +:+ pretty n +:+ " active reminder" +:+ pluralize n
                +:+ ". Would you like me to clear "
                +:+ (if Nat.ltb 1 n then "them" else "it") +:+ "?")
           (set_pending (Some action_data) st))
    else
      let '(m, resp) := clear_reminders now (memory st) in
      Returned (show_notification "Reminders Cleared" resp 5 (speak resp (set_memory m st)))
  else if String.eqb (action action_data) "clear_all_memory" then
    if truthy (needs_confirmation action_data) then
      Returned
        (speak "I found several items in your memory. Would you like me to clear everything? This will remove all reminders, events, facts, and conversation history."
           (set_pending (Some action_data) st))
    else
      let '(m, resp) := clear_all_memory (memory st) in
      Returned (show_notification "Memory Cleared" resp 5 (speak resp (set_memory m st)))
  else if String.eqb (action action_data) "set_reminder" then set_reminder now action_data st
  else if String.eqb (action action_data) "remember_fact" then remember_fact now action_data st
  else if String.eqb (action action_data) "query_memory" then
    match response action_data with
    | None => Returned st
    | Some r =>
        Continue (show_notification "Memory Query" r 10
                    (speak ("Based on my records, " +:+ r) st))
    end
  else if String.eqb (action action_data) "general_query" then
    match response action_data with
    | None => Returned st
    | Some r => Continue (show_notification "Assistant Response" r 10 (speak r st))
    end
  else Continue st.

(** The first statements of [handle_action]: the conversation record, the
    contextual refresh and the memory summary. *)
Definition record_utterance (now : datetime) (action_data : ActionData)
    (original_text : string) (st : State) : State :=
  let conv := {| c_text := original_text; c_action := action action_data;
                 c_timestamp := strftime now |} in
  let st1 := append_conversation conv st in
  set_memory (update_contextual_memory now (memory st1)) st1.

(** "yes" in original_text.lower() *)
Definition affirmative (original_text : string) : bool :=
  contains "yes" (lower original_text).

(** The end of the confirmation block: [pending_action = None],
    [is_listening = True], [return]; an exception skips the first. *)
Definition close_confirmation (fl : Flow) : State :=
  match fl with
  | Continue st => set_listening true (set_pending None st)
  | Returned st => st
  | Raised st => set_listening true st
  end.

(** The end of [handle_action] for a new action: [clean_memory()] and
    [is_listening = True] unless the branch returned. *)
Definition close_action (now : datetime) (fl : Flow) : State :=
  match fl with
  | Continue st => set_listening true (set_memory (clean_memory now (memory st)) st)
  | Returned st => st
  | Raised st => set_listening true st
  end.

Definition handle_action (now : datetime) (action_data : ActionData)
    (original_text : string) (st : State) : State :=
  let st1 := record_utterance now action_data original_text st in
  match get_memory_summary now (memory st1) with
  | None => set_listening true st1
  | Some _ =>
      match pending_action st1 with
      | Some pending =>
          if affirmative original_text
          then close_confirmation (confirm_pending now pending st1)
          else close_action now (handle_new_action now action_data st1)
      | None => close_action now (handle_new_action now action_data st1)
      end
  end.

(** A dispatch: one call of [handle_action] with the clock reading at
    which it happens. *)
Record Dispatch := {
  at_time : datetime;
  intent : ActionData;
  utterance : string
}.

Definition dispatch (st : State) (d : Dispatch) : State :=
  handle_action (at_time d) (intent d) (utterance d) st.

Definition run (st : State) (ds : list Dispatch) : State := fold_left dispatch ds st.

(** *** One iteration of the loop of [check_reminders] *)

Definition due_soon (now t : datetime) : bool :=
  ((0 <? t - now)%Z && (t - now <=? seconds 300)%Z)%bool.

(** The [for] loop over the reminders: the reminders after the loop and
    [upcoming_reminders], or [None] for the latter when the loop raised.
    The loop changes the dicts in place, each one staying where it is in
    the list. *)
Fixpoint scan_reminders (now : datetime) (rs : list Reminder)
  : list Reminder * option (list Reminder) :=
  match rs with
  | [] => ([], Some [])
  | reminder :: rs' =>
      if negb (active reminder) then
        let '(rs'', upcoming) := scan_reminders now rs' in (reminder :: rs'', upcoming)
      else
        match strptime (r_datetime reminder) with
        | None => (rs, None)
        | Some reminder_time =>
            let '(rs'', upcoming) := scan_reminders now rs' in
            if (reminder_time <? now)%Z then (complete now reminder :: rs'', upcoming)
            else if due_soon now reminder_time
                 then (reminder :: rs'', cons reminder <$> upcoming)
                 else (reminder :: rs'', upcoming)
        end
  end.

Definition reminder_notice (reminder : Reminder) : string :=
  "Reminder: " +:+ r_message reminder.

Definition notify_upcoming (st : State) (reminder : Reminder) : State :=
  show_notification "Upcoming Reminder" (reminder_notice reminder) 10
    (speak (reminder_notice reminder) st).

(** The contextual view is not assigned to, but the reminders that the loop
    completed are the objects that the view holds ([Shared]): it shows them
    completed afterwards ([active_view]). *)
Definition check_reminders_tick (now : datetime) (st : State) : State :=
  let '(rs, upcoming) := scan_reminders now (reminders (long_term (memory st))) in
  let st1 := set_memory (on_long_term (set_reminders rs) (memory st)) st in
  match upcoming with
  | None => st1
  | Some l => fold_left notify_upcoming l st1
  end.

End Dispatcher.

(** ** The turn initiator *)

Definition TURN_TIMEOUT : Z := 300.
Definition IMPORTANT_UPDATE_THRESHOLD : Z := 1800.

(** [should_initiate_turn]; [last_interaction_time] is [None] until the
    first utterance has been heard. *)
Definition should_initiate_turn (now : datetime)
    (last_interaction_time : option datetime) : bool :=
  match last_interaction_time with
  | None => true
  | Some last =>
      let time_since_last_interaction := now - last in
      if (seconds IMPORTANT_UPDATE_THRESHOLD <=? time_since_last_interaction)%Z then true
      else if (seconds TURN_TIMEOUT <=? time_since_last_interaction)%Z then true
      else false
  end.

Section Initiator.
Context `{DT : DateTime}.

(** [t > now] and [(t - now).total_seconds() <= 3600] for the time written
    in [stamp]. *)
Definition within_hour (now : datetime) (stamp : string) : option bool :=
  match strptime stamp with
  | Some t => Some ((now <? t)%Z && (t - now <=? seconds 3600)%Z)%bool
  | None => None
  end.

Definition reminder_within_hour (now : datetime) (r : Reminder) : option bool :=
  if active r then within_hour now (r_datetime r) else Some false.

(** [initiate_turn], up to what it says; the thread that it starts
    afterwards to listen for the answer is not part of the model.  An
    exception leaves the function before anything is said. *)
Definition initiate_turn (now : datetime) (last_interaction_time : option datetime)
    (st : State) : State :=
  match filter_opt (reminder_within_hour now) (reminders (long_term (memory st))) with
  | None => st
  | Some upcoming_reminders =>
      match filter_opt (fun e => within_hour now (e_datetime e))
              (events (long_term (memory st))) with
      | None => st
      | Some recent_events =>
          match upcoming_reminders, recent_events with
          | _ :: _, _ =>
              speak ("Sir, I wanted to remind you about " +:+
                     join " and "
                       (map (fun r => r_message r +:+ " at "
                                      +:+ format_datetime (r_datetime r))
                          upcoming_reminders)) st
          | [], _ :: _ =>
              speak ("Sir, you have upcoming events: " +:+
                     join " and "
                       (map (fun e => e_description e +:+ " at "
                                      +:+ format_datetime (e_datetime e))
                          recent_events)) st
          | [], [] =>
              if should_initiate_turn now last_interaction_time then
                match get_memory_summary now (memory st) with
                | None => st
                | Some memory_summary =>
                    if String.eqb memory_summary "No active memories"
                    then speak "Sir, I'm here if you need anything. How can I assist you?" st
                    else speak ("Sir, " +:+ memory_summary
                                +:+ ". Is there anything you need help with?") st
                end
              else st
          end
      end
  end.

End Initiator.

(** ** The date and time interface on zero-padded strings

    [iso_strptime] reads exactly the form [YYYY-MM-DD HH:MM:SS] that
    [strftime] writes (on those strings it agrees with Python) and counts
    microseconds from 1970-01-01 00:00:00. *)

Definition digit (c : ascii) : option Z :=
  let n := nat_of_ascii c in
  if (Nat.leb 48 n && Nat.leb n 57)%bool then Some (Z.of_nat (n - 48)) else None.

Fixpoint number (acc : Z) (cs : list ascii) : option Z :=
  match cs with
  | [] => Some acc
  | c :: cs' =>
      match digit c with
      | Some d => number (10 * acc + d) cs'
      | None => None
      end
  end.

Definition is_leap (y : Z) : bool :=
  ((y mod 4 =? 0)%Z && (negb (y mod 100 =? 0)%Z || (y mod 400 =? 0)%Z))%bool.

Definition days_in_month (y m : Z) : Z :=
  if (m =? 2)%Z then (if is_leap y then 29 else 28)
  else if ((m =? 4) || (m =? 6) || (m =? 9) || (m =? 11))%Z%bool then 30
  else 31.

(** Days from 1970-01-01 to the given date of the proleptic Gregorian
    calendar. *)
Definition days_from_civil (y m d : Z) : Z :=
  let y' := if (m <=? 2)%Z then y - 1 else y in
  let era := y' / 400 in
  let yoe := y' - era * 400 in
  let mp := (m + 9) mod 12 in
  let doy := (153 * mp + 2) / 5 + d - 1 in
  let doe := yoe * 365 + yoe / 4 - yoe / 100 + doy in
  era * 146097 + doe - 719468.

Definition civil_from_days (z : Z) : Z * Z * Z :=
  let z' := z + 719468 in
  let era := z' / 146097 in
  let doe := z' - era * 146097 in
  let yoe := (doe - doe / 1460 + doe / 36524 - doe / 146096) / 365 in
  let doy := doe - (365 * yoe + yoe / 4 - yoe / 100) in
  let mp := (5 * doy + 2) / 153 in
  let d := doy - (153 * mp + 2) / 5 + 1 in
  let m := if (mp <? 10)%Z then mp + 3 else mp - 9 in
  let y := yoe + era * 400 + (if (m <=? 2)%Z then 1 else 0) in
  (y, m, d).

Definition iso_strptime (s : string) : option datetime :=
  match list_ascii_of_string s with
  | [y1; y2; y3; y4; s1; m1; m2; s2; d1; d2; s3; h1; h2; s4; n1; n2; s5; c1; c2] =>
      if (Ascii.eqb s1 "-" && Ascii.eqb s2 "-" && Ascii.eqb s3 " "
          && Ascii.eqb s4 ":" && Ascii.eqb s5 ":")%bool
      then
        match number 0 [y1; y2; y3; y4], number 0 [m1; m2], number 0 [d1; d2],
              number 0 [h1; h2], number 0 [n1; n2], number 0 [c1; c2] with
        | Some y, Some m, Some d, Some h, Some n, Some c =>
            if ((1 <=? y) && (1 <=? m) && (m <=? 12) && (1 <=? d)
                && (d <=? days_in_month y m) && (h <=? 23) && (n <=? 59)
                && (c <=? 59))%Z%bool
            then Some ((days_from_civil y m d * 86400 + h * 3600 + n * 60 + c)
                       * usec_per_sec)
            else None
        | _, _, _, _, _, _ => None
        end
      else None
  | _ => None
  end.

Definition pad2 (n : Z) : string :=
  if (n <? 10)%Z then "0" +:+ pretty n else pretty n.

Definition pad4 (n : Z) : string :=
  if (n <? 10)%Z then "000" +:+ pretty n
  else if (n <? 100)%Z then "00" +:+ pretty n
  else if (n <? 1000)%Z then "0" +:+ pretty n
  else pretty n.

Definition iso_strftime (t : datetime) : string :=
  let secs := t / usec_per_sec in
  let '(y, m, d) := civil_from_days (secs / 86400) in
  let sod := secs mod 86400 in
  pad4 y +:+ "-" +:+ pad2 m +:+ "-" +:+ pad2 d +:+ " " +:+
  pad2 (sod / 3600) +:+ ":" +:+ pad2 (sod mod 3600 / 60) +:+ ":" +:+ pad2 (sod mod 60).

Definition month_name (m : Z) : string :=
  nth (Z.to_nat (m - 1))
    ["January"; "February"; "March"; "April"; "May"; "June"; "July"; "August";
     "September"; "October"; "November"; "December"] "".

Definition iso_strftime_spoken (t : datetime) : string :=
  let secs := t / usec_per_sec in
  let '(_, m, d) := civil_from_days (secs / 86400) in
  let sod := secs mod 86400 in
  let h := sod / 3600 in
  month_name m +:+ " " +:+ pad2 d +:+ " at " +:+
  pad2 (if (h mod 12 =? 0)%Z then 12 else h mod 12) +:+ ":" +:+
  pad2 (sod mod 3600 / 60) +:+ " " +:+ (if (h <? 12)%Z then "AM" else "PM").

#[export] Instance iso_datetime : DateTime := {
  strptime := iso_strptime;
  strftime := iso_strftime;
  strftime_spoken := iso_strftime_spoken
}.

(** ** Vocabulary of the properties *)

Definition flow_map (f : State -> State) (fl : Flow) : Flow :=
  match fl with
  | Returned st => Returned (f st)
  | Continue st => Continue (f st)
  | Raised st => Raised (f st)
  end.

(** [keep_pending p st]: the state [st] in which [p] is held unless [st]
    already holds a pending action. *)
Definition keep_pending (p : ActionData) (st : State) : State :=
  set_pending (match pending_action st with Some q => Some q | None => Some p end) st.



Section Vocabulary.
Context `{DT : DateTime}.

(** The time written in [stamp] lies more than [LONG_TERM_WINDOW_DAYS] days
    before [now]. *)
Definition expired (now : datetime) (stamp : string) : Prop :=
  exists t, strptime stamp = Some t /\ LONG_TERM_WINDOW_DAYS * usec_per_day < now - t.

(** Every time stamp that the sweeper reads can be parsed. *)
Definition stamps_parse (lt : LongTerm) : Prop :=
  Forall (fun r => forall stamp, r_completed_at r = Some stamp -> strptime stamp <> None)
    (reminders lt)
  /\ Forall (fun e => strptime (e_datetime e) <> None) (events lt)
  /\ Forall (fun f => strptime (f_timestamp f) <> None) (facts lt)
  /\ Forall (fun c => strptime (c_timestamp c) <> None) (conversations lt).

(** An active reminder whose due time lies strictly before [now]. *)
Definition overdue (now : datetime) (r : Reminder) : bool :=
  (active r &&
   match strptime (r_datetime r) with
   | Some due => (due <? now)%Z
   | None => false
   end)%bool.

(** An active reminder with [0 < due - now <= 300] seconds. *)
Definition in_lookahead (now : datetime) (r : Reminder) : bool :=
  (active r &&
   match strptime (r_datetime r) with
   | Some due => ((0 <? due - now)%Z && (due - now <=? 300 * usec_per_sec)%Z)%bool
   | None => false
   end)%bool.

(** An active reminder has a due time that can be parsed. *)
Definition due_times_parse (rs : list Reminder) : Prop :=
  Forall (fun r => active r = true -> strptime (r_datetime r) <> None) rs.

End Vocabulary.

(** The keys under which the code looks for duplicates. *)
Definition fact_key (f : Fact) : string := strip (lower (f_content f)).

Definition reminder_key (r : Reminder) : string * string :=
  (lower (r_message r), r_datetime r).

Definition event_key (e : Event) : string * string :=
  (lower (e_description e), e_datetime e).

(** No two reminders with the same message (up to case) and time, no two
    such events, no two facts with the same content (up to case and
    surrounding blanks). *)
Definition no_duplicates (lt : LongTerm) : Prop :=
  NoDup (map reminder_key (reminders lt))
  /\ NoDup (map event_key (events lt))
  /\ NoDup (map fact_key (facts lt)).

(** The order in which reminders are read back: by their time strings. *)
Definition by_time (r r' : Reminder) : Prop :=
  String.leb (r_datetime r) (r_datetime r') = true.

(** The state in which a block of [handle_action] ends. *)
Definition flow_state (fl : Flow) : State :=
  match fl with
  | Returned st => st
  | Continue st => st
  | Raised st => st
  end.

Section Transitions.
Context `{DT : DateTime}.

(** [r'] is [r] itself, or [r] was active and [r'] is [r] completed at
    [now]: the only change a reminder undergoes. *)
Definition settled (now : datetime) (r r' : Reminder) : Prop :=
  r' = r \/ (active r = true /\ r' = complete now r).

(** A pending action of one of the three kinds that [handle_action]
    parks; a parked [set_reminder] carries a message and a time that
    parses. *)
Definition parked (p : ActionData) : Prop :=
  action p = "clear_reminders" \/ action p = "clear_all_memory"
  \/ (action p = "set_reminder"
      /\ exists rd msg time,
           data p = Some rd /\ d_message rd = Some msg
           /\ d_suggested_time rd = Some time /\ strptime time <> None).

(** Every time kept in the memory parses. *)
Definition times_parse (m : Memory) : Prop :=
  stamps_parse (long_term m)
  /\ Forall (fun r => strptime (r_datetime r) <> None) (reminders (long_term m)).

(** The state that the engine maintains: all stored times parse and the
    pending action, if any, is a parked one. *)
Definition well_formed (st : State) : Prop :=
  times_parse (memory st)
  /\ (forall p, pending_action st = Some p -> parked p).

(** What a block of [handle_action] may do to the long-term memory, by
    the name of the action it executes: nothing; complete the active
    reminders; empty everything; append one event, reminder or fact.
    [checked] tells whether the appended entry was compared with the stored
    ones (the new-action path) or not (the confirmation path). *)
Inductive effect (now : datetime) (checked : bool) (name : string) (lt : LongTerm)
  : LongTerm -> Prop :=
| effect_none : effect now checked name lt lt
| effect_clear_reminders :
    name = "clear_reminders" ->
    effect now checked name lt
      (set_reminders (map (fun r => if active r then complete now r else r)
                        (reminders lt)) lt)
| effect_clear_all :
    name = "clear_all_memory" -> effect now checked name lt empty_long_term
| effect_event (e : Event) :
    name = "set_reminder" ->
    (checked = true -> ~ In (event_key e) (map event_key (events lt))) ->
    effect now checked name lt (set_events (events lt ++ [e]) lt)
| effect_reminder (r : Reminder) :
    name = "set_reminder" ->
    (checked = true -> ~ In (reminder_key r) (map reminder_key (reminders lt))) ->
    effect now checked name lt (set_reminders (reminders lt ++ [r]) lt)
| effect_fact (f : Fact) :
    name = "remember_fact" ->
    checked = true ->
    ~ In (fact_key f) (map fact_key (facts lt)) ->
    effect now checked name lt (set_facts (facts lt ++ [f]) lt).

End Transitions.

(** ** Concrete scenarios (with [iso_datetime]) *)

(** 2024-04-02 02:19:00 *)
Definition t0 : datetime := 1712024340000000.

Definition empty_contextual : Contextual :=
  {| recent_conversations := []; active_context := []; relevant_facts := [];
     upcoming_events := []; active_reminders := [] |}.

Definition memory_of (lt : LongTerm) : Memory :=
  {| long_term := lt; contextual := empty_contextual |}.

Definition idle (m : Memory) : State :=
  {| memory := m; pending_action := None; is_listening := false; log := [] |}.

Definition awaiting (p : ActionData) (m : Memory) : State :=
  {| memory := m; pending_action := Some p; is_listening := false; log := [] |}.

Definition intent_of (name : string) (msg : string) : ActionData :=
  {| action := name; message := Some msg; needs_confirmation := None;
     confirmation_message := None; data := None; content := None;
     category := None; response := None |}.

Definition confirmed_intent (name : string) (msg : string) : ActionData :=
  {| action := name; message := Some msg; needs_confirmation := Some true;
     confirmation_message := None; data := None; content := None;
     category := None; response := None |}.

Definition with_data (d : Payload) (a : ActionData) : ActionData :=
  {| action := action a; message := message a;
     needs_confirmation := needs_confirmation a;
     confirmation_message := confirmation_message a; data := Some d;
     content := content a; category := category a; response := response a |}.

Definition no_data : Payload :=
  {| d_message := None; d_suggested_time := None; d_type := None;
     d_needs_confirmation := None; d_confirmation_message := None;
     d_content := None; d_category := None; d_response := None |}.

Definition clear_all_request : ActionData :=
  confirmed_intent "clear_all_memory" "I've cleared all memory".

Definition clear_reminders_request : ActionData :=
  confirmed_intent "clear_reminders" "I've cleared all your active reminders".

Definition reminder_at (msg time : string) : Reminder :=
  {| r_message := msg; r_datetime := time; r_created_at := "2024-04-01 09:00:00";
     r_status := "active"; r_completed_at := None |}.

Definition three_reminders : list Reminder :=
  [reminder_at "call mom" "2024-04-02 09:00:00";
   reminder_at "buy milk" "2024-04-02 18:00:00";
   reminder_at "pay rent" "2024-04-03 08:00:00"].

Definition memory_three_reminders : Memory :=
  memory_of (set_reminders three_reminders empty_long_term).

(** The intent returned for the utterance "no thanks". *)
Definition no_thanks : ActionData :=
  {| action := "general_query"; message := Some "Okay."; needs_confirmation := None;
     confirmation_message := None;
     data := Some {| d_message := None; d_suggested_time := None; d_type := None;
                     d_needs_confirmation := None; d_confirmation_message := None;
                     d_content := None; d_category := None;
                     d_response := Some "Okay, I will leave them." |};
     content := None; category := None;
     response := Some "Okay, I will leave them." |}.

Definition memory_with_preferences : Memory :=
  memory_of (set_preferences {["voice" := "Alex"]} empty_long_term).

(** [set_reminder] for "call mom" at 02:21:00, two minutes after [t0]. *)
Definition call_mom_data (confirm : option bool) : Payload :=
  {| d_message := Some "call mom"; d_suggested_time := Some "2024-04-02 02:21:00";
     d_type := Some "reminder"; d_needs_confirmation := confirm;
     d_confirmation_message := None; d_content := None; d_category := None;
     d_response := None |}.

Definition call_mom (confirm : option bool) : ActionData :=
  with_data (call_mom_data confirm)
    (intent_of "set_reminder" "I'll set a reminder for call mom at 02:21").

Definition call_mom_twice : list Dispatch :=
  [ {| at_time := t0; intent := call_mom None;
       utterance := "remind me to call mom in two minutes" |};
    {| at_time := t0 + seconds 10; intent := call_mom (Some true);
       utterance := "remind me to call mom at 2 21" |};
    {| at_time := t0 + seconds 20;
       intent := intent_of "general_query" "Sure."; utterance := "yes" |} ].

(** [remember_fact] as the system prompt lays it out: the fields in [data]. *)
Definition tea_fact : ActionData :=
  with_data
    {| d_message := None; d_suggested_time := None; d_type := None;
       d_needs_confirmation := None; d_confirmation_message := None;
       d_content := Some "I like tea"; d_category := Some "preference";
       d_response := None |}
    (intent_of "remember_fact" "I've noted that you like tea").

(** A store with one entry of each kind older than the retention window
    at [t0], an old active reminder and one recent entry of each kind. *)
Definition aged_long_term : LongTerm :=
  {| facts := [ {| f_content := "I like tea"; f_category := "preference";
                   f_timestamp := "2022-01-01 10:00:00" |};
                {| f_content := "I like coffee"; f_category := "preference";
                   f_timestamp := "2024-03-01 10:00:00" |} ];
     preferences := {["voice" := "Alex"]};
     events := [ {| e_description := "dentist"; e_datetime := "2022-06-01 10:00:00";
                    e_created_at := "2022-05-01 10:00:00" |};
                 {| e_description := "concert"; e_datetime := "2024-04-05 20:00:00";
                    e_created_at := "2024-03-01 10:00:00" |} ];
     reminders := [ {| r_message := "renew passport";
                       r_datetime := "2022-01-01 10:00:00";
                       r_created_at := "2021-12-01 10:00:00";
                       r_status := "active"; r_completed_at := None |};
                    {| r_message := "water plants";
                       r_datetime := "2022-01-02 10:00:00";
                       r_created_at := "2021-12-01 10:00:00";
                       r_status := "completed";
                       r_completed_at := Some "2022-01-02 10:00:30" |};
                    {| r_message := "send report";
                       r_datetime := "2024-03-30 10:00:00";
                       r_created_at := "2024-03-29 10:00:00";
                       r_status := "completed";
                       r_completed_at := Some "2024-03-30 10:00:30" |} ];
     conversations := [ {| c_text := "hello"; c_action := "general_query";
                           c_timestamp := "2022-01-01 10:00:00" |};
                        {| c_text := "do I like coffee"; c_action := "query_memory";
                           c_timestamp := "2024-04-01 10:00:00" |} ] |}.

(** One active reminder due exactly at [t0]. *)
Definition due_now : Reminder := reminder_at "call mom" "2024-04-02 02:19:00".

(** One active reminder due at 02:21:00 and one at 02:00:00. *)
Definition two_due : list Reminder :=
  [reminder_at "call mom" "2024-04-02 02:21:00";
   reminder_at "take pills" "2024-04-02 02:00:00"].

(** An event of the day before [t0]. *)
Definition yesterday_lunch : Event :=
  {| e_description := "lunch with Ana"; e_datetime := "2024-04-01 12:00:00";
     e_created_at := "2024-03-30 09:00:00" |}.

(** A store in which the same fact was stored twice, in different case and
    with blanks around it. *)
Definition tea_twice : LongTerm :=
  set_facts
    [ {| f_content := "I like tea"; f_category := "preference";
         f_timestamp := "2024-03-01 10:00:00" |};
      {| f_content := "I like coffee"; f_category := "preference";
         f_timestamp := "2024-03-02 10:00:00" |};
      {| f_content := "  i like TEA "; f_category := "habit";
         f_timestamp := "2024-03-03 10:00:00" |} ]
    empty_long_term.

(** A store that holds the reminder "call mom" for 02:21:00. *)
Definition memory_call_mom : Memory :=
  memory_of (set_reminders [reminder_at "call mom" "2024-04-02 02:21:00"]
               empty_long_term).

(** [remember_fact] with its fields on the top level of the intent, where
    the code reads them. *)
Definition tea_fact_top_level : ActionData :=
  {| action := "remember_fact"; message := Some "I've noted that you like tea";
     needs_confirmation := None; confirmation_message := None; data := None;
     content := Some " I LIKE TEA"; category := Some "preference";
     response := None |}.

Definition read_back_request : ActionData :=
  intent_of "read_back_reminders" "Here are your active reminders".




(** A store with a reminder completed long before [t0], an active one
    after it, and a fact whose time stamp does not parse; its view is the
    one computed at [t0]. *)
Definition undated_fact_memory : Memory :=
  update_contextual_memory t0
    (memory_of
       {| facts := [ {| f_content := "I like tea"; f_category := "preference";
                        f_timestamp := "last week" |} ];
          preferences := ∅;
          events := [];
          reminders := [ {| r_message := "water plants";
                            r_datetime := "2022-01-02 10:00:00";
                            r_created_at := "2021-12-01 10:00:00";
                            r_status := "completed";
                            r_completed_at := Some "2022-01-02 10:00:30" |};
                         reminder_at "call mom" "2024-04-02 09:00:00" ];
          conversations := [] |}).

(** The intent returned for a greeting. *)
Definition greeting : ActionData :=
  {| action := "general_query"; message := Some "Hello."; needs_confirmation := None;
     confirmation_message := None; data := None; content := None; category := None;
     response := Some "Hello." |}.

(** The state after a greeting at [t0], with the two reminders of
    [two_due] in the store. *)
Definition greeted : State :=
  handle_action t0 greeting "hello" (idle (memory_of (set_reminders two_due empty_long_term))).

(** * Properties *)

(** ** Strings and comprehensions *)

Lemma append_String (c : ascii) (s t : string) :
  String c s +:+ t = String c (s +:+ t).
Proof. reflexivity. Qed.

Lemma append_empty (t : string) : "" +:+ t = t.
Proof. reflexivity. Qed.




Lemma filter_opt_Some {A} (p : A -> option bool) (l r : list A) :
  filter_opt p l = Some r ->
  r = List.filter (fun x => bool_decide (p x = Some true)) l.
Proof.
  revert r. induction l as [|x l IH]; simpl; intros r H.
  - congruence.
  - destruct (p x) as [b|]; [|discriminate].
    destruct (filter_opt p l) as [r'|]; [|discriminate].
    specialize (IH r' eq_refl). subst r'.
    destruct b; simpl; congruence.
Qed.

Lemma filter_opt_total {A} (p : A -> option bool) (l : list A) :
  Forall (fun x => p x <> None) l -> exists r, filter_opt p l = Some r.
Proof.
  induction 1 as [|x l Hx _ [r IH]]; simpl.
  - eexists; reflexivity.
  - destruct (p x) as [b|]; [|congruence]. rewrite IH. eexists; reflexivity.
Qed.

Lemma filter_opt_In {A} (p : A -> option bool) (l r : list A) (x : A) :
  filter_opt p l = Some r -> In x r <-> In x l /\ p x = Some true.
Proof.
  intros H. rewrite (filter_opt_Some _ _ _ H), filter_In, bool_decide_eq_true.
  reflexivity.
Qed.

Section Properties.
Context `{DT : DateTime}.

(** ** The contextual view *)

Lemma update_contextual_memory_long_term (now : datetime) (m : Memory) :
  long_term (update_contextual_memory now m) = long_term m.
Proof.
  unfold update_contextual_memory.
  destruct (filter_opt (is_recent now) _); [|reflexivity]. simpl.
  destruct (filter_opt (is_upcoming now) _); reflexivity.
Qed.

(** C9: recomputing the contextual view a second time at the same [now]
    changes nothing, and the recomputation leaves the long-term collections
    as they are. *)
Theorem update_contextual_memory_idempotent (now : datetime) (m : Memory) :
  update_contextual_memory now (update_contextual_memory now m)
  = update_contextual_memory now m
  /\ long_term (update_contextual_memory now m) = long_term m.
Proof.
  split; [|apply update_contextual_memory_long_term].
  destruct m as [lt ctx]. unfold update_contextual_memory. simpl.
  destruct (filter_opt (is_recent now) (conversations lt)) as [convs|] eqn:Hc; simpl.
  - destruct (filter_opt (is_upcoming now) (events lt)) as [evs|] eqn:He; simpl.
    + rewrite Hc. simpl. rewrite He. reflexivity.
    + rewrite Hc. simpl. rewrite He. reflexivity.
  - rewrite Hc. reflexivity.
Qed.

(** ** The retention sweeper *)

Lemma young_not_expired (now : datetime) (stamp : string) :
  young now stamp = Some true -> ~ expired now stamp.
Proof.
  unfold young, expired. intros H [t [Ht Hold]]. rewrite Ht in H.
  injection H as H. apply Z.ltb_lt in H. unfold days in H.
  assert (LONG_TERM_WINDOW_DAYS <= (now - t) / usec_per_day).
  { apply Z.div_le_lower_bound; [reflexivity | lia]. }
  lia.
Qed.

Lemma young_defined (now : datetime) (stamp : string) :
  strptime stamp <> None -> young now stamp <> None.
Proof. unfold young. destruct (strptime stamp); congruence. Qed.

Lemma keep_reminder_active (now : datetime) (r : Reminder) :
  active r = true -> keep_reminder now r = Some true.
Proof. unfold keep_reminder. intros ->. reflexivity. Qed.

Lemma keep_reminder_defined (now : datetime) (r : Reminder) :
  (forall stamp, r_completed_at r = Some stamp -> strptime stamp <> None) ->
  keep_reminder now r <> None.
Proof.
  unfold keep_reminder. intros H. destruct (active r); [congruence|].
  destruct (r_completed_at r) as [stamp|]; [|congruence].
  destruct (String.eqb stamp ""); [congruence|].
  apply young_defined, H. reflexivity.
Qed.

Lemma filter_active_kept (now : datetime) (l : list Reminder) :
  List.filter active
    (List.filter (fun r => bool_decide (keep_reminder now r = Some true)) l)
  = List.filter active l.
Proof.
  induction l as [|r l IH]; simpl; [reflexivity|].
  destruct (active r) eqn:Ha.
  - rewrite (keep_reminder_active now r Ha). simpl. rewrite Ha, IH. reflexivity.
  - destruct (bool_decide _); simpl; [rewrite Ha|]; exact IH.
Qed.

Lemma unique_facts_incl (seen : gset string) (fs : list Fact) (f : Fact) :
  In f (unique_facts seen fs) -> In f fs.
Proof.
  revert seen. induction fs as [|g fs IH]; simpl; intros seen H; [exact H|].
  destruct (decide _); [right; eauto|].
  destruct H as [H|H]; [left; exact H | right; eauto].
Qed.

Lemma clean_memory_active (now : datetime) (m : Memory) :
  List.filter active (reminders (long_term (clean_memory now m)))
  = List.filter active (reminders (long_term m)).
Proof.
  unfold clean_memory.
  destruct (filter_opt (keep_reminder now) _) as [rs|] eqn:Hr; [|reflexivity].
  apply filter_opt_Some in Hr.
  assert (Hrs : List.filter active rs = List.filter active (reminders (long_term m)))
    by (subst rs; apply filter_active_kept).
  cbn. destruct (filter_opt _ (events _)); [|exact Hrs].
  cbn. destruct (filter_opt _ (facts _)); [|exact Hrs].
  cbn. destruct (filter_opt _ (conversations _)); [|exact Hrs].
  rewrite update_contextual_memory_long_term. exact Hrs.
Qed.

Lemma clean_memory_swept (now : datetime) (m : Memory) :
  stamps_parse (long_term m) ->
  exists rs es fs cs,
    filter_opt (keep_reminder now) (reminders (long_term m)) = Some rs
    /\ filter_opt (fun e => young now (e_datetime e)) (events (long_term m)) = Some es
    /\ filter_opt (fun f => young now (f_timestamp f)) (facts (long_term m)) = Some fs
    /\ filter_opt (fun c => young now (c_timestamp c)) (conversations (long_term m))
       = Some cs
    /\ long_term (clean_memory now m)
       = {| facts := unique_facts ∅ fs; preferences := preferences (long_term m);
            events := es; reminders := rs; conversations := cs |}.
Proof.
  intros (Hr & He & Hf & Hc).
  destruct (filter_opt_total (keep_reminder now) (reminders (long_term m))) as [rs Hrs].
  { eapply Forall_impl; [exact Hr|]. intros r. apply keep_reminder_defined. }
  destruct (filter_opt_total (fun e => young now (e_datetime e)) (events (long_term m)))
    as [es Hes].
  { eapply Forall_impl; [exact He|]. intros e. apply young_defined. }
  destruct (filter_opt_total (fun f => young now (f_timestamp f)) (facts (long_term m)))
    as [fs Hfs].
  { eapply Forall_impl; [exact Hf|]. intros f. apply young_defined. }
  destruct (filter_opt_total (fun c => young now (c_timestamp c))
              (conversations (long_term m))) as [cs Hcs].
  { eapply Forall_impl; [exact Hc|]. intros c. apply young_defined. }
  exists rs, es, fs, cs. repeat split; try assumption.
  unfold clean_memory. rewrite Hrs. cbn. rewrite Hes. cbn. rewrite Hfs. cbn.
  rewrite Hcs. rewrite update_contextual_memory_long_term. reflexivity.
Qed.

(** C6: after a sweep of a store whose time stamps parse, no completed
    reminder, event, fact or conversation dated more than 365 days before
    [now] remains, and the active reminders are the ones of before, whatever
    their age. *)
Theorem clean_memory_retention (now : datetime) (m : Memory)
    (Hstamps : stamps_parse (long_term m)) :
  let swept := long_term (clean_memory now m) in
  (forall r stamp, In r (reminders swept) -> r_status r = "completed" ->
                   r_completed_at r = Some stamp -> ~ expired now stamp)
  /\ (forall e, In e (events swept) -> ~ expired now (e_datetime e))
  /\ (forall f, In f (facts swept) -> ~ expired now (f_timestamp f))
  /\ (forall c, In c (conversations swept) -> ~ expired now (c_timestamp c))
  /\ List.filter active (reminders swept)
     = List.filter active (reminders (long_term m)).
Proof.
  intros swept. subst swept.
  destruct (clean_memory_swept now m Hstamps)
    as (rs & es & fs & cs & Hrs & Hes & Hfs & Hcs & Heq).
  split; [|split; [|split; [|split]]].
  - rewrite Heq. cbn. intros r stamp Hin Hstatus Hstamp.
    apply (filter_opt_In _ _ _ r Hrs) in Hin as [_ Hkeep].
    unfold keep_reminder, active in Hkeep. rewrite Hstatus, Hstamp in Hkeep.
    cbn in Hkeep. destruct (String.eqb stamp ""); [discriminate|].
    apply young_not_expired. exact Hkeep.
  - rewrite Heq. cbn. intros e Hin.
    apply (filter_opt_In _ _ _ e Hes) in Hin as [_ Hkeep].
    apply young_not_expired. exact Hkeep.
  - rewrite Heq. cbn. intros f Hin. apply unique_facts_incl in Hin.
    apply (filter_opt_In _ _ _ f Hfs) in Hin as [_ Hkeep].
    apply young_not_expired. exact Hkeep.
  - rewrite Heq. cbn. intros c Hin.
    apply (filter_opt_In _ _ _ c Hcs) in Hin as [_ Hkeep].
    apply young_not_expired. exact Hkeep.
  - apply clean_memory_active.
Qed.

(** ** The reminder scheduler *)

Lemma overdue_not_in_lookahead (now : datetime) (r : Reminder) :
  overdue now r = true -> in_lookahead now r = false.
Proof.
  unfold overdue, in_lookahead. destruct (active r); [|reflexivity]. cbn.
  destruct (strptime (r_datetime r)) as [due|]; [|reflexivity].
  intros H. apply Z.ltb_lt in H.
  assert (E : (0 <? due - now)%Z = false) by (apply Z.ltb_ge; lia).
  rewrite E. reflexivity.
Qed.

Lemma scan_reminders_spec (now : datetime) (rs : list Reminder) :
  due_times_parse rs ->
  scan_reminders now rs
  = (map (fun r => if overdue now r then complete now r else r) rs,
     Some (List.filter (in_lookahead now) rs)).
Proof.
  induction 1 as [|r rs Hr _ IH]; [reflexivity|].
  cbn [scan_reminders map List.filter]. rewrite IH.
  unfold overdue, in_lookahead. destruct (active r); cbn.
  - destruct (strptime (r_datetime r)) as [due|]; [|specialize (Hr eq_refl); congruence].
    destruct (due <? now)%Z eqn:Hlt.
    + apply Z.ltb_lt in Hlt.
      assert (E : (0 <? due - now)%Z = false) by (apply Z.ltb_ge; lia).
      rewrite E. reflexivity.
    + unfold due_soon, seconds.
      destruct ((0 <? due - now)%Z && (due - now <=? 300 * usec_per_sec)%Z)%bool;
        reflexivity.
  - reflexivity.
Qed.

Lemma notify_upcoming_log (l : list Reminder) (st : State) :
  log (fold_left notify_upcoming l st)
  = (log st ++
     flat_map (fun r => [Speak (reminder_notice r);
                         Notification "Upcoming Reminder" (reminder_notice r) 10]) l)%list
  /\ memory (fold_left notify_upcoming l st) = memory st.
Proof.
  revert st. induction l as [|r l IH]; intros st; cbn [fold_left flat_map].
  - rewrite app_nil_r. split; reflexivity.
  - destruct (IH (notify_upcoming st r)) as [Hl Hm]. rewrite Hl, Hm. cbn.
    rewrite <- !app_assoc. split; reflexivity.
Qed.

(** C7 (amended): on a tick at [now] over reminders whose due times parse,
    exactly the active reminders due strictly before [now] become completed
    with [completed_at] the formatted [now], the notifications go to
    exactly the active reminders with [0 < due - now <= 300] seconds, and a
    reminder that is completed gets none. *)
Theorem check_reminders_tick_spec (now : datetime) (st : State)
    (Hdue : due_times_parse (reminders (long_term (memory st)))) :
  let st' := check_reminders_tick now st in
  reminders (long_term (memory st'))
  = map (fun r => if overdue now r then complete now r else r)
      (reminders (long_term (memory st)))
  /\ log st'
     = (log st ++
        flat_map (fun r => [Speak (reminder_notice r);
                            Notification "Upcoming Reminder" (reminder_notice r) 10])
          (List.filter (in_lookahead now) (reminders (long_term (memory st)))))%list
  /\ (forall r, overdue now r = true ->
                in_lookahead now r = false
                /\ r_status (complete now r) = "completed"
                /\ r_completed_at (complete now r) = Some (strftime now)).
Proof.
  intros st'. subst st'. unfold check_reminders_tick.
  rewrite (scan_reminders_spec now _ Hdue).
  match goal with |- context [fold_left notify_upcoming ?l ?s] =>
    destruct (notify_upcoming_log l s) as [Hl Hm] end.
  split; [|split].
  - rewrite Hm. reflexivity.
  - rewrite Hl. reflexivity.
  - intros r Hr. split; [apply overdue_not_in_lookahead; exact Hr|].
    split; reflexivity.
Qed.

(** ** The dispatcher and the pending action *)

Ltac split_branches :=
  repeat match goal with
         | |- context [match ?x with _ => _ end] => destruct x eqn:?
         end.

Lemma record_utterance_pending (now : datetime) (a : ActionData) (text : string)
    (q : option ActionData) (st : State) :
  record_utterance now a text (set_pending q st)
  = set_pending q (record_utterance now a text st).
Proof. destruct st. reflexivity. Qed.

Lemma record_utterance_long_term (now : datetime) (a : ActionData) (text : string)
    (st : State) :
  long_term (memory (record_utterance now a text st))
  = set_conversations
      (conversations (long_term (memory st))
       ++ [{| c_text := text; c_action := action a; c_timestamp := strftime now |}])%list
      (long_term (memory st)).
Proof.
  unfold record_utterance. cbn. rewrite update_contextual_memory_long_term. reflexivity.
Qed.

Lemma handle_new_action_pending (now : datetime) (a : ActionData) (p : ActionData)
    (st : State) :
  pending_action st = None ->
  handle_new_action now a (set_pending (Some p) st)
  = flow_map (keep_pending p) (handle_new_action now a st).
Proof.
  destruct st as [m pend lis lg]. cbn. intros ->.
  unfold handle_new_action, read_back_reminders, set_reminder, remember_fact.
  cbn. split_branches; reflexivity.
Qed.

Lemma close_action_keep_pending (now : datetime) (p : ActionData) (fl : Flow) :
  close_action now (flow_map (keep_pending p) fl)
  = keep_pending p (close_action now fl).
Proof. destruct fl as [st|st|st]; destruct st; reflexivity. Qed.

Lemma handle_action_pending (now : datetime) (a : ActionData) (text : string)
    (p : ActionData) (st : State) :
  pending_action st = None ->
  affirmative text = false ->
  handle_action now a text (set_pending (Some p) st)
  = keep_pending p (handle_action now a text st).
Proof.
  intros Hidle Hno. unfold handle_action.
  rewrite record_utterance_pending.
  assert (Hst1 : pending_action (record_utterance now a text st) = None)
    by (destruct st; exact Hidle).
  set (st1 := record_utterance now a text st) in *.
  replace (memory (set_pending (Some p) st1)) with (memory st1) by reflexivity.
  destruct (get_memory_summary now (memory st1)).
  - cbn [pending_action set_pending]. rewrite Hno, Hst1.
    rewrite handle_new_action_pending by exact Hst1.
    apply close_action_keep_pending.
  - destruct st1. cbn in Hst1. subst. reflexivity.
Qed.

Lemma keep_pending_cases (p : ActionData) (st : State) :
  (pending_action st = None /\ keep_pending p st = set_pending (Some p) st)
  \/ (pending_action st <> None /\ keep_pending p st = st).
Proof.
  destruct st as [m [q|] lis lg]; [right | left]; split; try reflexivity.
  discriminate.
Qed.

Lemma run_cons (st : State) (d : Dispatch) (ds : list Dispatch) :
  run st (d :: ds) = run (dispatch st d) ds.
Proof. reflexivity. Qed.

Lemma dispatch_pending (d : Dispatch) (p : ActionData) (st : State) :
  pending_action st = None ->
  affirmative (utterance d) = false ->
  dispatch (set_pending (Some p) st) d = keep_pending p (dispatch st d).
Proof. intros. unfold dispatch. apply handle_action_pending; assumption. Qed.

Lemma run_ignores_pending (ds : list Dispatch) (p : ActionData) (st : State) :
  pending_action st = None ->
  Forall (fun d => affirmative (utterance d) = false) ds ->
  memory (run (set_pending (Some p) st) ds) = memory (run st ds)
  /\ log (run (set_pending (Some p) st) ds) = log (run st ds).
Proof.
  intros Hidle Hds. revert st Hidle.
  induction Hds as [|d ds Hd _ IH]; intros st Hidle.
  - split; reflexivity.
  - rewrite !run_cons, (dispatch_pending d p st Hidle Hd).
    destruct (keep_pending_cases p (dispatch st d)) as [[Hnone ->] | [_ ->]].
    + apply IH. exact Hnone.
    + split; reflexivity.
Qed.

Lemma set_pending_same (st : State) : set_pending (pending_action st) st = st.
Proof. destruct st. reflexivity. Qed.

Lemma set_pending_twice (q q' : option ActionData) (st : State) :
  set_pending q (set_pending q' st) = set_pending q st.
Proof. reflexivity. Qed.

Lemma handle_action_held (now : datetime) (a : ActionData) (text : string)
    (p : ActionData) (st : State) :
  pending_action st = Some p ->
  affirmative text = false ->
  handle_action now a text st
  = keep_pending p (handle_action now a text (set_pending None st)).
Proof.
  intros Hheld Hno.
  rewrite <- (handle_action_pending now a text p (set_pending None st) eq_refl Hno).
  rewrite set_pending_twice, <- Hheld, set_pending_same. reflexivity.
Qed.


(** C3 (amended): a reply without "yes" is handled exactly as it would be
    with no pending action held (same memory, same speech and
    notifications), but the pending action is not discarded: it stays held
    unless the new intent puts another one in its place. *)
Theorem negative_reply_keeps_pending (now : datetime) (a : ActionData)
    (text : string) (p : ActionData) (st : State)
    (Hheld : pending_action st = Some p)
    (Hno : affirmative text = false) :
  let from_idle := handle_action now a text (set_pending None st) in
  let result := handle_action now a text st in
  memory result = memory from_idle
  /\ log result = log from_idle
  /\ is_listening result = is_listening from_idle
  /\ pending_action result
     = match pending_action from_idle with Some q => Some q | None => Some p end.
Proof.
  intros from_idle result.
  assert (E : result = keep_pending p from_idle)
    by (apply handle_action_held; assumption).
  rewrite E. repeat split; reflexivity.
Qed.

Lemma gated_request_returns (now : datetime) (a : ActionData) (st : State) :
  action a = "clear_all_memory" \/ action a = "clear_reminders" ->
  needs_confirmation a = Some true ->
  exists st', handle_new_action now a st = Returned st' /\ memory st' = memory st.
Proof.
  intros Ha Hflag. unfold handle_new_action. rewrite Hflag.
  destruct Ha as [-> | ->]; cbn; [eexists; split; reflexivity|].
  destruct (Nat.eqb _ 0); eexists; split; reflexivity.
Qed.

Lemma gated_request_long_term (now : datetime) (a : ActionData) (text : string)
    (st : State) :
  pending_action st = None ->
  action a = "clear_all_memory" \/ action a = "clear_reminders" ->
  needs_confirmation a = Some true ->
  long_term (memory (handle_action now a text st))
  = long_term (memory (record_utterance now a text st)).
Proof.
  intros Hidle Ha Hflag. unfold handle_action.
  assert (Hst1 : pending_action (record_utterance now a text st) = None)
    by (destruct st; exact Hidle).
  set (st1 := record_utterance now a text st) in *.
  destruct (get_memory_summary now (memory st1)); [|reflexivity].
  rewrite Hst1.
  destruct (gated_request_returns now a st1 Ha Hflag) as (st' & -> & Hm).
  cbn. rewrite Hm. reflexivity.
Qed.

(** C1 (amended): a [clear_all_memory] or [clear_reminders] intent with
    [needs_confirmation] dispatched while nothing is pending changes no
    long-term collection except for the conversation record it appends; and
    as long as the following utterances contain no "yes", the store and the
    output evolve exactly as if no action were pending: the held action is
    not executed. *)
Theorem confirmation_gating (now : datetime) (a : ActionData) (text : string)
    (st : State) (ds : list Dispatch)
    (Hidle : pending_action st = None)
    (Hclear : action a = "clear_all_memory" \/ action a = "clear_reminders")
    (Hflag : needs_confirmation a = Some true)
    (Hno : Forall (fun d => affirmative (utterance d) = false) ds) :
  let st' := handle_action now a text st in
  reminders (long_term (memory st')) = reminders (long_term (memory st))
  /\ facts (long_term (memory st')) = facts (long_term (memory st))
  /\ events (long_term (memory st')) = events (long_term (memory st))
  /\ preferences (long_term (memory st')) = preferences (long_term (memory st))
  /\ conversations (long_term (memory st'))
     = (conversations (long_term (memory st))
        ++ [{| c_text := text; c_action := action a; c_timestamp := strftime now |}])%list
  /\ memory (run st' ds) = memory (run (set_pending None st') ds)
  /\ log (run st' ds) = log (run (set_pending None st') ds).
Proof.
  intros st'. subst st'.
  rewrite (gated_request_long_term now a text st Hidle Hclear Hflag),
    record_utterance_long_term.
  cbn [reminders facts events preferences conversations set_conversations].
  repeat (split; [reflexivity|]).
  set (st' := handle_action now a text st).
  destruct (pending_action st') as [q|] eqn:Hq.
  - rewrite <- (set_pending_same st') at 1 3. rewrite Hq.
    rewrite <- (set_pending_twice (Some q) None st').
    apply run_ignores_pending; [reflexivity | exact Hno].
  - rewrite <- Hq, set_pending_same. split; reflexivity.
Qed.

(** ** Confirmation *)

(** C2 (amended): executing a confirmed [clear_all_memory] leaves every
    long-term collection empty, the preferences included, and consumes the
    pending action. *)
Theorem confirmed_clear_all_empties_everything (now : datetime) (a : ActionData)
    (text : string) (p : ActionData) (st : State)
    (Hheld : pending_action st = Some p)
    (Hkind : action p = "clear_all_memory")
    (Hyes : affirmative text = true)
    (Hsummary : get_memory_summary now (memory (record_utterance now a text st)) <> None) :
  let st' := handle_action now a text st in
  facts (long_term (memory st')) = []
  /\ events (long_term (memory st')) = []
  /\ reminders (long_term (memory st')) = []
  /\ conversations (long_term (memory st')) = []
  /\ preferences (long_term (memory st')) = ∅
  /\ pending_action st' = None.
Proof.
  intros st'. subst st'. unfold handle_action.
  assert (Hst1 : pending_action (record_utterance now a text st) = Some p)
    by (destruct st; exact Hheld).
  set (st1 := record_utterance now a text st) in *.
  destruct (get_memory_summary now (memory st1)); [|congruence].
  rewrite Hst1, Hyes. unfold confirm_pending. rewrite Hkind. cbn.
  repeat split; reflexivity.
Qed.

End Properties.

(** * The scenarios, evaluated *)

Ltac each_element tac :=
  repeat first [apply List.Forall_nil | apply List.Forall_cons; [tac|]].

(** C1, as stated, fails: the dispatch of a [clear_all_memory] request with
    [needs_confirmation] changes the conversations collection. *)
Lemma gated_request_appends_conversation :
  pending_action (idle (memory_of empty_long_term)) = None
  /\ needs_confirmation clear_all_request = Some true
  /\ conversations (long_term (memory
        (handle_action t0 clear_all_request "clear everything"
           (idle (memory_of empty_long_term)))))
     <> conversations (long_term (memory (idle (memory_of empty_long_term)))).
Proof. split; [reflexivity|]. split; [reflexivity|]. vm_compute. discriminate. Qed.

Lemma confirmation_gating_witness :
  reminders (long_term (memory
    (handle_action t0 clear_reminders_request "clear my reminders"
       (idle memory_three_reminders)))) = three_reminders
  /\ memory (run (handle_action t0 clear_reminders_request "clear my reminders"
                    (idle memory_three_reminders))
               [ {| at_time := t0 + seconds 10; intent := no_thanks;
                    utterance := "no thanks" |} ])
     = memory (run (set_pending None
                      (handle_action t0 clear_reminders_request "clear my reminders"
                         (idle memory_three_reminders)))
                 [ {| at_time := t0 + seconds 10; intent := no_thanks;
                      utterance := "no thanks" |} ]).
Proof.
  destruct (confirmation_gating t0 clear_reminders_request "clear my reminders"
              (idle memory_three_reminders)
              [ {| at_time := t0 + seconds 10; intent := no_thanks;
                   utterance := "no thanks" |} ])
    as (Hr & _ & _ & _ & _ & Hm & _).
  - reflexivity.
  - right. reflexivity.
  - reflexivity.
  - repeat constructor.
  - split; [exact Hr | exact Hm].
Defined.

(** C2, as stated, fails: the confirmed [clear_all_memory] empties the
    preferences too. *)
Lemma confirmed_clear_all_drops_preferences :
  preferences (long_term (memory
    (handle_action t0 (intent_of "general_query" "Sure.") "Yes"
       (awaiting clear_all_request memory_with_preferences))))
  <> preferences (long_term memory_with_preferences).
Proof.
  intros H. apply (f_equal (fun prefs : gmap string string => prefs !! "voice")) in H.
  vm_compute in H. discriminate H.
Qed.

Lemma confirmed_clear_all_witness :
  preferences (long_term (memory
    (handle_action t0 (intent_of "general_query" "Sure.") "Yes"
       (awaiting clear_all_request memory_with_preferences)))) = ∅.
Proof.
  destruct (confirmed_clear_all_empties_everything t0
              (intent_of "general_query" "Sure.") "Yes" clear_all_request
              (awaiting clear_all_request memory_with_preferences))
    as (_ & _ & _ & _ & Hp & _).
  - reflexivity.
  - reflexivity.
  - reflexivity.
  - vm_compute. discriminate.
  - exact Hp.
Defined.

(** C3, as stated, fails: with three active reminders and a pending
    [clear_reminders], "no thanks" leaves the three reminders active, but
    the pending action is still held afterwards although the new intent
    creates none. *)
Lemma no_thanks_leaves_pending_held :
  affirmative "no thanks" = false
  /\ reminders (long_term (memory
        (handle_action t0 no_thanks "no thanks"
           (awaiting clear_reminders_request memory_three_reminders))))
     = three_reminders
  /\ pending_action (handle_action t0 no_thanks "no thanks"
                       (idle memory_three_reminders)) = None
  /\ pending_action (handle_action t0 no_thanks "no thanks"
                       (awaiting clear_reminders_request memory_three_reminders))
     <> None.
Proof. vm_compute. repeat split; discriminate. Qed.

Lemma negative_reply_witness :
  pending_action (handle_action t0 no_thanks "no thanks"
                    (awaiting clear_reminders_request memory_three_reminders))
  = Some clear_reminders_request.
Proof.
  destruct (negative_reply_keeps_pending t0 no_thanks "no thanks"
              clear_reminders_request
              (awaiting clear_reminders_request memory_three_reminders))
    as (_ & _ & _ & Hp).
  - reflexivity.
  - reflexivity.
  - rewrite Hp. vm_compute. reflexivity.
Defined.

(** C4 fails on the code: the same reminder submitted once directly and
    once through the confirmation path is stored twice. *)
Lemma confirmed_reminder_is_duplicated :
  map (fun r => (r_message r, r_datetime r, r_status r))
    (reminders (long_term (memory (run (idle (memory_of empty_long_term))
                                     call_mom_twice))))
  = [("call mom", "2024-04-02 02:21:00", "active");
     ("call mom", "2024-04-02 02:21:00", "active")].
Proof. vm_compute. reflexivity. Qed.

(** C5 fails on the code: a [remember_fact] intent with [content] and
    [category] in its [data] object stores nothing and says nothing. *)
Lemma fact_in_data_is_dropped :
  (data tea_fact ≫= d_content) = Some "I like tea"
  /\ (data tea_fact ≫= d_category) = Some "preference"
  /\ facts (long_term (memory
        (handle_action t0 tea_fact "remember that I like tea"
           (idle (memory_of empty_long_term))))) = []
  /\ log (handle_action t0 tea_fact "remember that I like tea"
            (idle (memory_of empty_long_term))) = [].
Proof. vm_compute. repeat split; reflexivity. Qed.

Lemma clean_memory_retention_witness :
  (forall e, In e (events (long_term (clean_memory t0 (memory_of aged_long_term)))) ->
             ~ expired t0 (e_datetime e))
  /\ List.filter active
       (reminders (long_term (clean_memory t0 (memory_of aged_long_term))))
     = List.filter active (reminders aged_long_term).
Proof.
  destruct (clean_memory_retention t0 (memory_of aged_long_term))
    as (_ & He & _ & _ & Ha).
  - unfold stamps_parse, memory_of, aged_long_term.
    cbn [long_term reminders events facts conversations].
    split; [|split; [|split]].
    + each_element ltac:(intros stamp H; cbn in H;
                         first [discriminate H
                               | injection H as <-; vm_compute; discriminate]).
    + each_element ltac:(vm_compute; discriminate).
    + each_element ltac:(vm_compute; discriminate).
    + each_element ltac:(vm_compute; discriminate).
  - split; [exact He | exact Ha].
Defined.

(** C7, as stated, fails: an active reminder due exactly at [now] is not
    completed by the tick. *)
Lemma tick_keeps_reminder_due_now :
  strptime (r_datetime due_now) = Some t0
  /\ r_status due_now = "active"
  /\ reminders (long_term (memory
        (check_reminders_tick t0
           (idle (memory_of (set_reminders [due_now] empty_long_term))))))
     = [due_now].
Proof. vm_compute. repeat split; reflexivity. Qed.

Lemma check_reminders_tick_witness :
  map r_status (reminders (long_term (memory
    (check_reminders_tick t0 (idle (memory_of (set_reminders two_due empty_long_term)))))))
  = ["active"; "completed"]
  /\ log (check_reminders_tick t0 (idle (memory_of (set_reminders two_due empty_long_term))))
     = [Speak "Reminder: call mom";
        Notification "Upcoming Reminder" "Reminder: call mom" 10].
Proof.
  destruct (check_reminders_tick_spec t0
              (idle (memory_of (set_reminders two_due empty_long_term))))
    as (Hr & Hl & _).
  - unfold due_times_parse, idle, memory_of, two_due.
    cbn [memory long_term reminders set_reminders].
    each_element ltac:(intros _; vm_compute; discriminate).
  - rewrite Hr, Hl. vm_compute. split; reflexivity.
Defined.

(** C8 fails on the code: an event of the day before [now] is listed among
    the upcoming events. *)
Lemma past_event_listed_as_upcoming :
  (exists t, strptime (e_datetime yesterday_lunch) = Some t /\ t < t0)
  /\ upcoming_events (contextual
        (update_contextual_memory t0
           (memory_of (set_events [yesterday_lunch] empty_long_term))))
     = [yesterday_lunch].
Proof.
  split; [|vm_compute; reflexivity].
  eexists. split; [vm_compute; reflexivity | reflexivity].
Qed.

(** * Further properties of the engine *)

Section Sweeper.
Context `{DT : DateTime}.

Lemma filter_opt_all {A} (p : A -> option bool) (l : list A) :
  Forall (fun x => p x = Some true) l -> filter_opt p l = Some l.
Proof.
  induction 1 as [|x l Hx _ IH]; [reflexivity|].
  cbn [filter_opt]. rewrite Hx, IH. reflexivity.
Qed.

Lemma filter_opt_kept {A} (p : A -> option bool) (l r : list A) :
  filter_opt p l = Some r -> Forall (fun x => p x = Some true) r.
Proof.
  intros H. apply List.Forall_forall. intros x Hx.
  apply (filter_opt_In _ _ _ x H) in Hx. apply Hx.
Qed.

Lemma filter_opt_fixed {A} (p : A -> option bool) (l r : list A) :
  filter_opt p l = Some r -> filter_opt p r = Some r.
Proof. intros H. apply filter_opt_all. exact (filter_opt_kept _ _ _ H). Qed.

Lemma filter_sublist {A} (f : A -> bool) (l : list A) :
  sublist (List.filter f l) l.
Proof.
  induction l as [|x l IH]; cbn [List.filter]; [constructor|].
  destruct (f x); constructor; exact IH.
Qed.

Lemma filter_opt_sublist {A} (p : A -> option bool) (l r : list A) :
  filter_opt p l = Some r -> sublist r l.
Proof. intros H. rewrite (filter_opt_Some _ _ _ H). apply filter_sublist. Qed.

Lemma unique_facts_sublist (seen : gset string) (fs : list Fact) :
  sublist (unique_facts seen fs) fs.
Proof.
  revert seen. induction fs as [|f fs IH]; intros seen; cbn [unique_facts].
  - constructor.
  - destruct (decide _); constructor; apply IH.
Qed.

Lemma unique_facts_keys (seen : gset string) (fs : list Fact) :
  Forall (fun f => fact_key f ∉ seen) (unique_facts seen fs)
  /\ NoDup (map fact_key (unique_facts seen fs)).
Proof.
  revert seen. induction fs as [|f fs IH]; intros seen; cbn [unique_facts].
  - split; constructor.
  - fold (fact_key f). destruct (decide (fact_key f ∈ seen)) as [Hin|Hout].
    + apply IH.
    + destruct (IH ({[fact_key f]} ∪ seen)) as [Hall Hnd]. split.
      * constructor; [exact Hout|].
        eapply Forall_impl; [exact Hall|]. cbn. intros g Hg Hin.
        apply Hg, elem_of_union. right. exact Hin.
      * cbn [map]. apply NoDup_cons. split; [|exact Hnd].
        rewrite list_elem_of_In, in_map_iff. intros (g & Hk & Hg).
        rewrite List.Forall_forall in Hall. apply (Hall g Hg), elem_of_union.
        left. apply elem_of_singleton. exact Hk.
Qed.

Lemma unique_facts_id (seen : gset string) (fs : list Fact) :
  Forall (fun f => fact_key f ∉ seen) fs ->
  NoDup (map fact_key fs) ->
  unique_facts seen fs = fs.
Proof.
  revert seen. induction fs as [|f fs IH]; intros seen Hall Hnd; [reflexivity|].
  cbn [unique_facts]. fold (fact_key f).
  inversion Hall as [|? ? Hf Hrest]; subst.
  cbn [map] in Hnd. apply NoDup_cons in Hnd as [Hnotin Hnd].
  destruct (decide (fact_key f ∈ seen)); [contradiction|].
  f_equal. apply IH; [|exact Hnd].
  apply List.Forall_forall. intros g Hg.
  rewrite List.Forall_forall in Hrest. specialize (Hrest g Hg).
  rewrite elem_of_union, elem_of_singleton. intros [E|E]; [|exact (Hrest E)].
  apply Hnotin. rewrite <- E. apply list_elem_of_In, in_map, Hg.
Qed.

Lemma unique_facts_fixed (fs : list Fact) :
  unique_facts ∅ (unique_facts ∅ fs) = unique_facts ∅ fs.
Proof.
  destruct (unique_facts_keys ∅ fs) as [Hall Hnd].
  apply unique_facts_id; assumption.
Qed.

Lemma sublist_keeps_Forall {A} (P : A -> Prop) (l k : list A) :
  sublist l k -> Forall P k -> Forall P l.
Proof.
  induction 1 as [|x l k _ IH|x l k _ IH]; intros Hk.
  - constructor.
  - inversion Hk; subst. constructor; auto.
  - inversion Hk; subst. auto.
Qed.

Lemma lookup_filter_position {A} (keep : A -> bool) (old : list A) (i : nat) (x : A) :
  old !! i = Some x -> keep x = true ->
  List.filter keep old !! List.length (List.filter keep (take i old)) = Some x.
Proof.
  revert i. induction old as [|y old IH]; intros i Hi Hx; [discriminate|].
  destruct i as [|i]; cbn in Hi.
  - injection Hi as ->. cbn [take List.filter List.length]. rewrite Hx. reflexivity.
  - cbn [take List.filter]. destruct (keep y); cbn [List.length]; apply IH; assumption.
Qed.

Lemma take_filter_position {A} (keep : A -> bool) (old : list A) (i : nat) :
  take (List.length (List.filter keep (take i old))) (List.filter keep old)
  = List.filter keep (take i old).
Proof.
  rewrite <- (take_drop i old) at 2. rewrite List.filter_app.
  apply take_app_length.
Qed.

Lemma filter_filter_same {A} (keep : A -> bool) (l : list A) :
  List.filter keep (List.filter keep l) = List.filter keep l.
Proof.
  induction l as [|x l IH]; [reflexivity|]. cbn [List.filter].
  destruct (keep x) eqn:E; [|exact IH]. cbn [List.filter]. rewrite E, IH. reflexivity.
Qed.

Lemma length_filter_le {A} (keep : A -> bool) (l : list A) :
  (List.length (List.filter keep l) <= List.length l)%nat.
Proof.
  induction l as [|x l IH]; [reflexivity|]. cbn [List.filter].
  destruct (keep x); cbn [List.length]; lia.
Qed.

Lemma lookup_filter_beyond {A} (keep : A -> bool) (old : list A) (i : nat) :
  old !! i = None -> List.filter keep old !! i = None.
Proof.
  rewrite !lookup_ge_None. pose proof (length_filter_le keep old). cbn in *. lia.
Qed.

(** The sweep's new list of reminders shows the same objects through the
    view as the old one did. *)
Lemma relocate_deref (keep : Reminder -> bool) (old : list Reminder) (ref : ReminderRef) :
  deref (List.filter keep old) (relocate keep old ref) = deref old ref.
Proof.
  destruct ref as [i|r]; [|reflexivity]. cbn [relocate deref].
  destruct (old !! i) as [r|] eqn:Hi.
  - destruct (keep r) eqn:Hr; [|reflexivity]. cbn [deref].
    apply lookup_filter_position; assumption.
  - cbn [deref]. apply lookup_filter_beyond. exact Hi.
Qed.

Lemma relocate_twice (keep : Reminder -> bool) (old : list Reminder) (ref : ReminderRef) :
  relocate keep (List.filter keep old) (relocate keep old ref) = relocate keep old ref.
Proof.
  destruct ref as [i|r]; [|reflexivity]. cbn [relocate].
  destruct (old !! i) as [r|] eqn:Hi.
  - destruct (keep r) eqn:Hr; [|reflexivity]. cbn [relocate].
    rewrite (lookup_filter_position keep old i r Hi Hr), Hr.
    rewrite take_filter_position, filter_filter_same. reflexivity.
  - cbn [relocate]. rewrite (lookup_filter_beyond keep old i Hi). reflexivity.
Qed.

Lemma rebind_reminders_twice (keep : Reminder -> bool) (old : list Reminder)
    (c : Contextual) :
  rebind_reminders keep (List.filter keep old) (rebind_reminders keep old c)
  = rebind_reminders keep old c.
Proof.
  unfold rebind_reminders, set_active_reminders. cbn. f_equal.
  rewrite map_map. apply map_ext. intros ref. apply relocate_twice.
Qed.

Lemma lookup_map {A B} (g : A -> B) (l : list A) (i : nat) :
  map g l !! i = g <$> l !! i.
Proof.
  revert i. induction l as [|x l IH]; intros [|i]; cbn; try reflexivity. apply IH.
Qed.

Lemma active_refs_shared (i : nat) (rs : list Reminder) :
  Forall (fun ref => exists j, ref = Shared j) (active_refs i rs).
Proof.
  revert i. induction rs as [|r rs IH]; intros i; cbn [active_refs]; [constructor|].
  destruct (active r); [constructor; [eexists; reflexivity|]|]; apply IH.
Qed.

Lemma deref_active_refs (pre rs : list Reminder) :
  omap (deref (pre ++ rs)) (active_refs (List.length pre) rs) = List.filter active rs.
Proof.
  revert pre. induction rs as [|r rs IH]; intros pre; [reflexivity|].
  cbn [active_refs List.filter].
  specialize (IH (pre ++ [r])%list). rewrite <- app_assoc in IH. cbn [app] in IH.
  rewrite length_app in IH. cbn [List.length] in IH. rewrite Nat.add_1_r in IH.
  destruct (active r); [|exact IH].
  cbn [omap list_omap deref]. rewrite list_lookup_middle by reflexivity.
  f_equal. exact IH.
Qed.

(** A view that holds the active reminders of the store shows them. *)
Lemma active_view_fresh (m : Memory) :
  active_reminders (contextual m) = active_refs 0 (reminders (long_term m)) ->
  active_view m = List.filter active (reminders (long_term m)).
Proof.
  intros H. unfold active_view. rewrite H.
  exact (deref_active_refs [] (reminders (long_term m))).
Qed.

(** A change made to each reminder of the store is seen through the
    entries that the view shares with it. *)
Lemma deref_map (g : Reminder -> Reminder) (rs : list Reminder) (refs : list ReminderRef) :
  Forall (fun ref => exists j, ref = Shared j) refs ->
  omap (deref (map g rs)) refs = map g (omap (deref rs) refs).
Proof.
  induction 1 as [|ref refs [j ->] _ IH]; [reflexivity|].
  cbn [omap list_omap deref]. rewrite lookup_map.
  destruct (rs !! j); cbn; rewrite IH; reflexivity.
Qed.

Lemma update_contextual_memory_rebound (now : datetime) (lt : LongTerm)
    (ctx : Contextual) (keep : Reminder -> bool) (old : list Reminder) :
  rebind_reminders keep old ctx = ctx ->
  update_contextual_memory now
    {| long_term := lt;
       contextual := rebind_reminders keep old
                       (contextual (update_contextual_memory now
                                      {| long_term := lt; contextual := ctx |})) |}
  = update_contextual_memory now {| long_term := lt; contextual := ctx |}.
Proof.
  intros H. pose proof (f_equal active_reminders H) as Hrefs. cbn in Hrefs.
  unfold update_contextual_memory. cbn.
  destruct (filter_opt (is_recent now) (conversations lt)) as [convs|] eqn:Hc; cbn.
  - destruct (filter_opt (is_upcoming now) (events lt)) as [evs|] eqn:He; cbn;
      rewrite ?Hc; cbn; rewrite ?He; [reflexivity|].
    unfold on_contextual, set_recent_conversations. cbn. rewrite Hrefs. reflexivity.
  - rewrite H. reflexivity.
Qed.

(** X1: sweeping a second time at the same [now] changes nothing, also
    when the sweep is cut short by a time stamp that does not parse. *)
Theorem clean_memory_idempotent (now : datetime) (m : Memory) :
  clean_memory now (clean_memory now m) = clean_memory now m.
Proof.
  destruct m as [lt ctx]. destruct lt as [fs prefs es rs cs].
  set (m := {| long_term := _; contextual := ctx |}).
  destruct (filter_opt (keep_reminder now) rs) as [rs'|] eqn:Hr.
  2: { assert (E : clean_memory now m = m)
         by (unfold clean_memory; cbn; rewrite Hr; reflexivity).
       rewrite E. exact E. }
  pose proof (filter_opt_fixed _ _ _ Hr) as Hr'.
  pose proof (filter_opt_Some _ _ _ Hr) as Hrs.
  pose proof (rebind_reminders_twice
                (fun r => bool_decide (keep_reminder now r = Some true)) rs ctx) as Hctx.
  rewrite <- Hrs in Hctx.
  remember (rebind_reminders
              (fun r => bool_decide (keep_reminder now r = Some true)) rs ctx)
    as ctx1 eqn:Ectx1.
  destruct (filter_opt (fun e => young now (e_datetime e)) es) as [es'|] eqn:He.
  2: { assert (E : clean_memory now m
                   = {| long_term := {| facts := fs; preferences := prefs; events := es;
                                        reminders := rs'; conversations := cs |};
                        contextual := ctx1 |})
         by (subst m; unfold clean_memory, on_contextual, on_long_term;
             cbn -[rebind_reminders]; rewrite Hr;
             cbn -[rebind_reminders]; rewrite He; cbn -[rebind_reminders]; rewrite <- Ectx1; reflexivity).
       rewrite E. unfold clean_memory, on_contextual, on_long_term.
       cbn -[rebind_reminders]. rewrite Hr'.
       cbn -[rebind_reminders]. rewrite He, Hctx. reflexivity. }
  pose proof (filter_opt_fixed _ _ _ He) as He'.
  destruct (filter_opt (fun f => young now (f_timestamp f)) fs) as [fs'|] eqn:Hf.
  2: { assert (E : clean_memory now m
                   = {| long_term := {| facts := fs; preferences := prefs; events := es';
                                        reminders := rs'; conversations := cs |};
                        contextual := ctx1 |})
         by (subst m; unfold clean_memory, on_contextual, on_long_term;
             cbn -[rebind_reminders]; rewrite Hr;
             cbn -[rebind_reminders]; rewrite He; cbn -[rebind_reminders];
             rewrite Hf; cbn -[rebind_reminders]; rewrite <- Ectx1; reflexivity).
       rewrite E. unfold clean_memory, on_contextual, on_long_term.
       cbn -[rebind_reminders]. rewrite Hr'.
       cbn -[rebind_reminders]. rewrite He'. cbn -[rebind_reminders].
       rewrite Hf, Hctx. reflexivity. }
  pose proof (filter_opt_fixed _ _ _ Hf) as Hf'.
  destruct (filter_opt (fun c => young now (c_timestamp c)) cs) as [cs'|] eqn:Hc.
  2: { assert (E : clean_memory now m
                   = {| long_term := {| facts := fs'; preferences := prefs; events := es';
                                        reminders := rs'; conversations := cs |};
                        contextual := ctx1 |})
         by (subst m; unfold clean_memory, on_contextual, on_long_term;
             cbn -[rebind_reminders]; rewrite Hr;
             cbn -[rebind_reminders]; rewrite He; cbn -[rebind_reminders];
             rewrite Hf; cbn -[rebind_reminders]; rewrite Hc; cbn -[rebind_reminders]; rewrite <- Ectx1; reflexivity).
       rewrite E. unfold clean_memory, on_contextual, on_long_term.
       cbn -[rebind_reminders]. rewrite Hr'.
       cbn -[rebind_reminders]. rewrite He'. cbn -[rebind_reminders].
       rewrite Hf'. cbn -[rebind_reminders]. rewrite Hc, Hctx. reflexivity. }
  pose proof (filter_opt_fixed _ _ _ Hc) as Hc'.
  set (lt5 := {| facts := unique_facts ∅ fs'; preferences := prefs; events := es';
                 reminders := rs'; conversations := cs' |}).
  assert (E : clean_memory now m
              = update_contextual_memory now {| long_term := lt5; contextual := ctx1 |})
    by (subst m; unfold clean_memory, on_contextual, on_long_term;
             cbn -[rebind_reminders]; rewrite Hr;
        cbn -[rebind_reminders]; rewrite He; cbn -[rebind_reminders];
        rewrite Hf; cbn -[rebind_reminders]; rewrite Hc; cbn -[rebind_reminders]; rewrite <- Ectx1; reflexivity).
  rewrite E.
  assert (Hu : filter_opt (fun f => young now (f_timestamp f)) (unique_facts ∅ fs')
               = Some (unique_facts ∅ fs')).
  { apply filter_opt_all.
    apply (sublist_keeps_Forall _ _ fs' (unique_facts_sublist ∅ fs')).
    exact (filter_opt_kept _ _ _ Hf). }
  assert (Hsweep : forall m', long_term m' = lt5 ->
            clean_memory now m'
            = update_contextual_memory now
                {| long_term := lt5;
                   contextual := rebind_reminders
                                   (fun r => bool_decide (keep_reminder now r = Some true))
                                   rs' (contextual m') |}).
  { intros [lt' ctx6] Elt. cbn in Elt. subst lt'.
    unfold clean_memory, on_contextual, on_long_term.
    cbn -[rebind_reminders]. rewrite Hr'.
    cbn -[rebind_reminders]. rewrite He'. cbn -[rebind_reminders]. rewrite Hu.
    cbn -[rebind_reminders]. rewrite Hc'. cbn -[rebind_reminders].
    rewrite unique_facts_fixed. reflexivity. }
  rewrite (Hsweep _ (update_contextual_memory_long_term now
                       {| long_term := lt5; contextual := ctx1 |})).
  apply update_contextual_memory_rebound. exact Hctx.
Qed.

Lemma clean_memory_sublists (now : datetime) (m : Memory) :
  preferences (long_term (clean_memory now m)) = preferences (long_term m)
  /\ sublist (reminders (long_term (clean_memory now m))) (reminders (long_term m))
  /\ sublist (events (long_term (clean_memory now m))) (events (long_term m))
  /\ sublist (facts (long_term (clean_memory now m))) (facts (long_term m))
  /\ sublist (conversations (long_term (clean_memory now m)))
       (conversations (long_term m)).
Proof.
  unfold clean_memory.
  destruct (filter_opt (keep_reminder now) _) as [rs|] eqn:Hr; [|repeat split; reflexivity].
  apply filter_opt_sublist in Hr. cbn.
  destruct (filter_opt _ (events _)) as [es|] eqn:He;
    [|repeat split; try reflexivity; exact Hr].
  apply filter_opt_sublist in He. cbn.
  destruct (filter_opt _ (facts _)) as [fs|] eqn:Hf;
    [|repeat split; try reflexivity; assumption].
  apply filter_opt_sublist in Hf. cbn.
  destruct (filter_opt _ (conversations _)) as [cs|] eqn:Hc;
    [|repeat split; try reflexivity; assumption].
  apply filter_opt_sublist in Hc.
  rewrite update_contextual_memory_long_term. cbn.
  repeat split; try reflexivity; try assumption.
  transitivity fs; [apply unique_facts_sublist | exact Hf].
Qed.

(** X2: a sweep never touches the preferences and never adds or reorders
    anything: each collection afterwards is a sublist of what it was. *)
Theorem clean_memory_only_removes (now : datetime) (m : Memory) :
  preferences (long_term (clean_memory now m)) = preferences (long_term m)
  /\ sublist (reminders (long_term (clean_memory now m))) (reminders (long_term m))
  /\ sublist (events (long_term (clean_memory now m))) (events (long_term m))
  /\ sublist (facts (long_term (clean_memory now m))) (facts (long_term m))
  /\ sublist (conversations (long_term (clean_memory now m)))
       (conversations (long_term m)).
Proof. apply clean_memory_sublists. Qed.

Lemma unique_facts_covers (seen : gset string) (fs : list Fact) (f : Fact) :
  In f fs ->
  fact_key f ∈ seen \/ In (fact_key f) (map fact_key (unique_facts seen fs)).
Proof.
  revert seen. induction fs as [|g fs IH]; intros seen Hin; [destruct Hin|].
  cbn [unique_facts]. fold (fact_key g).
  destruct Hin as [<-|Hin].
  - destruct (decide (fact_key g ∈ seen)); [left; assumption|].
    right. left. reflexivity.
  - destruct (decide (fact_key g ∈ seen)); [apply IH; exact Hin|].
    destruct (IH ({[fact_key g]} ∪ seen) Hin) as [H|H].
    + apply elem_of_union in H as [H|H]; [|left; exact H].
      apply elem_of_singleton in H. right. left. symmetry. exact H.
    + right. right. exact H.
Qed.

(** X3: after a sweep of a store whose time stamps parse, no two facts have
    the same content up to case and surrounding blanks, and the content of
    every fact that was young enough to stay is still present. *)
Theorem clean_memory_deduplicates (now : datetime) (m : Memory)
    (Hstamps : stamps_parse (long_term m)) :
  NoDup (map fact_key (facts (long_term (clean_memory now m))))
  /\ (forall f, In f (facts (long_term m)) ->
                young now (f_timestamp f) = Some true ->
                In (fact_key f) (map fact_key (facts (long_term (clean_memory now m))))).
Proof.
  destruct (clean_memory_swept now m Hstamps)
    as (rs & es & fs & cs & _ & _ & Hfs & _ & Heq).
  rewrite Heq. cbn. split.
  - apply unique_facts_keys.
  - intros f Hin Hyoung.
    assert (Hf : In f fs) by (apply (filter_opt_In _ _ _ f Hfs); split; assumption).
    destruct (unique_facts_covers ∅ fs f Hf) as [H|H]; [|exact H].
    exfalso. exact (not_elem_of_empty _ H).
Qed.

Lemma rebind_reminders_shows (keep : Reminder -> bool) (old : list Reminder)
    (refs : list ReminderRef) :
  omap (deref (List.filter keep old)) (map (relocate keep old) refs)
  = omap (deref old) refs.
Proof.
  induction refs as [|ref refs IH]; [reflexivity|].
  cbn [map omap list_omap]. rewrite relocate_deref, IH. reflexivity.
Qed.

Lemma young_parses (now : datetime) (stamp : string) :
  young now stamp = Some true -> strptime stamp <> None.
Proof. unfold young. destruct (strptime stamp); [discriminate | intros H; discriminate H]. Qed.

Lemma update_contextual_memory_refreshes (now : datetime) (m : Memory) :
  Forall (fun c => strptime (c_timestamp c) <> None) (conversations (long_term m)) ->
  Forall (fun e => strptime (e_datetime e) <> None) (events (long_term m)) ->
  active_reminders (contextual (update_contextual_memory now m))
  = active_refs 0 (reminders (long_term m)).
Proof.
  intros Hconvs Hevents. unfold update_contextual_memory.
  assert (Hc : Forall (fun c => is_recent now c <> None) (conversations (long_term m))).
  { eapply Forall_impl; [exact Hconvs|]. intros c H. unfold is_recent.
    destruct (strptime (c_timestamp c)) eqn:E; congruence. }
  assert (He : Forall (fun e => is_upcoming now e <> None) (events (long_term m))).
  { eapply Forall_impl; [exact Hevents|]. intros e H. unfold is_upcoming.
    destruct (strptime (e_datetime e)) eqn:E; congruence. }
  destruct (filter_opt_total _ _ Hc) as [convs ->]. cbn.
  destruct (filter_opt_total _ _ He) as [evs ->]. reflexivity.
Qed.

(** X27: the sweep builds a new list of reminders out of the objects of
    the old one, and the view goes on holding the objects it held.  When
    the time stamps parse, the sweep runs to its end and recomputes the
    view, which then holds exactly the active reminders of the swept store.
    Otherwise the sweep either did that or was cut short, and a sweep cut
    short leaves the view showing the reminders that it showed, wherever
    they are in the new list and also if the store has dropped them. *)
Theorem clean_memory_view (now : datetime) (m : Memory) :
  (stamps_parse (long_term m) ->
   active_reminders (contextual (clean_memory now m))
   = active_refs 0 (reminders (long_term (clean_memory now m))))
  /\ (active_reminders (contextual (clean_memory now m))
      = active_refs 0 (reminders (long_term (clean_memory now m)))
      \/ active_view (clean_memory now m) = active_view m).
Proof.
  assert (Hcut : forall rs, filter_opt (keep_reminder now) (reminders (long_term m)) = Some rs ->
            omap (deref rs)
              (map (relocate (fun r => bool_decide (keep_reminder now r = Some true))
                      (reminders (long_term m)))
                 (active_reminders (contextual m)))
            = active_view m).
  { intros rs Hr. rewrite (filter_opt_Some _ _ _ Hr). apply rebind_reminders_shows. }
  assert (Hcases :
            (exists rs es fs cs,
               filter_opt (keep_reminder now) (reminders (long_term m)) = Some rs
               /\ filter_opt (fun e => young now (e_datetime e)) (events (long_term m))
                  = Some es
               /\ filter_opt (fun f => young now (f_timestamp f)) (facts (long_term m))
                  = Some fs
               /\ filter_opt (fun c => young now (c_timestamp c))
                    (conversations (long_term m)) = Some cs
               /\ active_reminders (contextual (clean_memory now m))
                  = active_refs 0 (reminders (long_term (clean_memory now m))))
            \/ ((filter_opt (keep_reminder now) (reminders (long_term m)) = None
                 \/ filter_opt (fun e => young now (e_datetime e)) (events (long_term m))
                    = None
                 \/ filter_opt (fun f => young now (f_timestamp f)) (facts (long_term m))
                    = None
                 \/ filter_opt (fun c => young now (c_timestamp c))
                      (conversations (long_term m)) = None)
                /\ active_view (clean_memory now m) = active_view m)).
  { unfold clean_memory.
    destruct (filter_opt (keep_reminder now) _) as [rs|] eqn:Hr;
      [|right; split; [left|]; reflexivity].
    specialize (Hcut rs eq_refl). cbn.
    destruct (filter_opt _ (events _)) as [es|] eqn:He;
      [|right; split; [right; left; reflexivity | exact Hcut]].
    cbn.
    destruct (filter_opt _ (facts _)) as [fs|] eqn:Hf;
      [|right; split; [right; right; left; reflexivity | exact Hcut]].
    cbn.
    destruct (filter_opt _ (conversations _)) as [cs|] eqn:Hc;
      [|right; split; [right; right; right; reflexivity | exact Hcut]].
    left. exists rs, es, fs, cs. repeat split; try reflexivity.
    rewrite update_contextual_memory_long_term.
    apply update_contextual_memory_refreshes; cbn.
    - eapply Forall_impl; [exact (filter_opt_kept _ _ _ Hc)|].
      intros c. apply young_parses.
    - eapply Forall_impl; [exact (filter_opt_kept _ _ _ He)|].
      intros e. apply young_parses. }
  split.
  - intros Hstamps.
    destruct (clean_memory_swept now m Hstamps)
      as (rs & es & fs & cs & Hr & He & Hf & Hc & _).
    destruct Hcases as [(_ & _ & _ & _ & _ & _ & _ & _ & H) | [Hnone _]]; [exact H|].
    destruct Hnone as [H | [H | [H | H]]]; congruence.
  - destruct Hcases as [(_ & _ & _ & _ & _ & _ & _ & _ & H) | [_ H]];
      [left | right]; exact H.
Qed.

End Sweeper.

Lemma tea_twice_stamps_parse : stamps_parse tea_twice.
Proof.
  unfold stamps_parse, tea_twice. cbn [reminders events facts conversations set_facts
                                        empty_long_term].
  split; [|split; [|split]]; each_element ltac:(vm_compute; discriminate).
Qed.

Lemma clean_memory_deduplicates_witness :
  map f_content (facts (long_term (clean_memory t0 (memory_of tea_twice))))
  = ["I like tea"; "I like coffee"]
  /\ NoDup (map fact_key (facts (long_term (clean_memory t0 (memory_of tea_twice))))).
Proof.
  split; [vm_compute; reflexivity|].
  exact (proj1 (clean_memory_deduplicates t0 (memory_of tea_twice)
                  tea_twice_stamps_parse)).
Defined.

Section Scheduler.
Context `{DT : DateTime}.

Lemma active_complete (now : datetime) (r : Reminder) : active (complete now r) = false.
Proof. reflexivity. Qed.

Lemma settled_refl (now : datetime) (rs : list Reminder) :
  Forall2 (settled now) rs rs.
Proof. induction rs; constructor; [left; reflexivity | assumption]. Qed.

Lemma scan_reminders_settled (now : datetime) (rs : list Reminder) :
  Forall2 (settled now) rs (scan_reminders now rs).1.
Proof.
  induction rs as [|r rs IH]; cbn [scan_reminders]; [constructor|].
  destruct (active r) eqn:Ha; cbn [negb].
  - destruct (strptime (r_datetime r)) as [due|]; [|apply settled_refl].
    destruct (scan_reminders now rs) as [rs' up]. cbn in IH.
    destruct (due <? now)%Z; [|destruct (due_soon now due)]; cbn;
      constructor; try exact IH; try (left; reflexivity).
    right. split; [exact Ha | reflexivity].
  - destruct (scan_reminders now rs) as [rs' up]. cbn in *.
    constructor; [left; reflexivity | exact IH].
Qed.

Lemma notify_upcoming_frame (l : list Reminder) (st : State) :
  memory (fold_left notify_upcoming l st) = memory st
  /\ pending_action (fold_left notify_upcoming l st) = pending_action st
  /\ is_listening (fold_left notify_upcoming l st) = is_listening st.
Proof.
  revert st. induction l as [|r l IH]; intros st; cbn [fold_left].
  - repeat split; reflexivity.
  - destruct (IH (notify_upcoming st r)) as (Hm & Hp & Hl).
    rewrite Hm, Hp, Hl. repeat split; reflexivity.
Qed.

Lemma deref_settled (now : datetime) (rs rs' : list Reminder) (refs : list ReminderRef) :
  Forall2 (settled now) rs rs' ->
  Forall2 (settled now) (omap (deref rs) refs) (omap (deref rs') refs).
Proof.
  intros Hs. induction refs as [|[i|r] refs IH]; cbn [omap list_omap deref].
  - constructor.
  - destruct (rs !! i) as [x|] eqn:Hx.
    + destruct (Forall2_lookup_l _ _ _ _ _ Hs Hx) as (y & -> & Hxy).
      constructor; assumption.
    + apply lookup_ge_None in Hx. rewrite (Forall2_length _ _ _ Hs) in Hx.
      apply lookup_ge_None in Hx. rewrite Hx. exact IH.
  - constructor; [left; reflexivity | exact IH].
Qed.

(** X4: whatever the store holds, a scheduler tick changes nothing but
    reminders and the log, and each reminder either stays as it is or goes
    from active to completed at [now]: no reminder is removed, added,
    reordered or made active again.  The tick assigns nothing to the
    contextual view, which holds the objects it held; but the reminders
    among them are those of the store, changed in place, so that the view
    shows each of its reminders as the tick left it. *)
Theorem tick_only_settles (now : datetime) (st : State) :
  let m := memory st in
  let m' := memory (check_reminders_tick now st) in
  Forall2 (settled now) (reminders (long_term m)) (reminders (long_term m'))
  /\ set_reminders (reminders (long_term m)) (long_term m') = long_term m
  /\ active_reminders (contextual m') = active_reminders (contextual m)
  /\ Forall2 (settled now) (active_view m) (active_view m')
  /\ (forall i r, In (Shared i) (active_reminders (contextual m)) ->
                  reminders (long_term m') !! i = Some r -> In r (active_view m'))
  /\ recent_conversations (contextual m') = recent_conversations (contextual m)
  /\ relevant_facts (contextual m') = relevant_facts (contextual m)
  /\ upcoming_events (contextual m') = upcoming_events (contextual m)
  /\ active_context (contextual m') = active_context (contextual m)
  /\ pending_action (check_reminders_tick now st) = pending_action st
  /\ is_listening (check_reminders_tick now st) = is_listening st.
Proof.
  intros m m'. subst m m'. unfold check_reminders_tick.
  pose proof (scan_reminders_settled now (reminders (long_term (memory st)))) as Hs.
  destruct (scan_reminders now (reminders (long_term (memory st)))) as [rs up].
  cbn [fst] in Hs.
  assert (Hframe : memory (match up with
                           | Some l => fold_left notify_upcoming l
                                         (set_memory (on_long_term (set_reminders rs)
                                                        (memory st)) st)
                           | None => set_memory (on_long_term (set_reminders rs)
                                                   (memory st)) st
                           end)
                   = on_long_term (set_reminders rs) (memory st)
                   /\ pending_action (match up with
                           | Some l => fold_left notify_upcoming l
                                         (set_memory (on_long_term (set_reminders rs)
                                                        (memory st)) st)
                           | None => set_memory (on_long_term (set_reminders rs)
                                                   (memory st)) st
                           end) = pending_action st
                   /\ is_listening (match up with
                           | Some l => fold_left notify_upcoming l
                                         (set_memory (on_long_term (set_reminders rs)
                                                        (memory st)) st)
                           | None => set_memory (on_long_term (set_reminders rs)
                                                   (memory st)) st
                           end) = is_listening st).
  { destruct up as [l|]; [|repeat split; reflexivity].
    destruct (notify_upcoming_frame l
                (set_memory (on_long_term (set_reminders rs) (memory st)) st))
      as (Hm & Hp & Hl).
    rewrite Hm, Hp, Hl. repeat split; reflexivity. }
  destruct Hframe as (-> & -> & ->). unfold active_view. cbn.
  repeat split; try reflexivity; try exact Hs.
  - destruct (long_term (memory st)). reflexivity.
  - apply deref_settled. exact Hs.
  - intros i r Hin Hr. apply list_elem_of_In, list_elem_of_omap. exists (Shared i).
    split; [apply list_elem_of_In; assumption | assumption].
Qed.

Lemma filter_map_same {A} (f : A -> bool) (g : A -> A) (l : list A) :
  Forall (fun x => g x = x \/ (f x = false /\ f (g x) = false)) l ->
  List.filter f (map g l) = List.filter f l.
Proof.
  induction 1 as [|x l Hx _ IH]; [reflexivity|].
  cbn [map List.filter]. rewrite IH.
  destruct Hx as [-> | [-> ->]]; reflexivity.
Qed.

Lemma overdue_complete (now : datetime) (r : Reminder) :
  overdue now (if overdue now r then complete now r else r) = false.
Proof. destruct (overdue now r) eqn:E; [reflexivity | exact E]. Qed.

(** X5: when the due times parse, a second tick at the same [now] leaves
    the reminders as the first one left them and repeats the notifications
    of the first: nothing records that a reminder was already announced. *)
Theorem tick_twice (now : datetime) (st : State)
    (Hdue : due_times_parse (reminders (long_term (memory st)))) :
  let notices :=
    flat_map (fun r => [Speak (reminder_notice r);
                        Notification "Upcoming Reminder" (reminder_notice r) 10])
      (List.filter (in_lookahead now) (reminders (long_term (memory st)))) in
  reminders (long_term (memory (check_reminders_tick now (check_reminders_tick now st))))
  = reminders (long_term (memory (check_reminders_tick now st)))
  /\ log (check_reminders_tick now st) = (log st ++ notices)%list
  /\ log (check_reminders_tick now (check_reminders_tick now st))
     = (log st ++ notices ++ notices)%list.
Proof.
  intros notices.
  set (rs := reminders (long_term (memory st))) in *.
  set (rs1 := map (fun r => if overdue now r then complete now r else r) rs).
  assert (Hdue1 : due_times_parse rs1).
  { unfold due_times_parse, rs1. apply List.Forall_forall. intros r1 Hin.
    apply in_map_iff in Hin as (r & <- & Hr).
    unfold due_times_parse in Hdue. rewrite List.Forall_forall in Hdue.
    destruct (overdue now r); [discriminate | apply Hdue, Hr]. }
  assert (Hmap : map (fun r => if overdue now r then complete now r else r) rs1 = rs1).
  { unfold rs1. rewrite map_map. apply map_ext. intros r.
    rewrite overdue_complete. reflexivity. }
  assert (Hfil : List.filter (in_lookahead now) rs1 = List.filter (in_lookahead now) rs).
  { unfold rs1. apply filter_map_same, List.Forall_forall. intros r _.
    destruct (overdue now r) eqn:E; [right | left; reflexivity].
    split; [apply overdue_not_in_lookahead; exact E | reflexivity]. }
  assert (Hone : forall s, due_times_parse (reminders (long_term (memory s))) ->
            reminders (long_term (memory (check_reminders_tick now s)))
            = map (fun r => if overdue now r then complete now r else r)
                (reminders (long_term (memory s)))
            /\ log (check_reminders_tick now s)
               = (log s ++
                  flat_map (fun r => [Speak (reminder_notice r);
                                      Notification "Upcoming Reminder"
                                        (reminder_notice r) 10])
                    (List.filter (in_lookahead now) (reminders (long_term (memory s)))))%list).
  { intros s Hs. unfold check_reminders_tick.
    rewrite (scan_reminders_spec now _ Hs).
    match goal with |- context [fold_left notify_upcoming ?l ?s0] =>
      destruct (notify_upcoming_log l s0) as [Hl Hm] end.
    rewrite Hm, Hl. split; reflexivity. }
  destruct (Hone st Hdue) as [Hr1 Hl1]. fold rs in Hr1, Hl1. fold rs1 in Hr1.
  assert (Hdue' : due_times_parse
                    (reminders (long_term (memory (check_reminders_tick now st)))))
    by (rewrite Hr1; exact Hdue1).
  destruct (Hone _ Hdue') as [Hr2 Hl2].
  rewrite Hr2, Hl2, Hr1, Hl1, Hmap, Hfil. subst notices.
  rewrite <- app_assoc. repeat split; reflexivity.
Qed.

Lemma complete_all_none_active (now : datetime) (rs : list Reminder) :
  List.filter active (map (fun r => if active r then complete now r else r) rs) = [].
Proof.
  induction rs as [|r rs IH]; [reflexivity|].
  cbn [map List.filter]. destruct (active r) eqn:Ha; cbn; rewrite ?Ha; exact IH.
Qed.

Lemma clear_reminders_none_active (now : datetime) (m : Memory) :
  List.filter active (reminders (long_term (clear_reminders now m).1)) = [].
Proof.
  unfold clear_reminders. destruct (Nat.eqb _ 0) eqn:E; cbn.
  - apply Nat.eqb_eq, length_zero_iff_nil in E. exact E.
  - apply complete_all_none_active.
Qed.

Lemma clear_reminders_long_term (now : datetime) (m : Memory) :
  (clear_reminders now m).1
  = on_long_term
      (set_reminders (map (fun r => if active r then complete now r else r)
                        (reminders (long_term m)))) m.
Proof.
  unfold clear_reminders. destruct (Nat.eqb _ 0) eqn:E; [|reflexivity].
  apply Nat.eqb_eq, length_zero_iff_nil in E. cbn [fst].
  assert (Hid : map (fun r => if active r then complete now r else r)
                  (reminders (long_term m)) = reminders (long_term m)).
  { induction (reminders (long_term m)) as [|r rs IH]; [reflexivity|].
    cbn [List.filter] in E. cbn [map].
    destruct (active r); [discriminate|]. rewrite (IH E). reflexivity. }
  rewrite Hid. destruct m as [lt ctx]. destruct lt. reflexivity.
Qed.

Lemma complete_all_settled (now : datetime) (rs : list Reminder) :
  Forall2 (settled now) rs (map (fun r => if active r then complete now r else r) rs).
Proof.
  induction rs as [|r rs IH]; cbn [map]; constructor; [|exact IH].
  destruct (active r) eqn:Ha; [right; split; [exact Ha | reflexivity] | left; reflexivity].
Qed.

(** X6: [clear_reminders] leaves no active reminder behind; every reminder
    keeps its place and either stays as it was or goes from active to
    completed at [now]; nothing else in the long-term memory changes.  The
    function assigns nothing to the contextual view, which holds the objects
    it held; as the reminders among them are those of the store, changed in
    place, the view shows as completed every reminder that it shares with
    the store. *)
Theorem clear_reminders_completes_all (now : datetime) (m : Memory) :
  let m' := (clear_reminders now m).1 in
  List.filter active (reminders (long_term m')) = []
  /\ Forall2 (settled now) (reminders (long_term m)) (reminders (long_term m'))
  /\ set_reminders (reminders (long_term m)) (long_term m') = long_term m
  /\ active_reminders (contextual m') = active_reminders (contextual m)
  /\ Forall2 (settled now) (active_view m) (active_view m')
  /\ (forall i r, In (Shared i) (active_reminders (contextual m)) ->
                  reminders (long_term m') !! i = Some r ->
                  In r (active_view m') /\ active r = false)
  /\ recent_conversations (contextual m') = recent_conversations (contextual m)
  /\ relevant_facts (contextual m') = relevant_facts (contextual m)
  /\ upcoming_events (contextual m') = upcoming_events (contextual m)
  /\ active_context (contextual m') = active_context (contextual m).
Proof.
  intros m'. subst m'.
  split; [apply clear_reminders_none_active|].
  pose proof (clear_reminders_none_active now m) as Hnone.
  rewrite clear_reminders_long_term in *. unfold active_view. cbn in *.
  repeat split; try reflexivity.
  - apply complete_all_settled.
  - destruct (long_term m). reflexivity.
  - apply deref_settled, complete_all_settled.
  - apply list_elem_of_In, list_elem_of_omap. exists (Shared i).
    split; [apply list_elem_of_In; assumption | assumption].
  - assert (Hin : In r (List.filter active
                          (map (fun r => if active r then complete now r else r)
                             (reminders (long_term m)))) -> False)
      by (rewrite Hnone; intros []).
    destruct (active r) eqn:Ha; [|reflexivity]. exfalso. apply Hin.
    apply filter_In. split; [|exact Ha].
    apply list_elem_of_In, list_elem_of_lookup. eexists; eassumption.
Qed.

(** X24: the view that [update_contextual_memory] computes holds the
    active reminders of the store themselves.  When the due times parse, it
    therefore lists after a tick the reminders that were active when it was
    computed, those due before [now] as completed at [now], although the
    tick assigned nothing to it. *)
Theorem tick_shows_through_view (now : datetime) (st : State)
    (Hfresh : active_reminders (contextual (memory st))
              = active_refs 0 (reminders (long_term (memory st))))
    (Hdue : due_times_parse (reminders (long_term (memory st)))) :
  active_view (memory st) = List.filter active (reminders (long_term (memory st)))
  /\ active_view (memory (check_reminders_tick now st))
     = map (fun r => if overdue now r then complete now r else r)
         (List.filter active (reminders (long_term (memory st)))).
Proof.
  split; [apply active_view_fresh; exact Hfresh|].
  unfold check_reminders_tick. rewrite (scan_reminders_spec now _ Hdue).
  match goal with |- context [fold_left notify_upcoming ?l ?s] =>
    destruct (notify_upcoming_frame l s) as (Hm & _ & _) end.
  rewrite Hm. unfold active_view. cbn. rewrite Hfresh.
  rewrite deref_map by apply active_refs_shared.
  pose proof (deref_active_refs [] (reminders (long_term (memory st)))) as Hshown.
  cbn [app List.length] in Hshown. rewrite Hshown. reflexivity.
Qed.

(** X25: likewise, the view that [update_contextual_memory] computed lists
    after [clear_reminders] the reminders that were active, every one of
    them completed at [now]. *)
Theorem clear_reminders_shows_through_view (now : datetime) (m : Memory)
    (Hfresh : active_reminders (contextual m) = active_refs 0 (reminders (long_term m))) :
  active_view (clear_reminders now m).1
  = map (complete now) (List.filter active (reminders (long_term m))).
Proof.
  rewrite clear_reminders_long_term. unfold active_view. cbn. rewrite Hfresh.
  rewrite deref_map by apply active_refs_shared.
  pose proof (deref_active_refs [] (reminders (long_term m))) as Hshown.
  cbn [app List.length] in Hshown. rewrite Hshown.
  apply map_ext_in. intros r Hr. apply filter_In in Hr as [_ ->]. reflexivity.
Qed.

Lemma filter_none {A} (l : list A) : List.filter (fun _ => false) l = [].
Proof. induction l; [reflexivity | assumption]. Qed.

(** X26: [clear_all_memory] resets the long-term collections and nothing
    else: the contextual view is not recomputed and shows what it showed,
    the reminders that the store has just dropped included. *)
Theorem clear_all_memory_leaves_view (m : Memory) :
  let m' := (clear_all_memory m).1 in
  long_term m' = empty_long_term
  /\ active_view m' = active_view m
  /\ recent_conversations (contextual m') = recent_conversations (contextual m)
  /\ relevant_facts (contextual m') = relevant_facts (contextual m)
  /\ upcoming_events (contextual m') = upcoming_events (contextual m)
  /\ active_context (contextual m') = active_context (contextual m).
Proof.
  intros m'. subst m'. unfold clear_all_memory, active_view. cbn.
  repeat split; try reflexivity.
  induction (active_reminders (contextual m)) as [|ref refs IH]; [reflexivity|].
  cbn [map omap list_omap].
  pose proof (relocate_deref (fun _ => false) (reminders (long_term m)) ref) as H.
  rewrite filter_none in H. rewrite H, IH. reflexivity.
Qed.

(** X7: clearing the reminders a second time, at whatever time, changes
    nothing and answers that there is nothing to clear. *)
Theorem clear_reminders_twice (now now' : datetime) (m : Memory) :
  clear_reminders now' (clear_reminders now m).1
  = ((clear_reminders now m).1, "You don't have any active reminders to clear.").
Proof.
  unfold clear_reminders at 1. rewrite clear_reminders_none_active. reflexivity.
Qed.

End Scheduler.

Section Invariants.
Context `{DT : DateTime}.

Lemma times_parse_long_term (m m' : Memory) :
  long_term m' = long_term m -> times_parse m -> times_parse m'.
Proof. unfold times_parse. intros ->. exact id. Qed.

Lemma Forall_snoc {A} (P : A -> Prop) (l : list A) (x : A) :
  Forall P l -> P x -> Forall P (l ++ [x]).
Proof. intros Hl Hx. apply Forall_app. split; [exact Hl | repeat constructor; exact Hx]. Qed.

Lemma times_parse_conversation (c : Conversation) (m : Memory) :
  strptime (c_timestamp c) <> None ->
  times_parse m ->
  times_parse (on_long_term (fun lt => set_conversations (conversations lt ++ [c]) lt) m).
Proof.
  intros Hc ((Hr & He & Hf & Hcs) & Hd). repeat split; cbn; try assumption.
  apply Forall_snoc; assumption.
Qed.

Lemma times_parse_event (e : Event) (m : Memory) :
  strptime (e_datetime e) <> None ->
  times_parse m ->
  times_parse (on_long_term (fun lt => set_events (events lt ++ [e]) lt) m).
Proof.
  intros Hc ((Hr & He & Hf & Hcs) & Hd). repeat split; cbn; try assumption.
  apply Forall_snoc; assumption.
Qed.

Lemma times_parse_reminder (r : Reminder) (m : Memory) :
  strptime (r_datetime r) <> None ->
  r_completed_at r = None ->
  times_parse m ->
  times_parse (on_long_term (fun lt => set_reminders (reminders lt ++ [r]) lt) m).
Proof.
  intros Hc Hn ((Hr & He & Hf & Hcs) & Hd). repeat split; cbn; try assumption.
  - apply Forall_snoc; [assumption|]. rewrite Hn. discriminate.
  - apply Forall_snoc; assumption.
Qed.

Lemma times_parse_fact (f : Fact) (m : Memory) :
  strptime (f_timestamp f) <> None ->
  times_parse m ->
  times_parse (on_long_term (fun lt => set_facts (facts lt ++ [f]) lt) m).
Proof.
  intros Hc ((Hr & He & Hf & Hcs) & Hd). repeat split; cbn; try assumption.
  apply Forall_snoc; assumption.
Qed.

Lemma times_parse_clear_reminders (now : datetime) (m : Memory) :
  strptime (strftime now) <> None ->
  times_parse m ->
  times_parse (clear_reminders now m).1.
Proof.
  intros Hnow H. unfold clear_reminders.
  destruct (Nat.eqb _ 0); [exact H|]. cbn.
  destruct H as ((Hr & He & Hf & Hcs) & Hd). repeat split; cbn; try assumption.
  - apply List.Forall_forall. intros r' Hin.
    apply in_map_iff in Hin as (r & <- & Hin).
    rewrite List.Forall_forall in Hr. specialize (Hr r Hin).
    destruct (active r); [|exact Hr].
    cbn. intros stamp [= <-]. exact Hnow.
  - apply List.Forall_forall. intros r' Hin.
    apply in_map_iff in Hin as (r & <- & Hin).
    rewrite List.Forall_forall in Hd. specialize (Hd r Hin).
    destruct (active r); exact Hd.
Qed.

Lemma times_parse_clear_all (m : Memory) : times_parse (clear_all_memory m).1.
Proof. repeat split; constructor. Qed.

Lemma times_parse_clean (now : datetime) (m : Memory) :
  times_parse m -> times_parse (clean_memory now m).
Proof.
  intros ((Hr & He & Hf & Hc) & Hd).
  destruct (clean_memory_sublists now m) as (_ & Sr & Se & Sf & Sc).
  repeat split; eapply sublist_keeps_Forall; eassumption.
Qed.

Lemma well_formed_same (st st' : State) :
  memory st' = memory st -> pending_action st' = pending_action st ->
  well_formed st -> well_formed st'.
Proof. unfold well_formed. intros -> ->. exact id. Qed.

Lemma well_formed_memory (st : State) (m : Memory) :
  times_parse m -> well_formed st -> well_formed (set_memory m st).
Proof. intros Hm [_ Hp]. split; [exact Hm | exact Hp]. Qed.

Lemma well_formed_pending (st : State) (p : ActionData) :
  parked p -> well_formed st -> well_formed (set_pending (Some p) st).
Proof. intros Hp [Hm _]. split; [exact Hm|]. cbn. intros q [= <-]. exact Hp. Qed.

Lemma record_utterance_well_formed (now : datetime) (a : ActionData) (text : string)
    (st : State) :
  strptime (strftime now) <> None ->
  well_formed st -> well_formed (record_utterance now a text st).
Proof.
  intros Hnow [Hm Hp]. split; [|destruct st; exact Hp].
  unfold record_utterance. cbn.
  eapply times_parse_long_term; [apply update_contextual_memory_long_term|].
  apply times_parse_conversation; [exact Hnow | exact Hm].
Qed.

Lemma set_reminder_well_formed (now : datetime) (a : ActionData) (st : State) :
  well_formed st -> well_formed (flow_state (set_reminder now a st)).
Proof.
  intros H. unfold set_reminder.
  destruct (data a) as [rd|]; [|exact H].
  destruct (d_message rd) as [msg|] eqn:Hmsg; [|exact H].
  destruct (d_suggested_time rd) as [time|] eqn:Htime; [|exact H].
  destruct (strptime time) as [t|] eqn:Ht; [|exact H].
  assert (Hparse : strptime time <> None) by congruence.
  assert (Hparked : forall prompt, parked (pending_reminder rd prompt)).
  { intros prompt. right. right. split; [reflexivity|].
    exists rd, msg, time. repeat split; assumption. }
  destruct (t <? now)%Z.
  { split; [exact (proj1 H) | cbn; intros q [= <-]; apply Hparked]. }
  destruct (truthy (d_needs_confirmation rd)).
  { split; [exact (proj1 H) | cbn; intros q [= <-]; apply Hparked]. }
  destruct (d_type rd) as [ty|]; [|exact H].
  destruct (String.eqb ty "event").
  - destruct (existsb _ _); cbn; [exact H|].
    destruct H as [Hm Hp]. split; [|exact Hp]. cbn.
    apply times_parse_event; [exact Hparse | exact Hm].
  - destruct (existsb _ _); cbn; [exact H|].
    destruct H as [Hm Hp]. split; [|exact Hp]. cbn.
    apply times_parse_reminder; [exact Hparse | reflexivity | exact Hm].
Qed.

Lemma remember_fact_well_formed (now : datetime) (a : ActionData) (st : State) :
  strptime (strftime now) <> None ->
  well_formed st -> well_formed (flow_state (remember_fact now a st)).
Proof.
  intros Hnow H. unfold remember_fact.
  destruct (content a) as [c|]; [|exact H].
  destruct (category a) as [cat|]; [|exact H].
  destruct (existsb _ _); cbn; [exact H|].
  destruct H as [Hm Hp]. split; [|exact Hp]. cbn.
  apply times_parse_fact; [exact Hnow | exact Hm].
Qed.

Lemma handle_new_action_well_formed (now : datetime) (a : ActionData) (st : State) :
  strptime (strftime now) <> None ->
  well_formed st -> well_formed (flow_state (handle_new_action now a st)).
Proof.
  intros Hnow H. unfold handle_new_action.
  destruct (String.eqb (action a) "read_back_reminders"); [exact H|].
  destruct (String.eqb (action a) "clear_reminders") eqn:Ecr.
  { apply String.eqb_eq in Ecr.
    destruct (Nat.eqb _ 0); [exact H|].
    destruct (truthy (needs_confirmation a)).
    - split; [exact (proj1 H) | cbn; intros q [= <-]; left; exact Ecr].
    - pose proof (times_parse_clear_reminders now (memory st) Hnow (proj1 H)) as Hc.
      destruct (clear_reminders now (memory st)) as [m resp]. cbn in *.
      split; [exact Hc | exact (proj2 H)]. }
  destruct (String.eqb (action a) "clear_all_memory") eqn:Eca.
  { apply String.eqb_eq in Eca.
    destruct (truthy (needs_confirmation a)).
    - split; [exact (proj1 H) | cbn; intros q [= <-]; right; left; exact Eca].
    - cbn. split; [apply (times_parse_clear_all (memory st)) | exact (proj2 H)]. }
  destruct (String.eqb (action a) "set_reminder"); [apply set_reminder_well_formed, H|].
  destruct (String.eqb (action a) "remember_fact");
    [apply remember_fact_well_formed; assumption|].
  destruct (String.eqb (action a) "query_memory");
    [destruct (response a); exact H|].
  destruct (String.eqb (action a) "general_query");
    [destruct (response a); exact H|].
  exact H.
Qed.

Lemma close_action_well_formed (now : datetime) (fl : Flow) :
  well_formed (flow_state fl) -> well_formed (close_action now fl).
Proof.
  destruct fl as [st|st|st]; cbn; intros H; try exact H.
  split; [apply times_parse_clean, H | exact (proj2 H)].
Qed.

Lemma confirm_pending_well_formed (now : datetime) (p : ActionData) (st : State) :
  strptime (strftime now) <> None ->
  parked p ->
  well_formed st ->
  well_formed (close_confirmation (confirm_pending now p st)).
Proof.
  intros Hnow Hp H. unfold confirm_pending.
  destruct (String.eqb (action p) "clear_reminders").
  { pose proof (times_parse_clear_reminders now (memory st) Hnow (proj1 H)) as Hc.
    destruct (clear_reminders now (memory st)) as [m resp]. cbn in *.
    split; [exact Hc | discriminate]. }
  destruct (String.eqb (action p) "clear_all_memory").
  { cbn. split; [apply (times_parse_clear_all (memory st)) | discriminate]. }
  destruct (String.eqb (action p) "set_reminder") eqn:Eset.
  2: { cbn. split; [exact (proj1 H) | discriminate]. }
  apply String.eqb_eq in Eset.
  destruct Hp as [Hp | [Hp | (_ & rd & msg & time & Hd & Hmsg & Htime & Hparse)]];
    [congruence | congruence |].
  rewrite Hd, Hmsg, Htime.
  destruct (d_type rd) as [ty|]; [|exact H].
  destruct (String.eqb ty "event"); cbn; (split; [|discriminate]); cbn.
  - apply times_parse_event; [exact Hparse | exact (proj1 H)].
  - apply times_parse_reminder; [exact Hparse | reflexivity | exact (proj1 H)].
Qed.

Lemma handle_action_well_formed (now : datetime) (a : ActionData) (text : string)
    (st : State) :
  strptime (strftime now) <> None ->
  well_formed st -> well_formed (handle_action now a text st).
Proof.
  intros Hnow H. unfold handle_action.
  pose proof (record_utterance_well_formed now a text st Hnow H) as H1.
  set (st1 := record_utterance now a text st) in *.
  destruct (get_memory_summary now (memory st1)); [|exact H1].
  destruct (pending_action st1) as [p|] eqn:Hp.
  - destruct (affirmative text).
    + apply confirm_pending_well_formed; [exact Hnow | exact (proj2 H1 p Hp) | exact H1].
    + apply close_action_well_formed, handle_new_action_well_formed; assumption.
  - apply close_action_well_formed, handle_new_action_well_formed; assumption.
Qed.

(** X8: the engine keeps its memory readable.  From a state in which all
    stored times parse and the pending action (if any) is one the
    dispatcher parks, any sequence of dispatches made at times that
    [strftime] writes in a form [strptime] reads leads to such a state
    again: every time the dispatcher stores has been parsed or written by
    itself, and the pending action is always a [clear_reminders], a
    [clear_all_memory] or a [set_reminder] with a message and a parsed
    time. *)
Theorem run_well_formed (st : State) (ds : list Dispatch)
    (Hst : well_formed st)
    (Hclock : Forall (fun d => strptime (strftime (at_time d)) <> None) ds) :
  well_formed (run st ds).
Proof.
  revert st Hst. induction Hclock as [|d ds Hd _ IH]; intros st Hst; [exact Hst|].
  rewrite run_cons. apply IH. unfold dispatch.
  apply handle_action_well_formed; assumption.
Qed.

(** X9: a scheduler tick at a time that [strftime] writes in a form
    [strptime] reads keeps the state well formed. *)
Theorem tick_well_formed (now : datetime) (st : State)
    (Hnow : strptime (strftime now) <> None)
    (Hst : well_formed st) :
  well_formed (check_reminders_tick now st).
Proof.
  destruct Hst as [((Hr & He & Hf & Hc) & Hd) Hp].
  pose proof (scan_reminders_settled now (reminders (long_term (memory st)))) as Hs.
  unfold check_reminders_tick.
  destruct (scan_reminders now (reminders (long_term (memory st)))) as [rs up].
  cbn in Hs.
  assert (Hrs : Forall (fun r => (forall stamp, r_completed_at r = Some stamp ->
                                                strptime stamp <> None)
                                 /\ strptime (r_datetime r) <> None) rs).
  { clear Hp up. revert Hr Hd.
    induction Hs as [|r r' l l' Hrr' _ IH]; intros Hr Hd; [constructor|].
    inversion Hr; inversion Hd; subst. constructor; [|apply IH; assumption].
    destruct Hrr' as [-> | [_ ->]]; [split; assumption|].
    split; [|assumption]. cbn. intros stamp [= <-]. exact Hnow. }
  assert (Hwf : well_formed
                  (set_memory (on_long_term (set_reminders rs) (memory st)) st)).
  { split; [|exact Hp]. repeat split; cbn; try assumption.
    - eapply Forall_impl; [exact Hrs|]. intros r [H _]. exact H.
    - eapply Forall_impl; [exact Hrs|]. intros r [_ H]. exact H. }
  destruct up as [l|]; [|exact Hwf].
  destruct (notify_upcoming_frame l
              (set_memory (on_long_term (set_reminders rs) (memory st)) st))
    as (Hm & Hq & _).
  eapply well_formed_same; [exact Hm | exact Hq | exact Hwf].
Qed.

End Invariants.

Section Effects.
Context `{DT : DateTime}.

Lemma existsb_same_event (msg time : string) (es : list Event) :
  existsb (same_event msg time) es = false ->
  ~ In (lower msg, time) (map event_key es).
Proof.
  intros H Hin. apply in_map_iff in Hin as (e & Hk & He).
  assert (E : existsb (same_event msg time) es = true); [|congruence].
  apply existsb_exists. exists e. split; [exact He|].
  unfold same_event. injection Hk as -> ->. rewrite !String.eqb_refl. reflexivity.
Qed.

Lemma existsb_same_reminder (msg time : string) (rs : list Reminder) :
  existsb (same_reminder msg time) rs = false ->
  ~ In (lower msg, time) (map reminder_key rs).
Proof.
  intros H Hin. apply in_map_iff in Hin as (r & Hk & Hr).
  assert (E : existsb (same_reminder msg time) rs = true); [|congruence].
  apply existsb_exists. exists r. split; [exact Hr|].
  unfold same_reminder. injection Hk as -> ->. rewrite !String.eqb_refl. reflexivity.
Qed.

Lemma existsb_same_fact (c : string) (fs : list Fact) :
  existsb (same_fact (strip (lower c))) fs = false ->
  ~ In (strip (lower c)) (map fact_key fs).
Proof.
  intros H Hin. apply in_map_iff in Hin as (f & Hk & Hf).
  assert (E : existsb (same_fact (strip (lower c))) fs = true); [|congruence].
  apply existsb_exists. exists f. split; [exact Hf|].
  unfold same_fact. apply String.eqb_eq. exact Hk.
Qed.

Lemma clear_reminders_effect (now : datetime) (checked : bool) (m : Memory) :
  effect now checked "clear_reminders" (long_term m)
    (long_term (clear_reminders now m).1).
Proof.
  unfold clear_reminders. destruct (Nat.eqb _ 0); cbn; constructor; reflexivity.
Qed.

Lemma set_reminder_effect (now : datetime) (a : ActionData) (st : State) :
  effect now true "set_reminder" (long_term (memory st))
    (long_term (memory (flow_state (set_reminder now a st)))).
Proof.
  unfold set_reminder.
  destruct (data a) as [rd|]; [|constructor].
  destruct (d_message rd) as [msg|]; [|constructor].
  destruct (d_suggested_time rd) as [time|]; [|constructor].
  destruct (strptime time) as [t|]; [|constructor].
  destruct (t <? now)%Z; [constructor|].
  destruct (truthy (d_needs_confirmation rd)); [constructor|].
  destruct (d_type rd) as [ty|]; [|constructor].
  destruct (String.eqb ty "event").
  - destruct (existsb _ _) eqn:E; cbn; [constructor|].
    apply (effect_event now true _ _ (new_event now msg time)); [reflexivity|].
    intros _. apply existsb_same_event, E.
  - destruct (existsb _ _) eqn:E; cbn; [constructor|].
    apply (effect_reminder now true _ _ (new_reminder now msg time)); [reflexivity|].
    intros _. apply existsb_same_reminder, E.
Qed.

Lemma remember_fact_effect (now : datetime) (a : ActionData) (st : State) :
  effect now true "remember_fact" (long_term (memory st))
    (long_term (memory (flow_state (remember_fact now a st)))).
Proof.
  unfold remember_fact.
  destruct (content a) as [c|]; [|constructor].
  destruct (category a) as [cat|]; [|constructor].
  destruct (existsb _ _) eqn:E; cbn; [constructor|].
  apply (effect_fact now true _ _
           {| f_content := c; f_category := cat; f_timestamp := strftime now |});
    [reflexivity | reflexivity |].
  apply existsb_same_fact, E.
Qed.

Lemma handle_new_action_effect (now : datetime) (a : ActionData) (st : State) :
  effect now true (action a) (long_term (memory st))
    (long_term (memory (flow_state (handle_new_action now a st)))).
Proof.
  unfold handle_new_action.
  destruct (String.eqb (action a) "read_back_reminders"); [constructor|].
  destruct (String.eqb (action a) "clear_reminders") eqn:Ecr.
  { apply String.eqb_eq in Ecr. rewrite Ecr.
    destruct (Nat.eqb _ 0); [constructor|].
    destruct (truthy (needs_confirmation a)); [constructor|].
    pose proof (clear_reminders_effect now true (memory st)) as H.
    destruct (clear_reminders now (memory st)) as [m resp]. exact H. }
  destruct (String.eqb (action a) "clear_all_memory") eqn:Eca.
  { apply String.eqb_eq in Eca.
    destruct (truthy (needs_confirmation a)); [constructor|].
    cbn. apply effect_clear_all. exact Eca. }
  destruct (String.eqb (action a) "set_reminder") eqn:Esr.
  { apply String.eqb_eq in Esr. rewrite Esr. apply set_reminder_effect. }
  destruct (String.eqb (action a) "remember_fact") eqn:Erf.
  { apply String.eqb_eq in Erf. rewrite Erf. apply remember_fact_effect. }
  destruct (String.eqb (action a) "query_memory");
    [destruct (response a); constructor|].
  destruct (String.eqb (action a) "general_query");
    [destruct (response a); constructor|].
  constructor.
Qed.

Lemma confirm_pending_effect (now : datetime) (p : ActionData) (st : State) :
  effect now false (action p) (long_term (memory st))
    (long_term (memory (close_confirmation (confirm_pending now p st)))).
Proof.
  unfold confirm_pending.
  destruct (String.eqb (action p) "clear_reminders") eqn:Ecr.
  { apply String.eqb_eq in Ecr. rewrite Ecr.
    pose proof (clear_reminders_effect now false (memory st)) as H.
    destruct (clear_reminders now (memory st)) as [m resp]. exact H. }
  destruct (String.eqb (action p) "clear_all_memory") eqn:Eca.
  { apply String.eqb_eq in Eca. cbn. apply effect_clear_all. exact Eca. }
  destruct (String.eqb (action p) "set_reminder") eqn:Esr; [|constructor].
  apply String.eqb_eq in Esr.
  destruct (data p) as [rd|]; [|constructor].
  destruct (d_type rd) as [ty|]; [|constructor].
  destruct (d_message rd) as [msg|]; [|constructor].
  destruct (d_suggested_time rd) as [time|]; [|constructor].
  destruct (String.eqb ty "event"); cbn.
  - apply (effect_event now false _ _ (new_event now msg time)); [exact Esr|].
    discriminate.
  - apply (effect_reminder now false _ _ (new_reminder now msg time)); [exact Esr|].
    discriminate.
Qed.

(** The long-term memory after [close_action]: that of the block, swept
    or not. *)
Lemma close_action_long_term (now : datetime) (fl : Flow) :
  long_term (memory (close_action now fl)) = long_term (memory (flow_state fl))
  \/ long_term (memory (close_action now fl))
     = long_term (clean_memory now (memory (flow_state fl))).
Proof. destruct fl; cbn; auto. Qed.

(** How one dispatch changes the long-term memory: the conversation record
    is appended, one effect of the incoming action (checked) or of the
    pending action (unchecked, on a "yes") is applied, and the result is
    swept or not. *)
Lemma handle_action_effect (now : datetime) (a : ActionData) (text : string)
    (st : State) :
  exists m2 : Memory,
    (effect now true (action a)
       (long_term (memory (record_utterance now a text st))) (long_term m2)
     \/ exists p, pending_action st = Some p /\ affirmative text = true
                  /\ effect now false (action p)
                       (long_term (memory (record_utterance now a text st)))
                       (long_term m2))
    /\ (long_term (memory (handle_action now a text st)) = long_term m2
        \/ long_term (memory (handle_action now a text st))
           = long_term (clean_memory now m2)).
Proof.
  unfold handle_action.
  assert (Hp : pending_action (record_utterance now a text st) = pending_action st)
    by (destruct st; reflexivity).
  set (st1 := record_utterance now a text st) in *.
  assert (Hnew : exists m2 : Memory,
             (effect now true (action a) (long_term (memory st1)) (long_term m2)
              \/ exists p, pending_action st = Some p /\ affirmative text = true
                           /\ effect now false (action p) (long_term (memory st1))
                                (long_term m2))
             /\ (long_term (memory (close_action now (handle_new_action now a st1)))
                 = long_term m2
                 \/ long_term (memory (close_action now (handle_new_action now a st1)))
                    = long_term (clean_memory now m2))).
  { exists (memory (flow_state (handle_new_action now a st1))).
    split; [left; apply handle_new_action_effect | apply close_action_long_term]. }
  destruct (get_memory_summary now (memory st1)).
  2: { exists (memory st1). split; [left; constructor | left; reflexivity]. }
  destruct (pending_action st1) as [p|] eqn:Hq; [|exact Hnew].
  destruct (affirmative text) eqn:Hyes; [|exact Hnew].
  exists (memory (close_confirmation (confirm_pending now p st1))).
  split; [|left; reflexivity].
  right. exists p. split; [congruence|]. split; [reflexivity|].
  apply confirm_pending_effect.
Qed.

Lemma sublist_map {A B} (f : A -> B) (l k : list A) :
  sublist l k -> sublist (map f l) (map f k).
Proof. induction 1; cbn [map]; constructor; assumption. Qed.

Lemma NoDup_snoc {A} (l : list A) (x : A) :
  NoDup l -> ~ In x l -> NoDup (l ++ [x]).
Proof.
  intros Hl Hx. apply NoDup_app. split; [exact Hl|]. split.
  - intros y Hy Hin. apply list_elem_of_singleton in Hin. subst y.
    apply Hx, list_elem_of_In, Hy.
  - apply NoDup_singleton.
Qed.

Lemma NoDup_map_snoc {A B} (f : A -> B) (l : list A) (x : A) :
  NoDup (map f l) -> ~ In (f x) (map f l) -> NoDup (map f (l ++ [x])).
Proof. intros. rewrite map_app. cbn [map]. apply NoDup_snoc; assumption. Qed.

Lemma complete_keeps_keys (now : datetime) (rs : list Reminder) :
  map reminder_key (map (fun r => if active r then complete now r else r) rs)
  = map reminder_key rs.
Proof.
  rewrite map_map. apply map_ext. intros r. destruct (active r); reflexivity.
Qed.

Lemma effect_no_duplicates (now : datetime) (checked : bool) (name : string)
    (lt lt' : LongTerm) :
  effect now checked name lt lt' ->
  checked = true \/ name <> "set_reminder" ->
  no_duplicates lt -> no_duplicates lt'.
Proof.
  intros He Hc (Hr & Hev & Hf).
  destruct He as [| |? |e Hn Hk|r Hn Hk|f Hn Hchk Hk]; unfold no_duplicates; cbn.
  - auto.
  - rewrite complete_keeps_keys. auto.
  - repeat split; constructor.
  - destruct Hc as [Hc|Hc]; [|contradiction].
    repeat split; try assumption. apply NoDup_map_snoc; auto.
  - destruct Hc as [Hc|Hc]; [|contradiction].
    repeat split; try assumption. apply NoDup_map_snoc; auto.
  - repeat split; try assumption. apply NoDup_map_snoc; auto.
Qed.

Lemma effect_facts_distinct (now : datetime) (checked : bool) (name : string)
    (lt lt' : LongTerm) :
  effect now checked name lt lt' ->
  NoDup (map fact_key (facts lt)) -> NoDup (map fact_key (facts lt')).
Proof.
  intros He Hf.
  destruct He as [| |? |e Hn Hk|r Hn Hk|f Hn Hchk Hk]; cbn; try assumption.
  - constructor.
  - apply NoDup_map_snoc; assumption.
Qed.

Lemma effect_preferences (now : datetime) (checked : bool) (name : string)
    (lt lt' : LongTerm) :
  effect now checked name lt lt' ->
  name <> "clear_all_memory" ->
  preferences lt' = preferences lt.
Proof. intros He Hn. destruct He; try reflexivity. contradiction. Qed.

Lemma clean_memory_no_duplicates (now : datetime) (m : Memory) :
  no_duplicates (long_term m) -> no_duplicates (long_term (clean_memory now m)).
Proof.
  intros (Hr & He & Hf).
  destruct (clean_memory_sublists now m) as (_ & Sr & Se & Sf & _).
  split; [|split].
  - exact (sublist_NoDup _ _ Hr (sublist_map reminder_key _ _ Sr)).
  - exact (sublist_NoDup _ _ He (sublist_map event_key _ _ Se)).
  - exact (sublist_NoDup _ _ Hf (sublist_map fact_key _ _ Sf)).
Qed.

(** X10: a dispatch keeps the store free of duplicates (no two reminders
    and no two events with the same message up to case and the same time,
    no two facts with the same content up to case and surrounding blanks)
    as long as it is not the confirmation of a parked [set_reminder]. *)
Theorem dispatch_keeps_no_duplicates (now : datetime) (a : ActionData)
    (text : string) (st : State)
    (Hst : no_duplicates (long_term (memory st)))
    (Hpath : forall p, pending_action st = Some p -> affirmative text = true ->
                       action p <> "set_reminder") :
  no_duplicates (long_term (memory (handle_action now a text st))).
Proof.
  destruct (handle_action_effect now a text st) as (m2 & He & Hres).
  assert (H1 : no_duplicates (long_term (memory (record_utterance now a text st))))
    by (rewrite record_utterance_long_term; exact Hst).
  assert (H2 : no_duplicates (long_term m2)).
  { destruct He as [He | (p & Hp & Hyes & He)].
    - eapply effect_no_duplicates; [exact He | left; reflexivity | exact H1].
    - eapply effect_no_duplicates; [exact He | right; exact (Hpath p Hp Hyes) | exact H1]. }
  destruct Hres as [-> | ->]; [exact H2 | apply clean_memory_no_duplicates, H2].
Qed.

(** X11: whatever is dispatched, facts that were pairwise different (up to
    case and surrounding blanks) stay so: no path stores a fact without
    comparing it with the stored ones. *)
Theorem dispatch_keeps_facts_distinct (now : datetime) (a : ActionData)
    (text : string) (st : State)
    (Hst : NoDup (map fact_key (facts (long_term (memory st))))) :
  NoDup (map fact_key (facts (long_term (memory (handle_action now a text st))))).
Proof.
  destruct (handle_action_effect now a text st) as (m2 & He & Hres).
  assert (H1 : NoDup (map fact_key
                        (facts (long_term (memory (record_utterance now a text st))))))
    by (rewrite record_utterance_long_term; exact Hst).
  assert (H2 : NoDup (map fact_key (facts (long_term m2)))).
  { destruct He as [He | (p & _ & _ & He)];
      eapply effect_facts_distinct; eassumption. }
  destruct Hres as [-> | ->]; [exact H2|].
  destruct (clean_memory_sublists now m2) as (_ & _ & _ & Sf & _).
  eapply sublist_NoDup; [exact H2 | apply sublist_map, Sf].
Qed.

(** X12: the preferences are changed by nothing but [clear_all_memory]: a
    dispatch whose incoming and pending actions are both something else
    leaves them as they were. *)
Theorem dispatch_keeps_preferences (now : datetime) (a : ActionData)
    (text : string) (st : State)
    (Hnew : action a <> "clear_all_memory")
    (Hheld : forall p, pending_action st = Some p -> action p <> "clear_all_memory") :
  preferences (long_term (memory (handle_action now a text st)))
  = preferences (long_term (memory st)).
Proof.
  destruct (handle_action_effect now a text st) as (m2 & He & Hres).
  assert (H2 : preferences (long_term m2) = preferences (long_term (memory st))).
  { rewrite record_utterance_long_term in He.
    destruct He as [He | (p & Hp & _ & He)].
    - exact (effect_preferences _ _ _ _ _ He Hnew).
    - exact (effect_preferences _ _ _ _ _ He (Hheld p Hp)). }
  destruct Hres as [-> | ->]; [exact H2|].
  rewrite (proj1 (clean_memory_sublists now m2)). exact H2.
Qed.

End Effects.

Section Paths.
Context `{DT : DateTime}.

Lemma get_memory_summary_defined (now : datetime) (m : Memory) :
  Forall (fun e => strptime (e_datetime e) <> None) (events (long_term m)) ->
  get_memory_summary now m <> None.
Proof.
  intros He. unfold get_memory_summary.
  assert (Hf : Forall (fun e => is_future now e <> None) (events (long_term m))).
  { eapply Forall_impl; [exact He|]. intros e H. unfold is_future.
    destruct (strptime (e_datetime e)) eqn:E; congruence. }
  destruct (filter_opt_total (is_future now) (events (long_term m)) Hf) as [evs ->].
  discriminate.
Qed.

Lemma record_utterance_summary (now : datetime) (a : ActionData) (text : string)
    (st : State) :
  Forall (fun e => strptime (e_datetime e) <> None) (events (long_term (memory st))) ->
  get_memory_summary now (memory (record_utterance now a text st)) <> None.
Proof.
  intros He. apply get_memory_summary_defined.
  rewrite record_utterance_long_term. exact He.
Qed.

Lemma handle_action_new_path (now : datetime) (a : ActionData) (text : string)
    (st : State) :
  pending_action st = None \/ affirmative text = false ->
  get_memory_summary now (memory (record_utterance now a text st)) <> None ->
  handle_action now a text st
  = close_action now (handle_new_action now a (record_utterance now a text st)).
Proof.
  intros Hpath Hsum. unfold handle_action.
  assert (Hp : pending_action (record_utterance now a text st) = pending_action st)
    by (destruct st; reflexivity).
  destruct (get_memory_summary now _); [|congruence].
  rewrite Hp. destruct (pending_action st); [|reflexivity].
  destruct Hpath as [Hpath | ->]; [discriminate | reflexivity].
Qed.

Lemma record_utterance_log (now : datetime) (a : ActionData) (text : string)
    (st : State) :
  log (record_utterance now a text st) = log st
  /\ pending_action (record_utterance now a text st) = pending_action st.
Proof. destruct st. split; reflexivity. Qed.

Lemma in_keys_same_reminder (msg time : string) (rs : list Reminder) :
  In (lower msg, time) (map reminder_key rs) ->
  existsb (same_reminder msg time) rs = true.
Proof.
  intros Hin. apply in_map_iff in Hin as (r & Hk & Hr).
  apply existsb_exists. exists r. split; [exact Hr|].
  unfold same_reminder. injection Hk as -> ->. rewrite !String.eqb_refl. reflexivity.
Qed.

Lemma in_keys_same_event (msg time : string) (es : list Event) :
  In (lower msg, time) (map event_key es) ->
  existsb (same_event msg time) es = true.
Proof.
  intros Hin. apply in_map_iff in Hin as (e & Hk & He).
  apply existsb_exists. exists e. split; [exact He|].
  unfold same_event. injection Hk as -> ->. rewrite !String.eqb_refl. reflexivity.
Qed.

(** X13: on the new-action path, a [set_reminder] whose time has not passed
    and that asks for no confirmation is refused when the store already
    holds an entry of its kind with the same message (up to case) and the
    same time: the assistant asks whether to update it, nothing but the
    conversation record is stored, and no sweep runs. *)
Theorem duplicate_reminder_is_refused (now : datetime) (a : ActionData)
    (text : string) (st : State) (rd : Payload) (msg time ty : string)
    (due : datetime)
    (Hpath : pending_action st = None \/ affirmative text = false)
    (Hevents : Forall (fun e => strptime (e_datetime e) <> None)
                 (events (long_term (memory st))))
    (Haction : action a = "set_reminder")
    (Hdata : data a = Some rd)
    (Hmsg : d_message rd = Some msg)
    (Htime : d_suggested_time rd = Some time)
    (Hparse : strptime time = Some due)
    (Hfuture : now <= due)
    (Hflag : truthy (d_needs_confirmation rd) = false)
    (Hty : d_type rd = Some ty)
    (Hdup : if String.eqb ty "event"
            then In (lower msg, time) (map event_key (events (long_term (memory st))))
            else In (lower msg, time)
                   (map reminder_key (reminders (long_term (memory st))))) :
  long_term (memory (handle_action now a text st))
  = set_conversations
      (conversations (long_term (memory st))
       ++ [{| c_text := text; c_action := action a; c_timestamp := strftime now |}])%list
      (long_term (memory st))
  /\ log (handle_action now a text st)
     = (log st ++
        [Speak (if String.eqb ty "event"
                then "I notice you already have this event scheduled. Would you like me to update it instead?"
                else "I notice you already have this reminder set. Would you like me to update it instead?")])%list
  /\ pending_action (handle_action now a text st) = pending_action st.
Proof.
  rewrite (handle_action_new_path now a text st Hpath
             (record_utterance_summary now a text st Hevents)).
  destruct (record_utterance_log now a text st) as [Hlog Hpend].
  pose proof (record_utterance_long_term now a text st) as Hlt.
  remember (record_utterance now a text st) as st1 eqn:Est1. clear Est1.
  assert (Hnotpast : (due <? now)%Z = false) by (apply Z.ltb_ge; exact Hfuture).
  unfold handle_new_action. rewrite Haction in *. cbn.
  unfold set_reminder. rewrite Hdata, Hmsg, Htime, Hparse, Hnotpast, Hflag, Hty.
  destruct (String.eqb ty "event").
  - rewrite in_keys_same_event by (rewrite Hlt; exact Hdup). cbn.
    rewrite Hlt, Hlog, Hpend. repeat split; reflexivity.
  - rewrite in_keys_same_reminder by (rewrite Hlt; exact Hdup). cbn.
    rewrite Hlt, Hlog, Hpend. repeat split; reflexivity.
Qed.

(** X14: on the new-action path, a [remember_fact] whose content is already
    stored (up to case and surrounding blanks) is answered with the
    "I already know" sentence; nothing but the conversation record is
    stored. *)
Theorem known_fact_is_refused (now : datetime) (a : ActionData) (text : string)
    (st : State) (c cat : string)
    (Hpath : pending_action st = None \/ affirmative text = false)
    (Hevents : Forall (fun e => strptime (e_datetime e) <> None)
                 (events (long_term (memory st))))
    (Haction : action a = "remember_fact")
    (Hcontent : content a = Some c)
    (Hcategory : category a = Some cat)
    (Hknown : In (strip (lower c)) (map fact_key (facts (long_term (memory st))))) :
  long_term (memory (handle_action now a text st))
  = set_conversations
      (conversations (long_term (memory st))
       ++ [{| c_text := text; c_action := action a; c_timestamp := strftime now |}])%list
      (long_term (memory st))
  /\ log (handle_action now a text st)
     = (log st ++
        [Speak ("I already know that " +:+ c
                +:+ ". Would you like me to update it with any new information?")])%list
  /\ pending_action (handle_action now a text st) = pending_action st.
Proof.
  rewrite (handle_action_new_path now a text st Hpath
             (record_utterance_summary now a text st Hevents)).
  destruct (record_utterance_log now a text st) as [Hlog Hpend].
  pose proof (record_utterance_long_term now a text st) as Hlt.
  remember (record_utterance now a text st) as st1 eqn:Est1. clear Est1.
  unfold handle_new_action. rewrite Haction in *. cbn.
  unfold remember_fact. rewrite Hcontent, Hcategory.
  assert (E : existsb (same_fact (strip (lower c))) (facts (long_term (memory st1)))
              = true).
  { rewrite Hlt. cbn. apply in_map_iff in Hknown as (f & Hk & Hf).
    apply existsb_exists. exists f. split; [exact Hf|].
    unfold same_fact. apply String.eqb_eq. exact Hk. }
  rewrite E. cbn. rewrite Hlt, Hlog, Hpend. repeat split; reflexivity.
Qed.

Lemma filter_active_snoc (rs : list Reminder) (r : Reminder) :
  active r = true ->
  List.filter active (rs ++ [r]) = (List.filter active rs ++ [r])%list.
Proof. intros Ha. rewrite List.filter_app. cbn. rewrite Ha. reflexivity. Qed.

Lemma new_reminder_stored (now : datetime) (a : ActionData) (text : string)
    (st : State) (rd : Payload) (msg time ty : string) (due : datetime) :
  pending_action st = None \/ affirmative text = false ->
  Forall (fun e => strptime (e_datetime e) <> None) (events (long_term (memory st))) ->
  action a = "set_reminder" ->
  data a = Some rd ->
  d_message rd = Some msg ->
  d_suggested_time rd = Some time ->
  strptime time = Some due ->
  now <= due ->
  truthy (d_needs_confirmation rd) = false ->
  d_type rd = Some ty ->
  String.eqb ty "event" = false ->
  ~ In (lower msg, time) (map reminder_key (reminders (long_term (memory st)))) ->
  List.filter active (reminders (long_term (memory (handle_action now a text st))))
  = (List.filter active (reminders (long_term (memory st)))
     ++ [new_reminder now msg time])%list
  /\ sublist (reminders (long_term (memory (handle_action now a text st))))
       (reminders (long_term (memory st)) ++ [new_reminder now msg time])%list
  /\ log (handle_action now a text st)
     = (log st ++
        [Speak ("I've set a reminder for " +:+ msg +:+ " at " +:+ format_datetime time);
         Notification "Memory Updated"
           ("Added " +:+ ty +:+ ": " +:+ take_str 50 msg +:+ "...") 5])%list
  /\ pending_action (handle_action now a text st) = pending_action st.
Proof.
  intros Hpath Hevents Haction Hdata Hmsg Htime Hparse Hfuture Hflag Hty Hkind Hnew.
  rewrite (handle_action_new_path now a text st Hpath
             (record_utterance_summary now a text st Hevents)).
  destruct (record_utterance_log now a text st) as [Hlog Hpend].
  pose proof (record_utterance_long_term now a text st) as Hlt.
  remember (record_utterance now a text st) as st1 eqn:Est1. clear Est1.
  assert (Hnotpast : (due <? now)%Z = false) by (apply Z.ltb_ge; exact Hfuture).
  assert (Hrs : reminders (long_term (memory st1)) = reminders (long_term (memory st)))
    by (rewrite Hlt; reflexivity).
  unfold handle_new_action. rewrite Haction in *. cbn.
  unfold set_reminder. rewrite Hdata, Hmsg, Htime, Hparse, Hnotpast, Hflag, Hty, Hkind.
  assert (E : existsb (same_reminder msg time) (reminders (long_term (memory st1)))
              = false).
  { rewrite Hrs. destruct (existsb _ _) eqn:E; [|reflexivity].
    exfalso. apply Hnew. apply existsb_exists in E as (r & Hr & Hsame).
    apply in_map_iff. exists r. split; [|exact Hr].
    unfold same_reminder in Hsame. apply andb_true_iff in Hsame as [H1 H2].
    apply String.eqb_eq in H1, H2. unfold reminder_key. congruence. }
  rewrite E. cbn. rewrite clean_memory_active. cbn.
  rewrite Hrs, Hlog, Hpend, <- app_assoc.
  split; [apply filter_active_snoc; reflexivity|].
  split; [|split; reflexivity].
  match goal with |- sublist (reminders (long_term (clean_memory now ?m))) _ =>
    destruct (clean_memory_sublists now m) as (_ & Sr & _) end.
  cbn in Sr. rewrite Hrs in Sr. exact Sr.
Qed.

(** X15: on the new-action path, a [set_reminder] of type reminder whose
    time has not passed, that asks for no confirmation and has no stored
    duplicate adds exactly one active reminder with that message and time:
    the active reminders afterwards are those of before followed by the
    new one, and the assistant announces it. *)
Theorem new_reminder_is_stored (now : datetime) (a : ActionData) (text : string)
    (st : State) (rd : Payload) (msg time ty : string) (due : datetime)
    (Hpath : pending_action st = None \/ affirmative text = false)
    (Hevents : Forall (fun e => strptime (e_datetime e) <> None)
                 (events (long_term (memory st))))
    (Haction : action a = "set_reminder")
    (Hdata : data a = Some rd)
    (Hmsg : d_message rd = Some msg)
    (Htime : d_suggested_time rd = Some time)
    (Hparse : strptime time = Some due)
    (Hfuture : now <= due)
    (Hflag : truthy (d_needs_confirmation rd) = false)
    (Hty : d_type rd = Some ty)
    (Hkind : String.eqb ty "event" = false)
    (Hnew : ~ In (lower msg, time)
              (map reminder_key (reminders (long_term (memory st))))) :
  List.filter active (reminders (long_term (memory (handle_action now a text st))))
  = (List.filter active (reminders (long_term (memory st)))
     ++ [new_reminder now msg time])%list
  /\ log (handle_action now a text st)
     = (log st ++
        [Speak ("I've set a reminder for " +:+ msg +:+ " at " +:+ format_datetime time);
         Notification "Memory Updated"
           ("Added " +:+ ty +:+ ": " +:+ take_str 50 msg +:+ "...") 5])%list
  /\ pending_action (handle_action now a text st) = pending_action st.
Proof.
  destruct (new_reminder_stored now a text st rd msg time ty due)
    as (H1 & _ & H2 & H3); try assumption.
  repeat split; assumption.
Qed.

(** X16: the life of a reminder.  A reminder stored as in X15 and whose
    due time lies before the time of a later scheduler tick is, after that
    tick, in the store as completed, with [completed_at] the time of the
    tick (the due times of the active reminders of the store being
    parsable). *)
Theorem stored_reminder_is_completed_by_tick (now now' : datetime)
    (a : ActionData) (text : string)
    (st : State) (rd : Payload) (msg time ty : string) (due : datetime)
    (Hpath : pending_action st = None \/ affirmative text = false)
    (Hevents : Forall (fun e => strptime (e_datetime e) <> None)
                 (events (long_term (memory st))))
    (Hdue : due_times_parse (reminders (long_term (memory st))))
    (Haction : action a = "set_reminder")
    (Hdata : data a = Some rd)
    (Hmsg : d_message rd = Some msg)
    (Htime : d_suggested_time rd = Some time)
    (Hparse : strptime time = Some due)
    (Hfuture : now <= due)
    (Hlater : due < now')
    (Hflag : truthy (d_needs_confirmation rd) = false)
    (Hty : d_type rd = Some ty)
    (Hkind : String.eqb ty "event" = false)
    (Hnew : ~ In (lower msg, time)
              (map reminder_key (reminders (long_term (memory st))))) :
  In {| r_message := msg; r_datetime := time; r_created_at := strftime now;
        r_status := "completed"; r_completed_at := Some (strftime now') |}
    (reminders (long_term (memory
       (check_reminders_tick now' (handle_action now a text st))))).
Proof.
  destruct (new_reminder_stored now a text st rd msg time ty due)
    as (Hact & Hsub & _ & _); try assumption.
  set (st1 := handle_action now a text st) in *.
  assert (Hdue1 : due_times_parse (reminders (long_term (memory st1)))).
  { eapply sublist_keeps_Forall; [exact Hsub|].
    apply Forall_app. split; [exact Hdue|].
    repeat constructor. cbn. intros _. congruence. }
  assert (Hin : In (new_reminder now msg time) (reminders (long_term (memory st1)))).
  { assert (H : In (new_reminder now msg time)
                  (List.filter active (reminders (long_term (memory st1))))).
    { rewrite Hact. apply in_or_app. right. left. reflexivity. }
    apply filter_In in H. apply H. }
  unfold check_reminders_tick.
  rewrite (scan_reminders_spec now' _ Hdue1).
  match goal with |- context [fold_left notify_upcoming ?l ?s0] =>
    destruct (notify_upcoming_log l s0) as [_ Hm] end.
  rewrite Hm. cbn.
  apply in_map_iff. exists (new_reminder now msg time). split; [|exact Hin].
  unfold overdue. cbn. rewrite Hparse.
  assert (E : (due <? now')%Z = true) by (apply Z.ltb_lt; exact Hlater).
  rewrite E. reflexivity.
Qed.

Lemma handle_action_confirm_path (now : datetime) (a : ActionData) (text : string)
    (p : ActionData) (st : State) :
  pending_action st = Some p ->
  affirmative text = true ->
  get_memory_summary now (memory (record_utterance now a text st)) <> None ->
  handle_action now a text st
  = close_confirmation (confirm_pending now p (record_utterance now a text st)).
Proof.
  intros Hheld Hyes Hsum. unfold handle_action.
  assert (Hp : pending_action (record_utterance now a text st) = pending_action st)
    by (destruct st; reflexivity).
  destruct (get_memory_summary now _); [|congruence].
  rewrite Hp, Hheld, Hyes. reflexivity.
Qed.

(** X17: a [set_reminder] whose time has already passed is not stored but
    parked behind the question about "tomorrow"; when the next utterance
    contains "yes", the reminder is appended with the time it was
    submitted with, unchanged and without a look at the stored ones. *)
Theorem past_reminder_is_parked_then_stored_as_is (now now' : datetime)
    (a a' : ActionData) (text text' : string)
    (st : State) (rd : Payload) (msg time ty : string) (due : datetime)
    (Hidle : pending_action st = None)
    (Hevents : Forall (fun e => strptime (e_datetime e) <> None)
                 (events (long_term (memory st))))
    (Haction : action a = "set_reminder")
    (Hdata : data a = Some rd)
    (Hmsg : d_message rd = Some msg)
    (Htime : d_suggested_time rd = Some time)
    (Hparse : strptime time = Some due)
    (Hpast : due < now)
    (Hty : d_type rd = Some ty)
    (Hkind : String.eqb ty "event" = false)
    (Hyes : affirmative text' = true) :
  let prompt := "I notice this time has already passed. Would you like me to set this for tomorrow instead?" in
  let parked_state := handle_action now a text st in
  let final := handle_action now' a' text' parked_state in
  reminders (long_term (memory parked_state)) = reminders (long_term (memory st))
  /\ pending_action parked_state = Some (pending_reminder rd prompt)
  /\ log parked_state = (log st ++ [Speak prompt])%list
  /\ reminders (long_term (memory final))
     = (reminders (long_term (memory st)) ++ [new_reminder now' msg time])%list
  /\ pending_action final = None.
Proof.
  intros prompt parked_state final.
  assert (E1 : parked_state
               = set_pending (Some (pending_reminder rd prompt))
                   (speak prompt (record_utterance now a text st))).
  { subst parked_state.
    rewrite (handle_action_new_path now a text st (or_introl Hidle)
               (record_utterance_summary now a text st Hevents)).
    unfold handle_new_action. rewrite Haction. cbn.
    unfold set_reminder. rewrite Hdata, Hmsg, Htime, Hparse.
    assert (E : (due <? now)%Z = true) by (apply Z.ltb_lt; exact Hpast).
    rewrite E. reflexivity. }
  destruct (record_utterance_log now a text st) as [Hlog _].
  pose proof (record_utterance_long_term now a text st) as Hlt.
  assert (Hlt1 : long_term (memory parked_state)
                 = set_conversations
                     (conversations (long_term (memory st))
                      ++ [{| c_text := text; c_action := action a;
                             c_timestamp := strftime now |}])%list
                     (long_term (memory st)))
    by (rewrite E1; exact Hlt).
  assert (Hp1 : pending_action parked_state = Some (pending_reminder rd prompt))
    by (rewrite E1; reflexivity).
  assert (Hl1 : log parked_state = (log st ++ [Speak prompt])%list)
    by (rewrite E1; cbn [log set_pending speak]; rewrite Hlog; reflexivity).
  split; [rewrite Hlt1; reflexivity|]. split; [exact Hp1|]. split; [exact Hl1|].
  assert (Hev1 : Forall (fun e => strptime (e_datetime e) <> None)
                   (events (long_term (memory parked_state))))
    by (rewrite Hlt1; exact Hevents).
  subst final.
  rewrite (handle_action_confirm_path now' a' text' _ parked_state Hp1 Hyes
             (record_utterance_summary now' a' text' parked_state Hev1)).
  pose proof (record_utterance_long_term now' a' text' parked_state) as Hlt2.
  remember (record_utterance now' a' text' parked_state) as st2 eqn:Est2. clear Est2.
  unfold confirm_pending. cbn. rewrite Hty, Hmsg, Htime, Hkind. cbn.
  rewrite Hlt2. cbn. rewrite Hlt1. split; reflexivity.
Qed.

End Paths.

Section Confirmation.
Context `{DT : DateTime}.




End Confirmation.

Section Views.
Context `{DT : DateTime}.

Lemma join_starts_with (c : ascii) (sep : string) (l : list string) :
  l <> [] ->
  Forall (fun x => exists rest, x = String c rest) l ->
  exists rest, join sep l = String c rest.
Proof.
  intros Hne Hl. destruct l as [|x l]; [contradiction|].
  inversion Hl as [|? ? [rest ->] _]; subst.
  destruct l as [|y l]; cbn [join]; [eexists; reflexivity|].
  rewrite append_String. eexists; reflexivity.
Qed.

Lemma length_last_n {A} (n : nat) (l : list A) :
  List.length (last_n n l) = Nat.min n (List.length l).
Proof. unfold last_n. rewrite length_skipn. lia. Qed.

(** X18: when the times of the events parse, the memory summary is
    "No active memories" exactly when there is no active reminder, no fact
    at all and no event later than [now]. *)
Theorem summary_says_nothing_iff (now : datetime) (m : Memory)
    (Hevents : Forall (fun e => strptime (e_datetime e) <> None)
                 (events (long_term m))) :
  get_memory_summary now m = Some "No active memories"
  <-> List.filter active (reminders (long_term m)) = []
      /\ facts (long_term m) = []
      /\ Forall (fun e => forall t, strptime (e_datetime e) = Some t -> t <= now)
           (events (long_term m)).
Proof.
  unfold get_memory_summary.
  assert (Hf : Forall (fun e => is_future now e <> None) (events (long_term m))).
  { eapply Forall_impl; [exact Hevents|]. intros e H. unfold is_future.
    destruct (strptime (e_datetime e)) eqn:E; congruence. }
  destruct (filter_opt_total (is_future now) (events (long_term m)) Hf) as [evs Hevs].
  rewrite Hevs.
  assert (Hnone : evs = [] <->
            Forall (fun e => forall t, strptime (e_datetime e) = Some t -> t <= now)
              (events (long_term m))).
  { split.
    - intros ->. apply List.Forall_forall. intros e He t Ht.
      destruct (Z.le_gt_cases t now) as [Hle|Hgt]; [exact Hle|].
      exfalso. apply (in_nil (a := e)).
      apply (filter_opt_In _ _ _ e Hevs). split; [exact He|].
      unfold is_future. rewrite Ht. f_equal. apply Z.ltb_lt. lia.
    - intros Hall. destruct evs as [|e evs']; [reflexivity|]. exfalso.
      assert (Hin : In e (e :: evs')) by (left; reflexivity).
      apply (filter_opt_In _ _ _ e Hevs) in Hin as [He Hfut].
      rewrite List.Forall_forall in Hall. specialize (Hall e He).
      unfold is_future in Hfut. destruct (strptime (e_datetime e)) as [t|]; [|discriminate].
      specialize (Hall t eq_refl). injection Hfut as Hfut.
      apply Z.ltb_lt in Hfut. lia. }
  rewrite <- Hnone.
  set (n_active := List.length (List.filter active (reminders (long_term m)))).
  set (n_facts := List.length (last_n 3 (facts (long_term m)))).
  set (n_events := List.length evs).
  assert (Ha : n_active = 0%nat <-> List.filter active (reminders (long_term m)) = [])
    by apply length_zero_iff_nil.
  assert (Hfa : n_facts = 0%nat <-> facts (long_term m) = []).
  { unfold n_facts. rewrite length_last_n, <- length_zero_iff_nil. lia. }
  assert (He : n_events = 0%nat <-> evs = []) by apply length_zero_iff_nil.
  rewrite <- Ha, <- Hfa, <- He.
  set (s1 := if Nat.ltb 0 n_active then _ else _).
  set (s2 := if Nat.ltb 0 n_facts then _ else _).
  set (s3 := if Nat.ltb 0 n_events then _ else _).
  assert (Hall : Forall (fun x => exists rest, x = String "Y" rest) (s1 ++ s2 ++ s3)%list).
  { apply Forall_app. split; [|apply Forall_app; split].
    - subst s1. destruct (Nat.ltb 0 n_active); repeat constructor.
      eexists. reflexivity.
    - subst s2. destruct (Nat.ltb 0 n_facts); repeat constructor.
      eexists. reflexivity.
    - subst s3. destruct (Nat.ltb 0 n_events); repeat constructor.
      eexists. reflexivity. }
  split.
  - destruct (s1 ++ s2 ++ s3)%list as [|x l] eqn:E; intros H.
    + apply app_eq_nil in E as [E1 E23]. apply app_eq_nil in E23 as [E2 E3].
      subst s1 s2 s3.
      destruct n_active; [|discriminate E1].
      destruct n_facts; [|discriminate E2].
      destruct n_events; [|discriminate E3].
      repeat split; reflexivity.
    + exfalso. destruct (join_starts_with "Y" " and " (x :: l)) as [rest Hrest];
        [discriminate | exact Hall |].
      rewrite Hrest in H. discriminate H.
  - intros (E1 & E2 & E3). subst s1 s2 s3. rewrite E1, E2, E3. reflexivity.
Qed.

(** X19: the assistant takes the initiative exactly when it has not been
    spoken to yet or at least 300 seconds have gone by since the last
    utterance; the separate test against 1800 seconds adds nothing. *)
Theorem should_initiate_turn_iff (now : datetime) (last : option datetime) :
  should_initiate_turn now last = true
  <-> last = None \/ exists t, last = Some t /\ 300 * usec_per_sec <= now - t.
Proof.
  unfold should_initiate_turn, seconds, IMPORTANT_UPDATE_THRESHOLD, TURN_TIMEOUT,
    usec_per_sec.
  destruct last as [t|]; [|split; [left; reflexivity | reflexivity]].
  destruct (1800 * 1000000 <=? now - t)%Z eqn:E1.
  - apply Z.leb_le in E1. split; [|reflexivity].
    intros _. right. exists t. split; [reflexivity | lia].
  - destruct (300 * 1000000 <=? now - t)%Z eqn:E2.
    + apply Z.leb_le in E2. split; [|reflexivity].
      intros _. right. exists t. split; [reflexivity | exact E2].
    + apply Z.leb_gt in E2. split; [discriminate|].
      intros [H | (t' & [= <-] & H)]; [discriminate | lia].
Qed.

(** X20: when the times of the conversations and of the events parse, the
    recomputed view holds at most 50 recent conversations and at most 10
    relevant facts, each of its lists is a sublist of the long-term list
    it is drawn from, the active reminders are all the active ones of the
    store (the objects themselves, as they are), and [active_context] is
    left as it was. *)
Theorem update_contextual_memory_bounds (now : datetime) (m : Memory)
    (Hconvs : Forall (fun c => strptime (c_timestamp c) <> None)
                (conversations (long_term m)))
    (Hevents : Forall (fun e => strptime (e_datetime e) <> None)
                 (events (long_term m))) :
  let view := contextual (update_contextual_memory now m) in
  (List.length (recent_conversations view) <= 50)%nat
  /\ (List.length (relevant_facts view) <= 10)%nat
  /\ sublist (recent_conversations view) (conversations (long_term m))
  /\ sublist (upcoming_events view) (events (long_term m))
  /\ sublist (relevant_facts view) (facts (long_term m))
  /\ active_reminders view = active_refs 0 (reminders (long_term m))
  /\ active_view (update_contextual_memory now m)
     = List.filter active (reminders (long_term m))
  /\ active_context view = active_context (contextual m).
Proof.
  intros view. subst view. unfold active_view, update_contextual_memory.
  assert (Hc : Forall (fun c => is_recent now c <> None) (conversations (long_term m))).
  { eapply Forall_impl; [exact Hconvs|]. intros c H. unfold is_recent.
    destruct (strptime (c_timestamp c)) eqn:E; congruence. }
  assert (He : Forall (fun e => is_upcoming now e <> None) (events (long_term m))).
  { eapply Forall_impl; [exact Hevents|]. intros e H. unfold is_upcoming.
    destruct (strptime (e_datetime e)) eqn:E; congruence. }
  destruct (filter_opt_total _ _ Hc) as [convs Hcs]. rewrite Hcs. cbn.
  destruct (filter_opt_total _ _ He) as [evs Hes]. rewrite Hes. cbn.
  split; [|split; [|split; [|split; [|split; [|split; [|split]]]]]]; try reflexivity.
  - rewrite length_last_n. unfold MAX_CONTEXT_CONVERSATIONS. lia.
  - rewrite length_firstn. unfold MAX_ACTIVE_CONTEXT. lia.
  - transitivity convs; [apply sublist_drop | exact (filter_opt_sublist _ _ _ Hcs)].
  - exact (filter_opt_sublist _ _ _ Hes).
  - etransitivity; [apply sublist_take | apply filter_sublist].
  - exact (deref_active_refs [] (reminders (long_term m))).
Qed.

End Views.

Section Answers.
Context `{DT : DateTime}.

Lemma insert_by_datetime_perm (r : Reminder) (l : list Reminder) :
  Permutation (insert_by_datetime r l) (r :: l).
Proof.
  induction l as [|r' l IH]; cbn [insert_by_datetime]; [reflexivity|].
  destruct (String.leb (r_datetime r) (r_datetime r')); [reflexivity|].
  rewrite IH. apply perm_swap.
Qed.

Lemma insert_by_datetime_sorted (r : Reminder) (l : list Reminder) :
  Sorted by_time l -> Sorted by_time (insert_by_datetime r l).
Proof.
  induction 1 as [|r' l Hl IH Hhd]; cbn [insert_by_datetime].
  - repeat constructor.
  - destruct (String.leb (r_datetime r) (r_datetime r')) eqn:E.
    + constructor; [constructor; assumption | constructor; exact E].
    + constructor; [exact IH|].
      assert (Hr : by_time r' r).
      { destruct (String.leb_total (r_datetime r) (r_datetime r')) as [H|H];
          [congruence | exact H]. }
      destruct l as [|r'' l]; cbn [insert_by_datetime]; [constructor; exact Hr|].
      destruct (String.leb (r_datetime r) (r_datetime r'')); constructor;
        [exact Hr | inversion Hhd; assumption].
Qed.

Lemma sort_by_datetime_sorts (l : list Reminder) :
  Sorted by_time (sort_by_datetime l) /\ Permutation (sort_by_datetime l) l.
Proof.
  induction l as [|r l [IHs IHp]]; cbn [sort_by_datetime].
  - split; [constructor | reflexivity].
  - split; [apply insert_by_datetime_sorted, IHs|].
    rewrite insert_by_datetime_perm. constructor. exact IHp.
Qed.

(** X21: a [read_back_reminders] intent on the new-action path stores
    nothing but the conversation record and runs no sweep; what it reads
    back is each active reminder exactly once, in ascending order of the
    time strings, or the sentence that there are none. *)
Theorem read_back_lists_sorted (now : datetime) (a : ActionData) (text : string)
    (st : State)
    (Hpath : pending_action st = None \/ affirmative text = false)
    (Hevents : Forall (fun e => strptime (e_datetime e) <> None)
                 (events (long_term (memory st))))
    (Haction : action a = "read_back_reminders") :
  let listing := sort_by_datetime (List.filter active (reminders (long_term (memory st)))) in
  let answer :=
    match listing with
    | [] => "You don't have any active reminders at the moment."
    | _ => "Here are your active reminders: " +:+
           join "; " (map (fun r => r_message r +:+ " at "
                                    +:+ format_datetime (r_datetime r)) listing)
    end in
  Sorted by_time listing
  /\ Permutation listing (List.filter active (reminders (long_term (memory st))))
  /\ log (handle_action now a text st)
     = (log st ++ [Speak answer; Notification "Active Reminders" answer 10])%list
  /\ long_term (memory (handle_action now a text st))
     = set_conversations
         (conversations (long_term (memory st))
          ++ [{| c_text := text; c_action := action a; c_timestamp := strftime now |}])%list
         (long_term (memory st))
  /\ pending_action (handle_action now a text st) = pending_action st.
Proof.
  intros listing answer.
  destruct (sort_by_datetime_sorts
              (List.filter active (reminders (long_term (memory st))))) as [Hs Hp].
  split; [exact Hs|]. split; [exact Hp|].
  rewrite (handle_action_new_path now a text st Hpath
             (record_utterance_summary now a text st Hevents)).
  destruct (record_utterance_log now a text st) as [Hlog Hpend].
  pose proof (record_utterance_long_term now a text st) as Hlt.
  remember (record_utterance now a text st) as st1 eqn:Est1. clear Est1.
  assert (Hrs : reminders (long_term (memory st1)) = reminders (long_term (memory st)))
    by (rewrite Hlt; reflexivity).
  unfold handle_new_action. rewrite Haction in *. cbn.
  unfold read_back_reminders. cbn. rewrite Hrs, Hlog, Hpend, Hlt.
  assert (Hanswer :
            match List.filter active (reminders (long_term (memory st))) with
            | [] => "You don't have any active reminders at the moment."
            | _ :: _ =>
                "Here are your active reminders: " +:+
                join "; " (map (fun r => r_message r +:+ " at "
                                         +:+ format_datetime (r_datetime r)) listing)
            end = answer).
  { subst answer. fold listing in Hp.
    destruct (List.filter active (reminders (long_term (memory st)))) as [|r l] eqn:E.
    - apply Permutation_nil_r in Hp. rewrite Hp. reflexivity.
    - destruct listing as [|r' l'] eqn:El; [|reflexivity].
      symmetry in Hp. apply Permutation_nil_r in Hp. discriminate Hp. }
  fold listing. rewrite Hanswer, <- app_assoc. repeat split; reflexivity.
Qed.

(** X22: [query_memory] and [general_query] read their answer from the
    top-level key [response] of the intent.  Without that key nothing is
    said and nothing but the conversation record is stored, whatever the
    [data] object holds; with it, the answer is spoken (after
    "Based on my records, " for [query_memory]) and shown unchanged. *)
Theorem query_answer_is_read_from_top_level (now : datetime) (a : ActionData)
    (text : string) (st : State)
    (Hpath : pending_action st = None \/ affirmative text = false)
    (Hevents : Forall (fun e => strptime (e_datetime e) <> None)
                 (events (long_term (memory st))))
    (Haction : action a = "query_memory" \/ action a = "general_query") :
  match response a with
  | None =>
      log (handle_action now a text st) = log st
      /\ long_term (memory (handle_action now a text st))
         = set_conversations
             (conversations (long_term (memory st))
              ++ [{| c_text := text; c_action := action a;
                     c_timestamp := strftime now |}])%list
             (long_term (memory st))
  | Some r =>
      log (handle_action now a text st)
      = (log st ++
         if String.eqb (action a) "query_memory"
         then [Speak ("Based on my records, " +:+ r); Notification "Memory Query" r 10]
         else [Speak r; Notification "Assistant Response" r 10])%list
  end
  /\ pending_action (handle_action now a text st) = pending_action st.
Proof.
  rewrite (handle_action_new_path now a text st Hpath
             (record_utterance_summary now a text st Hevents)).
  destruct (record_utterance_log now a text st) as [Hlog Hpend].
  pose proof (record_utterance_long_term now a text st) as Hlt.
  remember (record_utterance now a text st) as st1 eqn:Est1. clear Est1.
  unfold handle_new_action.
  destruct Haction as [Ha | Ha]; rewrite Ha in *; cbn;
    destruct (response a) as [r|]; cbn; rewrite ?Hlt, ?Hlog, ?Hpend, <- ?app_assoc;
    split; try split; reflexivity.
Qed.

(** X23: [initiate_turn] changes neither the memory nor the pending
    action and says at most one sentence.  When the times of the active
    reminders and of the events parse, it stays silent exactly when no
    active reminder and no event lies within the next hour and
    [should_initiate_turn] says no. *)
Theorem initiate_turn_speaks_once (now : datetime) (last : option datetime)
    (st : State)
    (Hdue : due_times_parse (reminders (long_term (memory st))))
    (Hevents : Forall (fun e => strptime (e_datetime e) <> None)
                 (events (long_term (memory st)))) :
  memory (initiate_turn now last st) = memory st
  /\ pending_action (initiate_turn now last st) = pending_action st
  /\ is_listening (initiate_turn now last st) = is_listening st
  /\ ((log (initiate_turn now last st) = log st
       /\ List.filter (fun r => bool_decide (reminder_within_hour now r = Some true))
            (reminders (long_term (memory st))) = []
       /\ List.filter (fun e => bool_decide (within_hour now (e_datetime e) = Some true))
            (events (long_term (memory st))) = []
       /\ should_initiate_turn now last = false)
      \/ ((exists sentence,
              log (initiate_turn now last st) = (log st ++ [Speak sentence])%list)
          /\ ~ (List.filter
                  (fun r => bool_decide (reminder_within_hour now r = Some true))
                  (reminders (long_term (memory st))) = []
                /\ List.filter
                     (fun e => bool_decide (within_hour now (e_datetime e) = Some true))
                     (events (long_term (memory st))) = []
                /\ should_initiate_turn now last = false))).
Proof.
  unfold initiate_turn.
  assert (Hr : Forall (fun r => reminder_within_hour now r <> None)
                 (reminders (long_term (memory st)))).
  { eapply Forall_impl; [exact Hdue|]. intros r H. unfold reminder_within_hour.
    destruct (active r) eqn:Ha; [|discriminate]. specialize (H Ha).
    unfold within_hour. destruct (strptime (r_datetime r)) eqn:E; congruence. }
  assert (He : Forall (fun e => within_hour now (e_datetime e) <> None)
                 (events (long_term (memory st)))).
  { eapply Forall_impl; [exact Hevents|]. intros e H. unfold within_hour.
    destruct (strptime (e_datetime e)) eqn:E; congruence. }
  destruct (filter_opt_total _ _ Hr) as [upcoming Hup]. rewrite Hup.
  destruct (filter_opt_total _ _ He) as [recent Hrec]. rewrite Hrec.
  rewrite <- (filter_opt_Some _ _ _ Hup), <- (filter_opt_Some _ _ _ Hrec).
  destruct upcoming as [|r upcoming].
  2: { cbn. repeat split. right. split; [eexists; reflexivity|].
       intros (H & _). discriminate H. }
  destruct recent as [|e recent].
  2: { cbn. repeat split. right. split; [eexists; reflexivity|].
       intros (_ & H & _). discriminate H. }
  destruct (should_initiate_turn now last).
  2: { repeat split. left. repeat split; reflexivity. }
  pose proof (get_memory_summary_defined now (memory st) Hevents) as Hsum.
  destruct (get_memory_summary now (memory st)) as [summary|]; [|congruence].
  destruct (String.eqb summary "No active memories"); cbn; repeat split;
    right; (split; [eexists; reflexivity | intros (_ & _ & H); discriminate H]).
Qed.

End Answers.

(** * Further scenarios, evaluated *)



Lemma clean_memory_view_witness :
  active_reminders (contextual undated_fact_memory) = [Shared 1%nat]
  /\ map r_message (reminders (long_term (clean_memory t0 undated_fact_memory)))
     = ["call mom"]
  /\ active_reminders (contextual (clean_memory t0 undated_fact_memory)) = [Shared 0%nat]
  /\ active_view (clean_memory t0 undated_fact_memory) = active_view undated_fact_memory.
Proof.
  destruct (clean_memory_view t0 undated_fact_memory) as [_ [H | H]].
  - rewrite H. vm_compute. repeat split; reflexivity.
  - rewrite H. vm_compute. repeat split; reflexivity.
Defined.

Lemma greeted_reminders : reminders (long_term (memory greeted)) = two_due.
Proof. vm_compute. reflexivity. Qed.

Lemma tick_shows_through_view_witness :
  map (fun r => (r_message r, r_status r))
    (active_view (memory greeted))
  = [("call mom", "active"); ("take pills", "active")]
  /\ map (fun r => (r_message r, r_status r))
       (active_view (memory (check_reminders_tick (t0 + seconds 30) greeted)))
     = [("call mom", "active"); ("take pills", "completed")].
Proof.
  destruct (tick_shows_through_view (t0 + seconds 30) greeted) as [H0 H1].
  - vm_compute. reflexivity.
  - rewrite greeted_reminders. unfold due_times_parse, two_due.
    each_element ltac:(intros _; vm_compute; discriminate).
  - rewrite H0, H1. vm_compute. split; reflexivity.
Defined.

Lemma clear_reminders_shows_through_view_witness :
  map (fun r => (r_message r, r_status r))
    (active_view (clear_reminders (t0 + seconds 30) (memory greeted)).1)
  = [("call mom", "completed"); ("take pills", "completed")].
Proof.
  rewrite (clear_reminders_shows_through_view (t0 + seconds 30) (memory greeted));
    vm_compute; reflexivity.
Defined.

Lemma aged_well_formed : well_formed (idle (memory_of aged_long_term)).
Proof.
  split; [|discriminate].
  unfold times_parse, stamps_parse, idle, memory_of, aged_long_term.
  cbn [memory long_term reminders events facts conversations].
  split; [split; [|split; [|split]]|].
  - each_element ltac:(intros stamp H; cbn in H;
                       first [discriminate H
                             | injection H as <-; vm_compute; discriminate]).
  - each_element ltac:(vm_compute; discriminate).
  - each_element ltac:(vm_compute; discriminate).
  - each_element ltac:(vm_compute; discriminate).
  - each_element ltac:(vm_compute; discriminate).
Qed.

Lemma tick_twice_witness :
  log (check_reminders_tick t0
         (check_reminders_tick t0 (idle (memory_of (set_reminders two_due empty_long_term)))))
  = [Speak "Reminder: call mom";
     Notification "Upcoming Reminder" "Reminder: call mom" 10;
     Speak "Reminder: call mom";
     Notification "Upcoming Reminder" "Reminder: call mom" 10].
Proof.
  destruct (tick_twice t0 (idle (memory_of (set_reminders two_due empty_long_term))))
    as (_ & _ & Hl).
  - unfold due_times_parse, idle, memory_of, two_due.
    cbn [memory long_term reminders set_reminders].
    each_element ltac:(intros _; vm_compute; discriminate).
  - rewrite Hl. vm_compute. reflexivity.
Defined.

Lemma run_well_formed_witness :
  well_formed (run (idle (memory_of aged_long_term)) call_mom_twice).
Proof.
  apply run_well_formed; [exact aged_well_formed|].
  unfold call_mom_twice. each_element ltac:(vm_compute; discriminate).
Defined.

Lemma tick_well_formed_witness :
  well_formed (check_reminders_tick t0 (idle (memory_of aged_long_term))).
Proof.
  apply tick_well_formed; [vm_compute; discriminate | exact aged_well_formed].
Defined.

Lemma call_mom_no_duplicates : no_duplicates (long_term memory_call_mom).
Proof.
  unfold no_duplicates, memory_call_mom, memory_of.
  cbn [long_term reminders events facts set_reminders empty_long_term map].
  split; [apply NoDup_singleton | split; apply NoDup_nil_2].
Qed.

Lemma dispatch_keeps_no_duplicates_witness :
  no_duplicates (long_term (memory
    (handle_action t0 (call_mom None) "remind me to call mom at 2 21"
       (idle memory_call_mom)))).
Proof.
  apply dispatch_keeps_no_duplicates; [exact call_mom_no_duplicates|].
  intros p H. discriminate H.
Defined.

Lemma dispatch_keeps_facts_distinct_witness :
  NoDup (map fact_key (facts (long_term (memory
    (handle_action t0 tea_fact_top_level "remember that I like tea"
       (idle (memory_of empty_long_term))))))).
Proof. apply dispatch_keeps_facts_distinct. apply NoDup_nil_2. Defined.

Lemma dispatch_keeps_preferences_witness :
  preferences (long_term (memory
    (handle_action t0 no_thanks "yes, thanks"
       (awaiting clear_reminders_request memory_with_preferences))))
  = preferences (long_term memory_with_preferences).
Proof.
  apply (dispatch_keeps_preferences t0 no_thanks "yes, thanks"
           (awaiting clear_reminders_request memory_with_preferences)).
  - discriminate.
  - intros p [= <-]. discriminate.
Defined.

Lemma duplicate_reminder_is_refused_witness :
  log (handle_action t0 (call_mom None) "remind me to call mom at 2 21"
         (idle memory_call_mom))
  = [Speak "I notice you already have this reminder set. Would you like me to update it instead?"].
Proof.
  destruct (duplicate_reminder_is_refused t0 (call_mom None)
              "remind me to call mom at 2 21" (idle memory_call_mom)
              (call_mom_data None) "call mom" "2024-04-02 02:21:00" "reminder"
              (t0 + seconds 120))
    as (_ & Hl & _).
  - left. reflexivity.
  - apply List.Forall_nil.
  - reflexivity.
  - reflexivity.
  - reflexivity.
  - reflexivity.
  - vm_compute. reflexivity.
  - vm_compute. discriminate.
  - reflexivity.
  - reflexivity.
  - left. reflexivity.
  - exact Hl.
Defined.

Lemma known_fact_is_refused_witness :
  log (handle_action t0 tea_fact_top_level "remember that I like tea"
         (idle (memory_of tea_twice)))
  = [Speak "I already know that  I LIKE TEA. Would you like me to update it with any new information?"].
Proof.
  destruct (known_fact_is_refused t0 tea_fact_top_level "remember that I like tea"
              (idle (memory_of tea_twice)) " I LIKE TEA" "preference")
    as (_ & Hl & _).
  - left. reflexivity.
  - apply List.Forall_nil.
  - reflexivity.
  - reflexivity.
  - reflexivity.
  - left. vm_compute. reflexivity.
  - exact Hl.
Defined.

Lemma new_reminder_is_stored_witness :
  List.filter active (reminders (long_term (memory
    (handle_action t0 (call_mom None) "remind me to call mom in two minutes"
       (idle (memory_of empty_long_term))))))
  = [new_reminder t0 "call mom" "2024-04-02 02:21:00"].
Proof.
  destruct (new_reminder_is_stored t0 (call_mom None)
              "remind me to call mom in two minutes" (idle (memory_of empty_long_term))
              (call_mom_data None) "call mom" "2024-04-02 02:21:00" "reminder"
              (t0 + seconds 120))
    as (Hr & _ & _).
  - left. reflexivity.
  - apply List.Forall_nil.
  - reflexivity.
  - reflexivity.
  - reflexivity.
  - reflexivity.
  - vm_compute. reflexivity.
  - vm_compute. discriminate.
  - reflexivity.
  - reflexivity.
  - reflexivity.
  - intros [].
  - exact Hr.
Defined.

Lemma stored_reminder_is_completed_by_tick_witness :
  In {| r_message := "call mom"; r_datetime := "2024-04-02 02:21:00";
        r_created_at := strftime t0; r_status := "completed";
        r_completed_at := Some (strftime (t0 + seconds 180)) |}
    (reminders (long_term (memory
       (check_reminders_tick (t0 + seconds 180)
          (handle_action t0 (call_mom None) "remind me to call mom in two minutes"
             (idle (memory_of empty_long_term))))))).
Proof.
  apply (stored_reminder_is_completed_by_tick t0 (t0 + seconds 180) (call_mom None)
           "remind me to call mom in two minutes" (idle (memory_of empty_long_term))
           (call_mom_data None) "call mom" "2024-04-02 02:21:00" "reminder"
           (t0 + seconds 120)).
  - left. reflexivity.
  - apply List.Forall_nil.
  - apply List.Forall_nil.
  - reflexivity.
  - reflexivity.
  - reflexivity.
  - reflexivity.
  - vm_compute. reflexivity.
  - vm_compute. discriminate.
  - vm_compute. reflexivity.
  - reflexivity.
  - reflexivity.
  - reflexivity.
  - intros [].
Defined.

Lemma past_reminder_witness :
  reminders (long_term (memory
    (handle_action (t0 + seconds 610) (intent_of "general_query" "Sure.") "yes please"
       (handle_action (t0 + seconds 600) (call_mom None) "remind me to call mom at 2 21"
          (idle (memory_of empty_long_term))))))
  = [new_reminder (t0 + seconds 610) "call mom" "2024-04-02 02:21:00"].
Proof.
  destruct (past_reminder_is_parked_then_stored_as_is (t0 + seconds 600)
              (t0 + seconds 610) (call_mom None) (intent_of "general_query" "Sure.")
              "remind me to call mom at 2 21" "yes please"
              (idle (memory_of empty_long_term))
              (call_mom_data None) "call mom" "2024-04-02 02:21:00" "reminder"
              (t0 + seconds 120))
    as (_ & _ & _ & Hr & _).
  - reflexivity.
  - apply List.Forall_nil.
  - reflexivity.
  - reflexivity.
  - reflexivity.
  - reflexivity.
  - vm_compute. reflexivity.
  - vm_compute. reflexivity.
  - reflexivity.
  - reflexivity.
  - reflexivity.
  - exact Hr.
Defined.

Lemma summary_says_nothing_witness :
  get_memory_summary t0 (memory_of empty_long_term) = Some "No active memories".
Proof.
  apply summary_says_nothing_iff; [apply List.Forall_nil|].
  split; [reflexivity|]. split; [reflexivity | apply List.Forall_nil].
Defined.

Lemma update_contextual_memory_bounds_witness :
  (List.length (recent_conversations
                  (contextual (update_contextual_memory t0 (memory_of aged_long_term))))
   <= 50)%nat.
Proof.
  destruct (update_contextual_memory_bounds t0 (memory_of aged_long_term))
    as (H & _).
  - unfold memory_of, aged_long_term. cbn [long_term conversations].
    each_element ltac:(vm_compute; discriminate).
  - unfold memory_of, aged_long_term. cbn [long_term events].
    each_element ltac:(vm_compute; discriminate).
  - exact H.
Defined.

Lemma read_back_witness :
  log (handle_action t0 read_back_request "what are my reminders"
         (idle memory_three_reminders))
  = [Speak "Here are your active reminders: call mom at April 02 at 09:00 AM; buy milk at April 02 at 06:00 PM; pay rent at April 03 at 08:00 AM";
     Notification "Active Reminders"
       "Here are your active reminders: call mom at April 02 at 09:00 AM; buy milk at April 02 at 06:00 PM; pay rent at April 03 at 08:00 AM" 10].
Proof.
  destruct (read_back_lists_sorted t0 read_back_request "what are my reminders"
              (idle memory_three_reminders))
    as (_ & _ & Hl & _).
  - left. reflexivity.
  - apply List.Forall_nil.
  - reflexivity.
  - rewrite Hl. vm_compute. reflexivity.
Defined.

Lemma query_answer_witness :
  log (handle_action t0 no_thanks "no thanks" (idle (memory_of empty_long_term)))
  = [Speak "Okay, I will leave them.";
     Notification "Assistant Response" "Okay, I will leave them." 10].
Proof.
  destruct (query_answer_is_read_from_top_level t0 no_thanks "no thanks"
              (idle (memory_of empty_long_term)))
    as (Hl & _).
  - left. reflexivity.
  - apply List.Forall_nil.
  - right. reflexivity.
  - exact Hl.
Defined.

Lemma initiate_turn_witness :
  memory (initiate_turn t0 (Some (t0 - seconds 10)) (idle memory_three_reminders))
  = memory_three_reminders.
Proof.
  destruct (initiate_turn_speaks_once t0 (Some (t0 - seconds 10))
              (idle memory_three_reminders))
    as (Hm & _).
  - unfold due_times_parse, idle, memory_three_reminders, memory_of, three_reminders.
    cbn [memory long_term reminders set_reminders].
    each_element ltac:(intros _; vm_compute; discriminate).
  - apply List.Forall_nil.
  - exact Hm.
Defined.
